(** * VIDEO_DOWNLOADER_BOT: the download-and-fit pipeline

    A shallow embedding of [video_downloader.py] (class [VideoDownloader]) and
    of the two handlers of [main.py] that drive it ([handle_url] and
    [download_and_send_video]), followed by the properties of the format
    filter, the ranking, the compression planner and the size checks.

    Conventions of the embedding:
    - a Python [float] is an IEEE 754 binary64 number, given by the
      Standard Library's executable specification [SpecFloat] at
      precision 53 and maximal exponent 1024;
    - a Python exception is a value of [exn]; code that can raise returns
      a [res]; code that also touches the disk, runs a process or talks
      to the chat runs in the monad [M] over a [world];
    - byte counts (file sizes, the size ceiling) are naturals ([N]);
      every other Python [int] is a [Z];
    - the values of floats are compared in the Standard Library's real
      numbers;
    - the external collaborators (yt-dlp, [subprocess.run], [json],
      [os.path.splitext], [urlparse]) are the fields of a record [tools]:
      every theorem quantifies over all of them. *)

From Stdlib Require Import ZArith NArith List String Ascii Bool Lia.
From Stdlib Require Import Sorting.Sorted Sorting.Permutation.
From Stdlib Require Import DecimalString.
From Stdlib Require Import Floats.SpecFloat.
From Stdlib Require Import Reals Lra.

Import ListNotations.

Open Scope Z_scope.

(** ** Python floats *)

Module PyFloat.

Definition prec : Z := 53.
Definition emax : Z := 1024.

Definition float := spec_float.

Definition fmul : float -> float -> float := SFmul prec emax.
Definition fdiv : float -> float -> float := SFdiv prec emax.

(** The correctly rounded double of an integer; an infinity when the
    integer is beyond the largest double. *)
Definition of_Z (z : Z) : float := binary_normalize prec emax z 0 false.

(** The literals [0.8] and [0.6] of the source: the doubles nearest to
    8/10 and 6/10. *)
Definition lit_0_8 : float := S754_finite false 7205759403792794 (-53).
Definition lit_0_6 : float := S754_finite false 5404319552844595 (-53).

Definition is_zero (f : float) : bool :=
  match f with S754_zero _ => true | _ => false end.

Definition is_finite (f : float) : bool :=
  match f with S754_zero _ | S754_finite _ _ _ => true | _ => false end.

(** [0 < f], as Python's [f > 0] on floats. *)
Definition is_positive (f : float) : bool :=
  SFltb (S754_zero false) f.

(** Truncation toward zero of a finite float (what [int(f)] returns). *)
Definition trunc (f : float) : option Z :=
  match f with
  | S754_zero _ => Some 0
  | S754_finite s m e => Some (cond_Zopp s (Z.shiftl (Zpos m) e))
  | _ => None
  end.

(** The mathematical floor of a finite float. *)
Definition floor (f : float) : option Z :=
  match f with
  | S754_zero _ => Some 0
  | S754_finite s m e => Some (Z.shiftl (cond_Zopp s (Zpos m)) e)
  | _ => None
  end.

End PyFloat.

Import PyFloat.

(** ** Exceptions and results *)

Inductive exn : Type :=
| ZeroDivisionError
| OverflowError
| ValueError
| KeyError
| OSError
| DownloadError.

Inductive res (A : Type) : Type :=
| Ok (a : A)
| Raise (e : exn).

Arguments Ok {A} a.
Arguments Raise {A} e.

Definition res_to_option {A : Type} (r : res A) : option A :=
  match r with Ok a => Some a | Raise _ => None end.

(** [float(n)] for an [int]: [OverflowError] when [n] is too large. *)
Definition py_float_of_int (n : Z) : res float :=
  let f := of_Z n in
  if is_finite f then Ok f else Raise OverflowError.

(** [int(f)]: truncation; [OverflowError] on an infinity and
    [ValueError] on a NaN. *)
Definition py_int (f : float) : res Z :=
  match f with
  | S754_infinity _ => Raise OverflowError
  | S754_nan => Raise ValueError
  | _ => match trunc f with Some z => Ok z | None => Raise ValueError end
  end.

(** [str(n)] and [f"{n}"] for an [int]. *)
Definition py_str_int (n : Z) : string :=
  NilZero.string_of_int (Z.to_int n).

(** ** Strings *)

Open Scope string_scope.

Definition lower_ascii (c : ascii) : ascii :=
  let n := nat_of_ascii c in
  if (Nat.leb 65 n && Nat.leb n 90)%bool then ascii_of_nat (n + 32) else c.

(** [s.lower()]. *)
Fixpoint lower (s : string) : string :=
  match s with
  | EmptyString => EmptyString
  | String c r => String (lower_ascii c) (lower r)
  end.

(** [needle in s]. *)
Fixpoint contains (needle s : string) : bool :=
  (prefix needle s ||
   match s with
   | EmptyString => false
   | String _ r => contains needle r
   end)%bool.

(** The text before the last ['.'] of [s], when [s] has one. *)
Fixpoint before_last_dot (s : string) : option string :=
  match s with
  | EmptyString => None
  | String c r =>
      match before_last_dot r with
      | Some h => Some (String c h)
      | None => if Ascii.eqb c "."%char then Some EmptyString else None
      end
  end.

(** [s.rsplit('.', 1)[0]]. *)
Definition rsplit_dot_head (s : string) : string :=
  match before_last_dot s with Some h => h | None => s end.

(** [os.path.join(a, b)] on POSIX paths. *)
Definition os_path_join (a b : string) : string :=
  if prefix "/" b then b
  else if (String.eqb a "" || String.eqb (substring (String.length a - 1) 1 a) "/")%bool
       then a ++ b
       else a ++ "/" ++ b.

(** Truthiness of [d.get(key)] for a string value: present and non-empty. *)
Definition truthy_str (s : option string) : bool :=
  match s with
  | Some (String _ _) => true
  | _ => false
  end.

(** ** Format metadata *)

(** One entry of [info['formats']], with the fields and the types of the
    specification's MediaFormat: a key that the dictionary lacks is
    [None], a key it has holds a value of the type given here;
    [format_id] is always present. *)
Record MediaFormat : Type := {
  format_id : string;
  vcodec : option string;
  url : option string;
  format_note : option string;
  height : option Z;
  filesize : option N;
  ext : option string
}.

(** [duration] of the extractor's report: an [int] or a [float]. *)
Inductive pynum : Type :=
| PyInt (n : Z)
| PyFloat (f : float).

Record VideoInfo : Type := {
  title : option string;
  duration : option pynum;
  uploader : option string;
  formats : option (list MediaFormat)
}.

Definition option_default {A : Type} (d : A) (o : option A) : A :=
  match o with Some a => a | None => d end.

(** [fmt.get('height', 0)]. *)
Definition height_or_0 (fmt : MediaFormat) : Z :=
  option_default 0%Z (height fmt).

(** [VideoDownloader._is_format_downloadable]. *)
Definition _is_format_downloadable (fmt : MediaFormat) : bool :=
  if match vcodec fmt with Some v => String.eqb v "none" | None => false end
  then false
  else if negb (truthy_str (url fmt)) then false
  else
    let note := option_default "" (format_note fmt) in
    if (negb (String.eqb note "") && contains "unavailable" (lower note))%bool
    then false
    else
      let h := height_or_0 fmt in
      if ((h >? 0) && (h <? 144))%bool%Z then false
      else if match filesize fmt with Some 0%N => true | _ => false end
      then false
      else true.

(** The loop of [extract_info] that builds [valid_formats]. *)
Definition valid_formats (fmts : list MediaFormat) : list MediaFormat :=
  filter _is_format_downloadable fmts.

(** ** The world *)

(** A button of the inline keyboard. *)
Record button : Type := {
  button_text : string;
  callback_data : string
}.

(** The texts the bot shows, by what they say. *)
Inductive message : Type :=
| MsgInvalidUrl
| MsgProcessing
| MsgExtractError
| MsgNotAvailable
| MsgSelectQuality (info_text : string)
| MsgProcessFailed (e : exn)
| MsgDownloading
| MsgDownloadFailed
| MsgCompressing
| MsgCompressionFailed
| MsgUploading
| MsgDownloadError (e : exn).

(** What a run does to the outside, in order. *)
Inductive event : Type :=
| EvRun (cmd : list string)
    (** [subprocess.run(cmd, ...)] was called *)
| EvDiv (divisor : float)
    (** a float division was evaluated with this divisor *)
| EvReply (text : message)
    (** [update.message.reply_text] *)
| EvEdit (text : message) (keyboard : option (list button))
    (** [status_message.edit_text] *)
| EvDownload (url format_id : string)
    (** yt-dlp was asked to download *)
| EvSendVideo (path : string)
    (** [context.bot.send_video] *)
| EvDeleteStatus.
    (** [status_message.delete] *)

Definition filesystem := string -> option N.

Record world : Type := {
  fs : filesystem;                       (** path to size of the files on disk *)
  user_data : list (string * string);    (** [context.user_data] *)
  events : list event                    (** most recent first *)
}.

Definition log (ev : event) (w : world) : world :=
  {| fs := fs w; user_data := user_data w; events := ev :: events w |}.

Definition set_fs (f : filesystem) (w : world) : world :=
  {| fs := f; user_data := user_data w; events := events w |}.

Definition fs_remove (p : string) (f : filesystem) : filesystem :=
  fun q => if String.eqb q p then None else f q.

Definition fs_write (p : string) (size : N) (f : filesystem) : filesystem :=
  fun q => if String.eqb q p then Some size else f q.

(** ** State and exceptions *)

Definition M (A : Type) : Type := world -> res A * world.

Definition ret {A : Type} (a : A) : M A := fun w => (Ok a, w).

Definition raise {A : Type} (e : exn) : M A := fun w => (Raise e, w).

Definition bind {A B : Type} (c : M A) (k : A -> M B) : M B :=
  fun w =>
    match c w with
    | (Ok a, w') => k a w'
    | (Raise e, w') => (Raise e, w')
    end.

Notation "x <- c ;; k" := (bind c (fun x => k))
  (at level 61, c at next level, right associativity).
Notation "c ;;; k" := (bind c (fun _ => k))
  (at level 61, right associativity).

(** [try: body  except Exception: handler]. *)
Definition try_except {A : Type} (body : M A) (handler : exn -> M A) : M A :=
  fun w =>
    match body w with
    | (Ok a, w') => (Ok a, w')
    | (Raise e, w') => handler e w'
    end.

Definition lift {A : Type} (r : res A) : M A := fun w => (r, w).

Definition emit (ev : event) : M unit := fun w => (Ok tt, log ev w).

(** [os.path.exists]. *)
Definition os_path_exists (p : string) : M bool :=
  fun w => (Ok (match fs w p with Some _ => true | None => false end), w).

(** [os.path.getsize]. *)
Definition os_path_getsize (p : string) : M N :=
  fun w => (match fs w p with Some n => Ok n | None => Raise OSError end, w).

(** [os.remove]. *)
Definition os_remove (p : string) : M unit :=
  fun w =>
    match fs w p with
    | Some _ => (Ok tt, set_fs (fs_remove p (fs w)) w)
    | None => (Raise OSError, w)
    end.

(** [a / b] on floats. *)
Definition py_truediv (a b : float) : M float :=
  fun w =>
    (if is_zero b then Raise ZeroDivisionError else Ok (fdiv a b),
     log (EvDiv b) w).

(** ** External collaborators *)

(** A finished [subprocess.run]. *)
Record CompletedProcess : Type := {
  returncode : Z;
  stdout : string;
  stderr : string
}.

Record tools : Type := {
  (** [subprocess.run(cmd, stdout=PIPE, stderr=PIPE, text=True)]: the
      process could not be started ([OSError]) or it ran, possibly
      changing the disk. *)
  subprocess_run : list string -> filesystem -> res CompletedProcess * filesystem;
  (** [float(json.loads(stdout)['format']['duration'])]. *)
  json_format_duration : string -> res float;
  (** [YoutubeDL(opts).extract_info(url, download=False)]; [None] also
      stands for an empty report. *)
  ydl_extract_info : string -> res (option VideoInfo);
  (** The closure [download] of [download_video]: [extract_info] with
      [download=True], then [prepare_filename]. *)
  ydl_download : string -> string -> string -> filesystem -> res string * filesystem;
  (** [os.path.splitext(p)[0]]. *)
  os_path_splitext_root : string -> string;
  (** [utils.is_valid_url]. *)
  is_valid_url : string -> bool;
  (** [utils.format_file_size]; only the labels of the buttons use it. *)
  format_file_size : N -> string
}.

Definition run_process (T : tools) (cmd : list string) : M CompletedProcess :=
  fun w =>
    let '(r, f) := subprocess_run T cmd (fs w) in
    (r, set_fs f (log (EvRun cmd) w)).

(** ** [video_downloader.py] *)

Definition with_formats (info : VideoInfo) (fmts : list MediaFormat) : VideoInfo :=
  {| title := title info; duration := duration info;
     uploader := uploader info; formats := Some fmts |}.

(** [VideoDownloader.get_video_info]. *)
Definition get_video_info (T : tools) (url : string) : M (option VideoInfo) :=
  try_except
    (info <- lift (ydl_extract_info T url) ;;
     ret match info with
         | Some i =>
             match formats i with
             | Some fmts => Some (with_formats i (valid_formats fmts))
             | None => Some i
             end
         | None => None
         end)
    (fun _ => ret None).

(** The loop of [download_video] over the candidate extensions. *)
Fixpoint first_existing (base_name : string) (exts : list string) : M (option string) :=
  match exts with
  | [] => ret None
  | e :: rest =>
      let potential_file := base_name ++ e in
      found <- os_path_exists potential_file ;;
      if found then ret (Some potential_file) else first_existing base_name rest
  end.

(** [VideoDownloader.download_video]. *)
Definition download_video (T : tools) (url output_dir format_id : string)
  : M (option string) :=
  try_except
    (let output_template := os_path_join output_dir "%(title)s.%(ext)s" in
     filename <- (fun w =>
                    let '(r, f) := ydl_download T url format_id output_template (fs w) in
                    (r, set_fs f (log (EvDownload url format_id) w))) ;;
     found <- os_path_exists filename ;;
     if found then ret (Some filename)
     else
       let base_name := os_path_splitext_root T filename in
       first_existing base_name [".mp4"; ".mkv"; ".webm"; ".avi"; ".mov"])
    (fun _ => ret None).

(** [VideoDownloader._get_video_duration]. *)
Definition _get_video_duration (T : tools) (video_path : string) : M (option float) :=
  try_except
    (let cmd := ["ffprobe"; "-v"; "quiet"; "-print_format"; "json";
                 "-show_format"; "-show_streams"; video_path] in
     process <- run_process T cmd ;;
     if (returncode process =? 0)%Z then
       d <- lift (json_format_duration T (stdout process)) ;;
       ret (Some d)
     else ret None)
    (fun _ => ret None).

(** [int((max_size_bytes * 0.8 * 8) / duration / 1000)]. *)
Definition stage1_target_bitrate (max_size_bytes : N) (duration : float) : M Z :=
  m <- lift (py_float_of_int (Z.of_N max_size_bytes)) ;;
  q <- py_truediv (fmul (fmul m lit_0_8) (of_Z 8)) duration ;;
  k <- py_truediv q (of_Z 1000) ;;
  lift (py_int k).

(** [int((max_size_bytes * 0.6 * 8) / duration / 1000)]. *)
Definition stage2_target_bitrate (max_size_bytes : N) (duration : float) : M Z :=
  m <- lift (py_float_of_int (Z.of_N max_size_bytes)) ;;
  q <- py_truediv (fmul (fmul m lit_0_6) (of_Z 8)) duration ;;
  k <- py_truediv q (of_Z 1000) ;;
  lift (py_int k).

Definition stage1_output_path (input_path : string) : string :=
  rsplit_dot_head input_path ++ "_compressed.mp4".

Definition stage2_output_path (input_path : string) : string :=
  rsplit_dot_head input_path ++ "_compressed_aggressive.mp4".

Definition stage1_cmd (input_path : string) (target_bitrate : Z) : list string :=
  ["ffmpeg"; "-i"; input_path; "-c:v"; "libx264";
   "-b:v"; py_str_int target_bitrate ++ "k";
   "-c:a"; "aac"; "-b:a"; "128k"; "-preset"; "fast";
   "-movflags"; "+faststart"; "-y"; stage1_output_path input_path].

Definition stage2_cmd (input_path : string) (target_bitrate : Z) : list string :=
  ["ffmpeg"; "-i"; input_path; "-c:v"; "libx264";
   "-b:v"; py_str_int target_bitrate ++ "k";
   "-c:a"; "aac"; "-b:a"; "64k"; "-preset"; "ultrafast"; "-crf"; "28";
   "-movflags"; "+faststart";
   "-vf"; "scale=trunc(iw/2)*2:trunc(ih/2)*2"; "-y";
   stage2_output_path input_path].

(** [process.returncode == 0 and os.path.exists(output_path)]. *)
Definition encode_succeeded (process : CompletedProcess) (output_path : string)
  : M bool :=
  if (returncode process =? 0)%Z then os_path_exists output_path else ret false.

(** [VideoDownloader._compress_aggressively]. *)
Definition _compress_aggressively (T : tools) (input_path : string)
    (max_size_bytes : N) (duration : float) : M (option string) :=
  try_except
    (target_bitrate <- stage2_target_bitrate max_size_bytes duration ;;
     if (target_bitrate <? 50)%Z then ret None
     else
       let output_path := stage2_output_path input_path in
       process <- run_process T (stage2_cmd input_path target_bitrate) ;;
       ok <- encode_succeeded process output_path ;;
       if ok then
         compressed_size <- os_path_getsize output_path ;;
         if (compressed_size <=? max_size_bytes)%N then ret (Some output_path)
         else os_remove output_path ;;; ret None
       else ret None)
    (fun _ => ret None).

(** [VideoDownloader.compress_video].  The test [not duration] holds of
    [None] and of a zero. *)
Definition compress_video (T : tools) (input_path : string) (max_size_bytes : N)
  : M (option string) :=
  try_except
    (present <- os_path_exists input_path ;;
     if negb present then ret None
     else
       probed <- _get_video_duration T input_path ;;
       match probed with
       | None => ret None
       | Some duration =>
           if is_zero duration then ret None
           else
             target_bitrate <- stage1_target_bitrate max_size_bytes duration ;;
             if (target_bitrate <? 100)%Z then ret None
             else
               let output_path := stage1_output_path input_path in
               process <- run_process T (stage1_cmd input_path target_bitrate) ;;
               ok <- encode_succeeded process output_path ;;
               if ok then
                 compressed_size <- os_path_getsize output_path ;;
                 if (compressed_size <=? max_size_bytes)%N
                 then ret (Some output_path)
                 else
                   os_remove output_path ;;;
                   _compress_aggressively T input_path max_size_bytes duration
               else ret None
       end)
    (fun _ => ret None).

(** ** [main.py] *)

(** The comprehension of [handle_url] that keeps the video formats. *)
Definition video_formats_of (fmts : list MediaFormat) : list MediaFormat :=
  filter (fun f =>
            (negb match vcodec f with Some v => String.eqb v "none" | None => false end
             && truthy_str (url f))%bool)
         fmts.

(** [list.sort(key=lambda x: x.get('height', 0), reverse=True)]: a stable
    sort, larger heights first.  [insert_by_height x l] puts [x] in front
    of the first element that is not strictly higher. *)
Fixpoint insert_by_height (x : MediaFormat) (l : list MediaFormat)
  : list MediaFormat :=
  match l with
  | [] => [x]
  | y :: l' =>
      if (height_or_0 x <? height_or_0 y)%Z
      then y :: insert_by_height x l'
      else x :: l
  end.

Fixpoint sort_by_height (l : list MediaFormat) : list MediaFormat :=
  match l with
  | [] => []
  | x :: l' => insert_by_height x (sort_by_height l')
  end.

(** [[f for f in video_formats if f.get('height', 0) >= 360]]. *)
Definition good_formats_of (fmts : list MediaFormat) : list MediaFormat :=
  filter (fun f => (height_or_0 f >=? 360)%Z) fmts.

(** The label of a quality button. *)
Definition quality_text (T : tools) (fmt : MediaFormat) : string :=
  let h := match height fmt with Some h => py_str_int h | None => "Unknown" end in
  let e := option_default "mp4" (ext fmt) in
  let t1 := h ++ "p" in
  let t2 := if String.eqb e "mp4" then t1 else t1 ++ " (" ++ e ++ ")" in
  match filesize fmt with
  | Some (Npos p) => t2 ++ " - " ++ format_file_size T (Npos p)
  | _ => t2
  end.

Definition quality_button (T : tools) (message_id : Z) (fmt : MediaFormat) : button :=
  {| button_text := quality_text T fmt;
     callback_data := "download_" ++ format_id fmt ++ "_" ++ py_str_int message_id |}.

Definition best_button (message_id : Z) : button :=
  {| button_text := "🏆 Best Quality Available";
     callback_data := "download_best_" ++ py_str_int message_id |}.

(** The keyboard of [handle_url]: the first five good formats, then the
    best-quality option. *)
Definition build_keyboard (T : tools) (message_id : Z) (good : list MediaFormat)
  : list button :=
  map (quality_button T message_id) (firstn 5 good) ++ [best_button message_id].

Definition pad2 (n : Z) : string :=
  if (n <? 10)%Z then "0" ++ py_str_int n else py_str_int n.

(** ["\n"]. *)
Definition nl : string := String (ascii_of_nat 10) EmptyString.

(** The duration line of the selection text: nothing when [duration] is
    absent or zero; the format code [02d] raises [ValueError] on a
    float. *)
Definition duration_line (d : option pynum) : res string :=
  match d with
  | None => Ok ""
  | Some (PyInt n) =>
      if (n =? 0)%Z then Ok ""
      else Ok ("⏱ Duration: " ++ py_str_int (n / 60) ++ ":" ++ pad2 (n mod 60)
               ++ nl)
  | Some (PyFloat f) =>
      if is_zero f then Ok "" else Raise ValueError
  end.

(** [info_text] of [handle_url]. *)
Definition selection_text (info : VideoInfo) : res string :=
  match duration_line (duration info) with
  | Ok d =>
      Ok ("🎥 *" ++ option_default "Unknown" (title info) ++ "*" ++ nl ++ nl
          ++ d
          ++ "👤 Uploader: " ++ option_default "Unknown" (uploader info)
          ++ nl ++ nl
          ++ "Select video quality:")
  | Raise e => Raise e
  end.

Definition MAX_SIZE : N := 50 * 1024 * 1024.

(** [open(download_path, 'rb')] and [context.bot.send_video]. *)
Definition send_video (path : string) : M unit :=
  present <- os_path_exists path ;;
  if present then emit (EvSendVideo path) else raise OSError.

(** [VideoDownloaderBot.download_and_send_video]. *)
Definition download_and_send_video (T : tools) (temp_dir url format_id : string)
  : M unit :=
  try_except
    (emit (EvEdit MsgDownloading None) ;;;
     download_path <- download_video T url temp_dir format_id ;;
     match download_path with
     | Some (String c r as path) =>
         present <- os_path_exists path ;;
         if negb present then emit (EvEdit MsgDownloadFailed None)
         else
           file_size <- os_path_getsize path ;;
           let finish (p : string) : M unit :=
             emit (EvEdit MsgUploading None) ;;;
             send_video p ;;;
             emit EvDeleteStatus ;;;
             try_except (os_remove p) (fun _ => ret tt) in
           if (MAX_SIZE <? file_size)%N then
             emit (EvEdit MsgCompressing None) ;;;
             compressed_path <- compress_video T path MAX_SIZE ;;
             match compressed_path with
             | Some (String c' r' as cpath) =>
                 cpresent <- os_path_exists cpath ;;
                 if cpresent then finish cpath
                 else emit (EvEdit MsgCompressionFailed None)
             | _ => emit (EvEdit MsgCompressionFailed None)
             end
           else finish path
     | _ => emit (EvEdit MsgDownloadFailed None)
     end)
    (fun e => emit (EvEdit (MsgDownloadError e) None)).

Definition set_user_data (key value : string) : M unit :=
  fun w => (Ok tt, {| fs := fs w; user_data := (key, value) :: user_data w;
                      events := events w |}).

(** [VideoDownloaderBot.handle_url], for the stripped text [url] of the
    message [message_id]. *)
Definition handle_url (T : tools) (temp_dir : string) (message_id : Z)
    (url : string) : M unit :=
  if negb (is_valid_url T url) then emit (EvReply MsgInvalidUrl)
  else
    emit (EvReply MsgProcessing) ;;;
    try_except
      (video_info <- get_video_info T url ;;
       match video_info with
       | None => emit (EvEdit MsgExtractError None)
       | Some info =>
           let fmts := option_default [] (formats info) in
           let video_formats := video_formats_of fmts in
           match video_formats with
           | [] => emit (EvEdit MsgNotAvailable None)
           | _ :: _ =>
               let video_formats := sort_by_height video_formats in
               let good_formats := good_formats_of video_formats in
               if (1 <? Z.of_nat (List.length good_formats))%Z then
                 let keyboard := build_keyboard T message_id good_formats in
                 info_text <- lift (selection_text info) ;;
                 emit (EvEdit (MsgSelectQuality info_text) (Some keyboard)) ;;;
                 set_user_data ("url_" ++ py_str_int message_id) url
               else
                 download_and_send_video T temp_dir url "best"
           end
       end)
      (fun e => emit (EvEdit (MsgProcessFailed e) None)).

(** ** Observations on a run *)

Definition is_encode (ev : event) : bool :=
  match ev with
  | EvRun (tool :: _) => String.eqb tool "ffmpeg"
  | _ => false
  end.

(** The encodes (runs of [ffmpeg]) a world has seen. *)
Definition encodes (w : world) : list event := filter is_encode (events w).

Definition is_zero_division (ev : event) : bool :=
  match ev with
  | EvDiv d => is_zero d
  | _ => false
  end.

(** The float divisions by zero a world has seen. *)
Definition zero_divisions (w : world) : list event :=
  filter is_zero_division (events w).

Definition is_division (ev : event) : bool :=
  match ev with
  | EvDiv _ => true
  | _ => false
  end.

Definition divisions (w : world) : list event := filter is_division (events w).

Definition same_zero_divisions (w w' : world) : Prop :=
  zero_divisions w' = zero_divisions w.

(** The computation [c] keeps the relation [P] between the world it
    starts in and the world it ends in. *)
Definition preserves (P : world -> world -> Prop) {A : Type} (c : M A) : Prop :=
  forall w, P w (snd (c w)).

(** The command line of the probe. *)
Definition probe_cmd (video_path : string) : list string :=
  ["ffprobe"; "-v"; "quiet"; "-print_format"; "json";
   "-show_format"; "-show_streams"; video_path].

(** The rest of [compress_video] once the stage-1 bitrate passed the
    floor: the encode and the check of its output. *)
Definition stage1_encode_and_check (T : tools) (input_path : string)
    (max_size_bytes : N) (duration : float) (target_bitrate : Z)
  : M (option string) :=
  let output_path := stage1_output_path input_path in
  process <- run_process T (stage1_cmd input_path target_bitrate) ;;
  ok <- encode_succeeded process output_path ;;
  if ok then
    compressed_size <- os_path_getsize output_path ;;
    if (compressed_size <=? max_size_bytes)%N then ret (Some output_path)
    else
      os_remove output_path ;;;
      _compress_aggressively T input_path max_size_bytes duration
  else ret None.

(** The rest of [_compress_aggressively] once the stage-2 bitrate passed
    the floor. *)
Definition stage2_encode_and_check (T : tools) (input_path : string)
    (max_size_bytes : N) (target_bitrate : Z) : M (option string) :=
  let output_path := stage2_output_path input_path in
  process <- run_process T (stage2_cmd input_path target_bitrate) ;;
  ok <- encode_succeeded process output_path ;;
  if ok then
    compressed_size <- os_path_getsize output_path ;;
    if (compressed_size <=? max_size_bytes)%N then ret (Some output_path)
    else os_remove output_path ;;; ret None
  else ret None.

(** The last steps of [download_and_send_video]: upload, drop the
    status message, remove the file. *)
Definition delivered (path : string) (w : world) : world :=
  set_fs (fs_remove path (fs w))
    (log EvDeleteStatus
       (log (EvSendVideo path) (log (EvEdit MsgUploading None) w))).

(** ** The statements of the specification *)

(** [a] may stand before [b] in the ranking. *)
Definition ranked_before (a b : MediaFormat) : Prop :=
  (height_or_0 b <= height_or_0 a)%Z.

Definition has_height (h : Z) (f : MediaFormat) : bool :=
  (height_or_0 f =? h)%Z.

(** The value of [max_size_bytes * fraction * 8 / duration / 1000] in
    binary64 arithmetic. *)
Definition bitrate_quotient (fraction : float) (max_size_bytes : N)
    (duration : float) : float :=
  fdiv (fdiv (fmul (fmul (of_Z (Z.of_N max_size_bytes)) fraction) (of_Z 8))
             duration)
       (of_Z 1000).

(** [floor(max_size_bytes * 0.8 * 8 / duration_seconds / 1000)]. *)
Definition stage1_bitrate_spec (max_size_bytes : N) (duration : float)
  : option Z :=
  floor (bitrate_quotient lit_0_8 max_size_bytes duration).

(** [floor(max_size_bytes * 0.6 * 8 / duration_seconds / 1000)]. *)
Definition stage2_bitrate_spec (max_size_bytes : N) (duration : float)
  : option Z :=
  floor (bitrate_quotient lit_0_6 max_size_bytes duration).



(** The failure kinds of the error taxonomy. *)
Inductive failure_kind : Type :=
| ExtractionError
| NoDownloadableFormat
| DownloadTransferError
| FileNotFound
| ProbeError
| EncodeFailure
| SizeBudgetExceeded.

(** ** Sample collaborators and worlds *)

Definition completed (rc : Z) : CompletedProcess :=
  {| returncode := rc; stdout := ""; stderr := "" |}.

(** An encoder that exits with [rc path] and leaves [written path] bytes
    at its output path [path], the last argument of the command. *)
Definition sample_encoder (rc : string -> Z) (written : string -> option N)
    (cmd : list string) (f : filesystem) : res CompletedProcess * filesystem :=
  let out := last cmd "" in
  (Ok (completed (rc out)),
   match written out with Some n => fs_write out n f | None => f end).

(** Collaborators whose probe exits with [probe_rc] and reports
    [probed], whose encoder is [encoder], whose extractor reports [info]
    and whose download leaves [downloaded] bytes at ["/tmp/v/clip.mp4"]. *)
Definition sample_tools (probe_rc : Z) (probed : res float)
    (encoder : list string -> filesystem -> res CompletedProcess * filesystem)
    (info : res (option VideoInfo)) (downloaded : res N) : tools :=
  {| subprocess_run := fun cmd f =>
       match cmd with
       | tool :: _ =>
           if String.eqb tool "ffprobe" then (Ok (completed probe_rc), f)
           else encoder cmd f
       | [] => (Raise OSError, f)
       end;
     json_format_duration := fun _ => probed;
     ydl_extract_info := fun _ => info;
     ydl_download := fun _ _ _ f =>
       match downloaded with
       | Ok n => (Ok "/tmp/v/clip.mp4", fs_write "/tmp/v/clip.mp4" n f)
       | Raise e => (Raise e, f)
       end;
     os_path_splitext_root := rsplit_dot_head;
     is_valid_url := fun _ => true;
     format_file_size := fun _ => "?" |}.

Definition empty_world : world :=
  {| fs := fun _ => None; user_data := []; events := [] |}.

(** A disk holding the one file [path]. *)
Definition world_with_file (path : string) (size : N) : world :=
  {| fs := fs_write path size (fun _ => None); user_data := []; events := [] |}.

Definition no_info : res (option VideoInfo) := Ok None.

(** A two-minute clip of 60 MB; the first encode exits with status 1
    after writing 4096 bytes. *)
Definition failing_encode_tools : tools :=
  sample_tools 0 (Ok (of_Z 120))
    (sample_encoder (fun _ => 1%Z) (fun _ => Some 4096%N))
    no_info (Ok 60000000%N).

(** The same clip; the probe exits with status 1. *)
Definition failing_probe_tools : tools :=
  sample_tools 1 (Ok (of_Z 120))
    (sample_encoder (fun _ => 0%Z) (fun _ => Some 4096%N))
    no_info (Ok 60000000%N).

(** The same clip; both encodes succeed, the first with 70 MB, the
    second with 40 MB. *)
Definition two_stage_tools : tools :=
  sample_tools 0 (Ok (of_Z 120))
    (sample_encoder (fun _ => 0%Z)
       (fun out => if String.eqb out "/tmp/v/clip_compressed.mp4"
                   then Some 70000000%N else Some 40000000%N))
    no_info (Ok 60000000%N).

(** The same clip; the first encode succeeds with 40 MB. *)
Definition one_stage_tools : tools :=
  sample_tools 0 (Ok (of_Z 120))
    (sample_encoder (fun _ => 0%Z) (fun _ => Some 40000000%N))
    no_info (Ok 60000000%N).

(** A download of exactly the ceiling. *)
Definition ceiling_tools : tools :=
  sample_tools 0 (Ok (of_Z 120))
    (sample_encoder (fun _ => 0%Z) (fun _ => Some 40000000%N))
    no_info (Ok MAX_SIZE).

Definition sample_format (id : string) (h : option Z) : MediaFormat :=
  {| format_id := id; vcodec := Some "avc1"; url := Some "https://cdn/x";
     format_note := None; height := h; filesize := None; ext := Some "mp4" |}.

Definition sample_info (fmts : list MediaFormat) : VideoInfo :=
  {| title := Some "clip"; duration := Some (PyInt 125);
     uploader := Some "someone"; formats := Some fmts |}.

(** An extractor that reports the formats [fmts]. *)
Definition catalog_tools (fmts : list MediaFormat) : tools :=
  sample_tools 0 (Ok (of_Z 120))
    (sample_encoder (fun _ => 0%Z) (fun _ => Some 40000000%N))
    (Ok (Some (sample_info fmts))) (Ok 1000000%N).

(** A clip of 4000 seconds. *)
Definition long_clip_tools : tools :=
  sample_tools 0 (Ok (of_Z 4000))
    (sample_encoder (fun _ => 0%Z) (fun _ => Some 40000000%N))
    no_info (Ok 60000000%N).

(** A clip whose probe reports a duration of zero. *)
Definition zero_duration_tools : tools :=
  sample_tools 0 (Ok (S754_zero false))
    (sample_encoder (fun _ => 0%Z) (fun _ => Some 40000000%N))
    no_info (Ok 60000000%N).

Definition clip : string := "/tmp/v/clip.mp4".

Definition clip_world : world := world_with_file clip 60000000.

(** The extractor and the download both raise. *)
Definition failing_extraction_tools : tools :=
  sample_tools 0 (Ok (of_Z 120))
    (sample_encoder (fun _ => 0%Z) (fun _ => Some 40000000%N))
    (Raise DownloadError) (Raise DownloadError).

(** The first encode succeeds with 70 MB; the second exits with status 1. *)
Definition failing_second_encode_tools : tools :=
  sample_tools 0 (Ok (of_Z 120))
    (sample_encoder
       (fun out => if String.eqb out "/tmp/v/clip_compressed.mp4" then 0%Z else 1%Z)
       (fun out => if String.eqb out "/tmp/v/clip_compressed.mp4"
                   then Some 70000000%N else None))
    no_info (Ok 60000000%N).

Definition audio_only : MediaFormat :=
  {| format_id := "140"; vcodec := Some "none"; url := Some "https://cdn/a";
     format_note := None; height := None; filesize := None; ext := Some "m4a" |}.

(** The world after [handle_url] showed the quality selection. *)
Definition selection_shown (message_id : Z) (url text : string)
    (keyboard : list button) (w : world) : world :=
  {| fs := fs w;
     user_data := ("url_" ++ py_str_int message_id, url) :: user_data w;
     events := EvEdit (MsgSelectQuality text) (Some keyboard)
               :: EvReply MsgProcessing :: events w |}.

Definition two_good_formats : list MediaFormat :=
  [sample_format "18" (Some 480%Z); sample_format "22" (Some 720%Z)].

Definition one_good_format : list MediaFormat :=
  [sample_format "18" (Some 480%Z); sample_format "17" (Some 144%Z)].

(** A float that is not below zero: its sign bit is clear, or it is a NaN. *)
Definition not_negative (f : float) : bool :=
  match f with
  | S754_zero s | S754_infinity s | S754_finite s _ _ => negb s
  | S754_nan => true
  end.

(** ** Real values of floats *)

(** [2^e] as a real. *)
Definition bpow (e : Z) : R := powerRZ 2 e.

(** The real value of a finite float; [0] for the others. *)
Definition B2R (f : float) : R :=
  match f with
  | S754_finite s m e => (IZR (cond_Zopp s (Zpos m)) * bpow e)%R
  | _ => 0%R
  end.

(** A float that is [+0], or finite and above zero with an exponent in
    range. *)
Definition nonneg_finite (f : float) : Prop :=
  match f with
  | S754_zero false => True
  | S754_finite false _ e => (e <= emax - prec)%Z
  | _ => False
  end.

(** [r] is what rounding the real [X] may give: a float within a
    thousandth of [X] (up to [2^emin]), or the infinity when [X] is
    about [2^emax] or more. *)
Definition rounds_to (X : R) (r : float) : Prop :=
  (nonneg_finite r /\ (B2R r < bpow emax)%R /\
   (X * (1 - / 1000) - bpow (3 - emax - prec) <= B2R r)%R /\
   (B2R r <= X * (1 + / 1000) + bpow (3 - emax - prec))%R) \/
  (r = S754_infinity false /\ (bpow emax * (1 - / 100) <= X)%R).

(** What [binary_round_aux] returns once the mantissa [m1] and the
    exponent [e'] of the rounded value are known. *)
Definition round_result (s : bool) (m1 e' : Z) : float :=
  if (m1 =? 0)%Z then S754_zero s
  else if (m1 <? 2 ^ 53)%Z then
    if (e' <=? 971)%Z then S754_finite s (Z.to_pos m1) e' else S754_infinity s
  else
    if (e' + 1 <=? 971)%Z then S754_finite s (Z.to_pos (2 ^ 52)) (e' + 1)
    else S754_infinity s.

(** A float that is not above zero: a zero, a NaN, or its sign bit is set. *)
Definition not_positive (f : float) : bool :=
  match f with
  | S754_zero _ | S754_nan => true
  | S754_infinity s | S754_finite s _ _ => s
  end.

(** The selection text for [sample_info]. *)
Definition sample_selection_text : string :=
  "🎥 *clip*" ++ nl ++ nl ++ "⏱ Duration: 2:05" ++ nl
  ++ "👤 Uploader: someone" ++ nl ++ nl ++ "Select video quality:".

(** A report with two good formats and a duration of 125.5 seconds. *)
Definition float_duration_info : VideoInfo :=
  {| title := Some "clip";
     duration := Some (PyFloat (S754_finite false 8831277394296832 (-46)));
     uploader := Some "someone"; formats := Some two_good_formats |}.

Definition float_duration_tools : tools :=
  sample_tools 0 (Ok (of_Z 120))
    (sample_encoder (fun _ => 0%Z) (fun _ => Some 40000000%N))
    (Ok (Some float_duration_info)) (Ok 1000000%N).


(** ** Further observations *)

(** The computation [c] adds at most [n] encodes to the log. *)
Definition adds_encodes (n : nat) {A : Type} (c : M A) : Prop :=
  forall w,
    (List.length (encodes (snd (c w))) <= List.length (encodes w) + n)%nat.

Definition is_upload (ev : event) : bool :=
  match ev with
  | EvSendVideo _ => true
  | _ => false
  end.

(** The uploads ([context.bot.send_video]) a world has seen. *)
Definition uploads (w : world) : list event := filter is_upload (events w).

Definition same_uploads (w w' : world) : Prop := uploads w' = uploads w.

(** The extensions [download_video] tries when the reported file is
    missing, in its order. *)
Definition fallback_exts : list string :=
  [".mp4"; ".mkv"; ".webm"; ".avi"; ".mov"].

(** A download that reports ["/tmp/v/clip.webm"] and leaves the converted
    file ["/tmp/v/clip.mkv"] of [size] bytes. *)
Definition converting_tools (size : N) : tools :=
  {| subprocess_run := fun _ f => (Raise OSError, f);
     json_format_duration := fun _ => Raise ValueError;
     ydl_extract_info := fun _ => Ok None;
     ydl_download := fun _ _ _ f =>
       (Ok "/tmp/v/clip.webm", fs_write "/tmp/v/clip.mkv" size f);
     os_path_splitext_root := rsplit_dot_head;
     is_valid_url := fun _ => true;
     format_file_size := fun _ => "?" |}.

(** ** [main.py]: a quality button pressed *)

(** [s.split(sep)] for a separator of one character. *)
Fixpoint str_split (sep : ascii) (s : string) : list string :=
  match s with
  | EmptyString => [EmptyString]
  | String c r =>
      if Ascii.eqb c sep then EmptyString :: str_split sep r
      else match str_split sep r with
           | h :: t => String c h :: t
           | [] => [String c EmptyString]
           end
  end.

(** [s.count(c)]. *)
Fixpoint count_char (c : ascii) (s : string) : nat :=
  match s with
  | EmptyString => 0
  | String a r => (if Ascii.eqb a c then 1 else 0) + count_char c r
  end.

(** [context.user_data.get(key)]: the value last stored under [key]. *)
Definition user_data_get (key : string) : M (option string) :=
  fun w =>
    (Ok (option_map snd
           (find (fun kv => String.eqb (fst kv) key) (user_data w))),
     w).

(** The texts [query.edit_message_text] shows when the handler stops
    before the download. *)
Inductive query_text : Type :=
| InvalidSelection
| SessionExpired.

(** [VideoDownloaderBot.handle_quality_selection] for the data
    [callback_data] of the pressed button.  The result is the text edited
    into the message when the handler stops early, and [None] once it has
    gone through [download_and_send_video]. *)
Definition handle_quality_selection (T : tools) (temp_dir callback_data : string)
  : M (option query_text) :=
  let parts := str_split "_" callback_data in
  if (Z.of_nat (List.length parts) <? 3)%Z then ret (Some InvalidSelection)
  else
    let format_id := nth 1 parts "" in
    let message_id := nth 2 parts "" in
    url <- user_data_get ("url_" ++ message_id) ;;
    match url with
    | Some (String c r as url) =>
        download_and_send_video T temp_dir url format_id ;;; ret None
    | _ => ret (Some SessionExpired)
    end.

(** ** [config.py] *)

(** [Config._get_bot_token], over [getenv] for [os.getenv]. *)
Definition _get_bot_token (getenv : string -> option string) : res string :=
  let token := getenv "BOT_TOKEN" in
  let token :=
    if negb (truthy_str token) then getenv "TELEGRAM_BOT_TOKEN" else token in
  let token :=
    if negb (truthy_str token) then getenv "TELE_TOKEN" else token in
  match token with
  | Some (String c r as t) => Ok t
  | _ => Raise ValueError
  end.

(** The names [_get_bot_token] reads, in its order. *)
Definition token_names : list string :=
  ["BOT_TOKEN"; "TELEGRAM_BOT_TOKEN"; "TELE_TOKEN"].

(** A format whose id has an underscore. *)
Definition hls_format : MediaFormat :=
  {| format_id := "hls_720"; vcodec := Some "avc1"; url := Some "https://cdn/x";
     format_note := None; height := Some 720%Z; filesize := None;
     ext := Some "mp4" |}.

(** An environment with an empty [BOT_TOKEN] and a [TELEGRAM_BOT_TOKEN]. *)
Definition sample_env (name : string) : option string :=
  if String.eqb name "BOT_TOKEN" then Some ""
  else if String.eqb name "TELEGRAM_BOT_TOKEN" then Some "123:abc"
  else None.

(** A probe that reports a duration that is not a number. *)
Definition nan_duration_tools : tools :=
  sample_tools 0 (Ok S754_nan)
    (sample_encoder (fun _ => 0%Z) (fun _ => Some 40000000%N))
    no_info (Ok 60000000%N).

(** ** [utils.py] *)

(** The first [n] characters of [s], all of [s] when it is shorter. *)
Fixpoint str_take (n : nat) (s : string) : string :=
  match n, s with
  | S n', String c r => String c (str_take n' r)
  | _, _ => EmptyString
  end.

(** The slice [s[:k]]: a negative [k] counts from the end. *)
Definition py_slice_to (k : Z) (s : string) : string :=
  if (0 <=? k)%Z then str_take (Z.to_nat k) s
  else str_take (String.length s - Z.to_nat (- k)) s.

(** [utils.truncate_text]. *)
Definition truncate_text (text : string) (max_length : Z) : string :=
  if (Z.of_nat (String.length text) <=? max_length)%Z then text
  else py_slice_to (max_length - 3) text ++ "...".

(** [s.replace(old, new)] for an [old] of one character. *)
Fixpoint str_replace_char (old : ascii) (new : string) (s : string) : string :=
  match s with
  | EmptyString => EmptyString
  | String c r =>
      if Ascii.eqb c old then new ++ str_replace_char old new r
      else String c (str_replace_char old new r)
  end.

Definition special_chars : list ascii :=
  ["_"; "*"; "["; "]"; "("; ")"; "~"; "`"; ">"; "#"; "+"; "-"; "="; "|";
   "{"; "}"; "."; "!"]%char.

(** A backslash and [c]. *)
Definition escaped (c : ascii) : string := String "\" (String c EmptyString).

(** [utils.escape_markdown]: one [replace] after the other. *)
Definition escape_markdown (text : string) : string :=
  fold_left (fun t c => str_replace_char c (escaped c) t) special_chars text.

(** [c] is one of [chars]. *)
Definition is_one_of (chars : list ascii) (c : ascii) : bool :=
  existsb (Ascii.eqb c) chars.

(** Escaping in one pass: a backslash in front of every character of
    [chars], the others as they are. *)
Fixpoint escape_each (chars : list ascii) (text : string) : string :=
  match text with
  | EmptyString => EmptyString
  | String c r =>
      if is_one_of chars c then String "\" (String c (escape_each chars r))
      else String c (escape_each chars r)
  end.

(** How many characters of [text] are among [chars]. *)
Fixpoint count_of (chars : list ascii) (text : string) : nat :=
  match text with
  | EmptyString => 0
  | String c r => (if is_one_of chars c then 1 else 0) + count_of chars r
  end.

(** ** Telegram calls that can fail *)

(** Which of the awaited Telegram calls fail: [C ev w] is the exception
    of the call that would show as [ev], made in the world [w], and
    [None] when the call goes through.  In one run no two calls are made
    with the same event in the same world, so every pattern of failures
    is some [C]. *)
Definition chat : Type := event -> world -> option exn.

(** An awaited Telegram call: [reply_text], [edit_text], [send_video],
    [delete]. *)
Definition call (C : chat) (ev : event) : M unit :=
  fun w =>
    match C ev w with
    | Some e => (Raise e, w)
    | None => (Ok tt, log ev w)
    end.

(** A Telegram that never fails. *)
Definition reliable : chat := fun _ _ => None.

(** A Telegram whose every call fails. *)
Definition unreachable : chat := fun _ _ => Some OSError.

(** [C], but a video that is not on disk or is over 50 MB is refused. *)
Definition size_limited (C : chat) : chat :=
  fun ev w =>
    match ev with
    | EvSendVideo p =>
        match fs w p with
        | Some size => if (size <=? MAX_SIZE)%N then C ev w else Some OSError
        | None => Some OSError
        end
    | _ => C ev w
    end.

(** [open(download_path, 'rb')] and [context.bot.send_video]. *)
Definition upload (C : chat) (path : string) : M unit :=
  present <- os_path_exists path ;;
  if present then call C (EvSendVideo path) else raise OSError.

(** The last steps of [download_and_send_video]: the status, the upload,
    the status message dropped, the file removed. *)
Definition deliver (C : chat) (p : string) : M unit :=
  call C (EvEdit MsgUploading None) ;;;
  upload C p ;;;
  call C EvDeleteStatus ;;;
  try_except (os_remove p) (fun _ => ret tt).

(** [VideoDownloaderBot.download_and_send_video], its Telegram calls
    going through [C]. *)
Definition download_and_send_video_chat (C : chat) (T : tools)
    (temp_dir url format_id : string) : M unit :=
  try_except
    (call C (EvEdit MsgDownloading None) ;;;
     download_path <- download_video T url temp_dir format_id ;;
     match download_path with
     | Some (String c r as path) =>
         present <- os_path_exists path ;;
         if negb present then call C (EvEdit MsgDownloadFailed None)
         else
           file_size <- os_path_getsize path ;;
           if (MAX_SIZE <? file_size)%N then
             call C (EvEdit MsgCompressing None) ;;;
             compressed_path <- compress_video T path MAX_SIZE ;;
             match compressed_path with
             | Some (String c' r' as cpath) =>
                 cpresent <- os_path_exists cpath ;;
                 if cpresent then deliver C cpath
                 else call C (EvEdit MsgCompressionFailed None)
             | _ => call C (EvEdit MsgCompressionFailed None)
             end
           else deliver C path
     | _ => call C (EvEdit MsgDownloadFailed None)
     end)
    (fun e => call C (EvEdit (MsgDownloadError e) None)).

(** [VideoDownloaderBot.handle_url], its Telegram calls going through
    [C]. *)
Definition handle_url_chat (C : chat) (T : tools) (temp_dir : string)
    (message_id : Z) (url : string) : M unit :=
  if negb (is_valid_url T url) then call C (EvReply MsgInvalidUrl)
  else
    call C (EvReply MsgProcessing) ;;;
    try_except
      (video_info <- get_video_info T url ;;
       match video_info with
       | None => call C (EvEdit MsgExtractError None)
       | Some info =>
           let fmts := option_default [] (formats info) in
           let video_formats := video_formats_of fmts in
           match video_formats with
           | [] => call C (EvEdit MsgNotAvailable None)
           | _ :: _ =>
               let video_formats := sort_by_height video_formats in
               let good_formats := good_formats_of video_formats in
               if (1 <? Z.of_nat (List.length good_formats))%Z then
                 let keyboard := build_keyboard T message_id good_formats in
                 info_text <- lift (selection_text info) ;;
                 call C (EvEdit (MsgSelectQuality info_text) (Some keyboard)) ;;;
                 set_user_data ("url_" ++ py_str_int message_id) url
               else
                 download_and_send_video_chat C T temp_dir url "best"
           end
       end)
      (fun e => call C (EvEdit (MsgProcessFailed e) None)).

(** From [w] to [w'] at most one upload was made. *)
Definition at_most_one_upload (w w' : world) : Prop :=
  uploads w' = uploads w \/ exists p, uploads w' = EvSendVideo p :: uploads w.
(** * Properties *)

(** ** Strings *)

Section StringFacts.






End StringFacts.

(** ** The format filter *)

Section FormatFilter.








End FormatFilter.

(** ** The ranking *)

Section Ranking.

Lemma insert_by_height_perm (x : MediaFormat) (l : list MediaFormat) :
  Permutation (x :: l) (insert_by_height x l).
Proof.
  induction l as [|y l IH]; simpl; [apply Permutation_refl|].
  destruct (height_or_0 x <? height_or_0 y)%Z.
  - eapply perm_trans; [apply perm_swap | apply perm_skip, IH].
  - apply Permutation_refl.
Qed.

Lemma sort_by_height_perm (l : list MediaFormat) :
  Permutation l (sort_by_height l).
Proof.
  induction l as [|x l IH]; simpl; [constructor|].
  eapply perm_trans; [apply perm_skip, IH | apply insert_by_height_perm].
Qed.

Lemma insert_by_height_sorted (x : MediaFormat) (l : list MediaFormat) :
  StronglySorted ranked_before l ->
  StronglySorted ranked_before (insert_by_height x l).
Proof.
  induction 1 as [|y l Hl IH Hy]; simpl.
  - repeat constructor.
  - destruct (height_or_0 x <? height_or_0 y)%Z eqn:E.
    + constructor; [exact IH|].
      apply Z.ltb_lt in E.
      eapply Permutation_Forall; [apply insert_by_height_perm|].
      constructor; [unfold ranked_before; lia | exact Hy].
    + apply Z.ltb_ge in E.
      constructor; [now constructor|].
      constructor; [exact E|].
      eapply Forall_impl; [|exact Hy].
      unfold ranked_before. intros a Ha. lia.
Qed.

Lemma sort_by_height_sorted (l : list MediaFormat) :
  StronglySorted ranked_before (sort_by_height l).
Proof.
  induction l as [|x l IH]; simpl;
    [constructor | now apply insert_by_height_sorted].
Qed.

Lemma insert_by_height_stable (h : Z) (x : MediaFormat) (l : list MediaFormat) :
  filter (has_height h) (insert_by_height x l) = filter (has_height h) (x :: l).
Proof.
  induction l as [|y l IH]; [reflexivity|].
  cbn [insert_by_height].
  destruct (height_or_0 x <? height_or_0 y)%Z eqn:E; [|reflexivity].
  apply Z.ltb_lt in E. cbn [filter] in *. rewrite IH.
  unfold has_height.
  destruct (height_or_0 x =? h)%Z eqn:Ex, (height_or_0 y =? h)%Z eqn:Ey;
    try reflexivity.
  apply Z.eqb_eq in Ex, Ey. lia.
Qed.

Lemma sort_by_height_stable (h : Z) (l : list MediaFormat) :
  filter (has_height h) (sort_by_height l) = filter (has_height h) l.
Proof.
  induction l as [|x l IH]; [reflexivity|].
  cbn [sort_by_height]. rewrite insert_by_height_stable.
  cbn [filter]. now rewrite IH.
Qed.

(** C6.  The ranked list holds the formats of the filtered list, in
    non-increasing order of height (a missing height counting as 0),
    and the formats of any one height keep the order they had. *)
Theorem sort_by_height_ranks (l : list MediaFormat) :
  Permutation l (sort_by_height l) /\
  StronglySorted ranked_before (sort_by_height l) /\
  forall h, filter (has_height h) (sort_by_height l) = filter (has_height h) l.
Proof.
  split; [apply sort_by_height_perm|].
  split; [apply sort_by_height_sorted|].
  intros h. apply sort_by_height_stable.
Qed.

End Ranking.

(** ** Running the monad *)

Section MonadFacts.

Context {A B : Type}.

Lemma bind_ok (c : M A) (k : A -> M B) (w w' : world) (a : A) :
  c w = (Ok a, w') -> bind c k w = k a w'.
Proof. unfold bind. now intros ->. Qed.

Lemma bind_raise (c : M A) (k : A -> M B) (w w' : world) (e : exn) :
  c w = (Raise e, w') -> bind c k w = (Raise e, w').
Proof. unfold bind. now intros ->. Qed.

Lemma try_except_ok (c : M A) (h : exn -> M A) (w w' : world) (a : A) :
  c w = (Ok a, w') -> try_except c h w = (Ok a, w').
Proof. unfold try_except. now intros ->. Qed.

Lemma try_except_raise (c : M A) (h : exn -> M A) (w w' : world) (e : exn) :
  c w = (Raise e, w') -> try_except c h w = h e w'.
Proof. unfold try_except. now intros ->. Qed.

(** A handler that returns makes the whole block return. *)
Lemma try_except_returns (c : M A) (d : A) (w : world) :
  exists a w', try_except c (fun _ => ret d) w = (Ok a, w').
Proof.
  unfold try_except, ret. destruct (c w) as [[a|e] w']; eauto.
Qed.

End MonadFacts.

(** A relation between the worlds before and after a computation that
    every step keeps. *)
Section Preservation.

Variable P : world -> world -> Prop.
Hypothesis P_refl : forall w, P w w.
Hypothesis P_trans : forall a b c, P a b -> P b c -> P a c.

Lemma preserves_ret {A : Type} (a : A) : preserves P (ret a).
Proof. intros w. apply P_refl. Qed.

Lemma preserves_raise {A : Type} (e : exn) : preserves P (@raise A e).
Proof. intros w. apply P_refl. Qed.

Lemma preserves_lift {A : Type} (r : res A) : preserves P (lift r).
Proof. intros w. apply P_refl. Qed.

Lemma preserves_bind {A B : Type} (c : M A) (k : A -> M B) :
  preserves P c -> (forall a, preserves P (k a)) -> preserves P (bind c k).
Proof.
  intros Hc Hk w. unfold bind. specialize (Hc w).
  destruct (c w) as [[a|e] w']; simpl in *; [|exact Hc].
  eapply P_trans; [exact Hc | apply Hk].
Qed.

Lemma preserves_try_except {A : Type} (c : M A) (h : exn -> M A) :
  preserves P c -> (forall e, preserves P (h e)) -> preserves P (try_except c h).
Proof.
  intros Hc Hh w. unfold try_except. specialize (Hc w).
  destruct (c w) as [[a|e] w']; simpl in *; [exact Hc|].
  eapply P_trans; [exact Hc | apply Hh].
Qed.

Lemma preserves_os_path_exists (p : string) : preserves P (os_path_exists p).
Proof. intros w. apply P_refl. Qed.

Lemma preserves_os_path_getsize (p : string) : preserves P (os_path_getsize p).
Proof. intros w. apply P_refl. Qed.

End Preservation.

(** ** Divisions *)

Section Divisions.

Local Abbreviation keeps := (preserves same_zero_divisions).

Lemma szd_refl (w : world) : same_zero_divisions w w.
Proof. reflexivity. Qed.

Lemma szd_trans (a b c : world) :
  same_zero_divisions a b -> same_zero_divisions b c -> same_zero_divisions a c.
Proof. unfold same_zero_divisions. congruence. Qed.

Lemma keeps_emit (ev : event) : is_zero_division ev = false -> keeps (emit ev).
Proof.
  intros H w. unfold same_zero_divisions, zero_divisions. simpl. now rewrite H.
Qed.

Lemma keeps_os_remove (p : string) : keeps (os_remove p).
Proof.
  intros w. unfold os_remove. destruct (fs w p); reflexivity.
Qed.

Lemma keeps_run_process (T : tools) (cmd : list string) :
  keeps (run_process T cmd).
Proof.
  intros w. unfold run_process.
  destruct (subprocess_run T cmd (fs w)) as [r f]. reflexivity.
Qed.

Lemma keeps_py_truediv (a b : float) : is_zero b = false -> keeps (py_truediv a b).
Proof.
  intros H w. unfold same_zero_divisions, zero_divisions. simpl. now rewrite H.
Qed.

Ltac keeps_step :=
  first
    [ apply (preserves_ret _ szd_refl)
    | apply (preserves_raise _ szd_refl)
    | apply (preserves_lift _ szd_refl)
    | apply (preserves_os_path_exists _ szd_refl)
    | apply (preserves_os_path_getsize _ szd_refl)
    | apply keeps_os_remove
    | apply keeps_run_process
    | apply keeps_py_truediv; [assumption || reflexivity]
    | apply keeps_emit; reflexivity
    | apply (preserves_bind _ szd_trans); [ | intros ? ]
    | apply (preserves_try_except _ szd_trans); [ | intros ? ] ].

Ltac keeps_auto :=
  repeat first
    [ keeps_step
    | match goal with
      | |- preserves _ (if ?b then _ else _) => destruct b eqn:?
      | |- preserves _ (match ?x with _ => _ end) => destruct x eqn:?
      end ].

Lemma keeps_stage1_target_bitrate (max_size_bytes : N) (d : float) :
  is_zero d = false -> keeps (stage1_target_bitrate max_size_bytes d).
Proof. intros H. unfold stage1_target_bitrate. keeps_auto. Qed.

Lemma keeps_stage2_target_bitrate (max_size_bytes : N) (d : float) :
  is_zero d = false -> keeps (stage2_target_bitrate max_size_bytes d).
Proof. intros H. unfold stage2_target_bitrate. keeps_auto. Qed.

Lemma keeps__get_video_duration (T : tools) (path : string) :
  keeps (_get_video_duration T path).
Proof. unfold _get_video_duration. keeps_auto. Qed.

Lemma keeps__compress_aggressively (T : tools) (input : string)
    (max_size_bytes : N) (d : float) :
  is_zero d = false -> keeps (_compress_aggressively T input max_size_bytes d).
Proof.
  intros H. unfold _compress_aggressively, stage2_target_bitrate, encode_succeeded.
  keeps_auto.
Qed.

Lemma keeps_compress_video (T : tools) (input : string) (max_size_bytes : N) :
  keeps (compress_video T input max_size_bytes).
Proof.
  unfold compress_video, stage1_target_bitrate, encode_succeeded.
  repeat first
    [ apply keeps__get_video_duration
    | apply keeps__compress_aggressively; assumption
    | keeps_step
    | match goal with
      | |- preserves _ (if ?b then _ else _) => destruct b eqn:?
      | |- preserves _ (match ?x with _ => _ end) => destruct x eqn:?
      end ].
Qed.

End Divisions.

(** ** What the probe and the bitrate computations leave behind *)

Section PlannerSteps.

Variable T : tools.

(** The probe always returns, and logs one run of [ffprobe]. *)
Lemma _get_video_duration_returns (path : string) (w : world) :
  exists probed w',
    _get_video_duration T path w = (Ok probed, w') /\
    events w' = EvRun (probe_cmd path) :: events w.
Proof.
  unfold _get_video_duration, try_except, bind, run_process, lift, ret.
  fold (probe_cmd path).
  destruct (subprocess_run T (probe_cmd path) (fs w)) as [[p|e] f]; simpl.
  - destruct (returncode p =? 0)%Z; simpl; [|eauto].
    destruct (json_format_duration T (stdout p)); simpl; eauto.
  - eauto.
Qed.

Lemma _get_video_duration_events (path : string) (w w' : world) r :
  _get_video_duration T path w = (r, w') ->
  events w' = EvRun (probe_cmd path) :: events w.
Proof.
  intros H. destruct (_get_video_duration_returns path w) as (p & w1 & H1 & H2).
  congruence.
Qed.

Lemma stage1_target_bitrate_world (m : N) (d : float) (w w' : world) r :
  stage1_target_bitrate m d w = (r, w') ->
  fs w' = fs w /\ user_data w' = user_data w /\
  exists evs, events w' = (evs ++ events w)%list /\ Forall (fun ev => is_division ev = true) evs.
Proof.
  unfold stage1_target_bitrate, bind, lift, py_truediv.
  destruct (py_float_of_int (Z.of_N m)) as [f|e]; simpl.
  - destruct (is_zero d); simpl.
    + intros [= _ <-]. simpl. repeat split. exists [EvDiv d]. split; [reflexivity|].
      repeat constructor.
    + intros [= _ <-]. simpl. repeat split.
      exists [EvDiv (of_Z 1000); EvDiv d]. split; [reflexivity|].
      repeat constructor.
  - intros [= _ <-]. repeat split. exists []. split; [reflexivity | constructor].
Qed.

Lemma stage2_target_bitrate_world (m : N) (d : float) (w w' : world) r :
  stage2_target_bitrate m d w = (r, w') ->
  fs w' = fs w /\ user_data w' = user_data w /\
  exists evs, events w' = (evs ++ events w)%list /\ Forall (fun ev => is_division ev = true) evs.
Proof.
  unfold stage2_target_bitrate, bind, lift, py_truediv.
  destruct (py_float_of_int (Z.of_N m)) as [f|e]; simpl.
  - destruct (is_zero d); simpl.
    + intros [= _ <-]. simpl. repeat split. exists [EvDiv d]. split; [reflexivity|].
      repeat constructor.
    + intros [= _ <-]. simpl. repeat split.
      exists [EvDiv (of_Z 1000); EvDiv d]. split; [reflexivity|].
      repeat constructor.
  - intros [= _ <-]. repeat split. exists []. split; [reflexivity | constructor].
Qed.

Lemma encodes_app_divisions (evs : list event) (w w' : world) :
  events w' = (evs ++ events w)%list ->
  Forall (fun ev => is_division ev = true) evs ->
  encodes w' = encodes w.
Proof.
  unfold encodes. intros -> H. rewrite filter_app.
  induction H as [|ev evs Hev _ IH]; [reflexivity|].
  simpl. destruct ev; try discriminate. exact IH.
Qed.

End PlannerSteps.

(** ** The planner, step by step *)

Section Planner.

Variable T : tools.
Variables (input_path : string) (max_size_bytes : N).

Lemma os_path_exists_present (p : string) (w : world) (n : N) :
  fs w p = Some n -> os_path_exists p w = (Ok true, w).
Proof. unfold os_path_exists. now intros ->. Qed.

Lemma os_path_exists_absent (p : string) (w : world) :
  fs w p = None -> os_path_exists p w = (Ok false, w).
Proof. unfold os_path_exists. now intros ->. Qed.

(** A missing input is rejected at once. *)
Lemma compress_video_missing_input (w : world) :
  fs w input_path = None ->
  compress_video T input_path max_size_bytes w = (Ok None, w).
Proof.
  intros H. unfold compress_video.
  apply try_except_ok.
  now rewrite (bind_ok _ _ _ _ _ (os_path_exists_absent _ _ H)).
Qed.

(** A probe without a usable duration is rejected after the probe. *)
Lemma compress_video_no_duration (w w1 : world) (size : N) probed :
  fs w input_path = Some size ->
  _get_video_duration T input_path w = (Ok probed, w1) ->
  probed = None \/ (exists d, probed = Some d /\ is_zero d = true) ->
  compress_video T input_path max_size_bytes w = (Ok None, w1).
Proof.
  intros Hin Hp Hd. unfold compress_video.
  apply try_except_ok.
  rewrite (bind_ok _ _ _ _ _ (os_path_exists_present _ _ _ Hin)). simpl.
  rewrite (bind_ok _ _ _ _ _ Hp).
  destruct Hd as [->|(d & -> & Hz)]; [reflexivity|].
  now rewrite Hz.
Qed.

(** With a usable duration the planner goes on to the stage-1 bitrate. *)
Lemma compress_video_bitrate_raises (w w1 w2 : world) (size : N) d e :
  fs w input_path = Some size ->
  _get_video_duration T input_path w = (Ok (Some d), w1) ->
  is_zero d = false ->
  stage1_target_bitrate max_size_bytes d w1 = (Raise e, w2) ->
  compress_video T input_path max_size_bytes w = (Ok None, w2).
Proof.
  intros Hin Hp Hz Hb. unfold compress_video.
  erewrite try_except_raise; [reflexivity|].
  rewrite (bind_ok _ _ _ _ _ (os_path_exists_present _ _ _ Hin)). simpl.
  rewrite (bind_ok _ _ _ _ _ Hp), Hz.
  now rewrite (bind_raise _ _ _ _ _ Hb).
Qed.

Lemma compress_video_below_floor (w w1 w2 : world) (size : N) d b :
  fs w input_path = Some size ->
  _get_video_duration T input_path w = (Ok (Some d), w1) ->
  is_zero d = false ->
  stage1_target_bitrate max_size_bytes d w1 = (Ok b, w2) ->
  (b < 100)%Z ->
  compress_video T input_path max_size_bytes w = (Ok None, w2).
Proof.
  intros Hin Hp Hz Hb Hlt. unfold compress_video.
  apply try_except_ok.
  rewrite (bind_ok _ _ _ _ _ (os_path_exists_present _ _ _ Hin)). simpl.
  rewrite (bind_ok _ _ _ _ _ Hp), Hz.
  rewrite (bind_ok _ _ _ _ _ Hb).
  apply Z.ltb_lt in Hlt. now rewrite Hlt.
Qed.

Lemma compress_video_reaches_stage1 (w w1 w2 : world) (size : N) d b :
  fs w input_path = Some size ->
  _get_video_duration T input_path w = (Ok (Some d), w1) ->
  is_zero d = false ->
  stage1_target_bitrate max_size_bytes d w1 = (Ok b, w2) ->
  (100 <= b)%Z ->
  compress_video T input_path max_size_bytes w =
  try_except (stage1_encode_and_check T input_path max_size_bytes d b)
             (fun _ => ret None) w2.
Proof.
  intros Hin Hp Hz Hb Hge. unfold compress_video, try_except.
  rewrite (bind_ok _ _ _ _ _ (os_path_exists_present _ _ _ Hin)). simpl.
  rewrite (bind_ok _ _ _ _ _ Hp), Hz.
  rewrite (bind_ok _ _ _ _ _ Hb).
  apply Z.ltb_ge in Hge. now rewrite Hge.
Qed.

Lemma _compress_aggressively_bitrate_raises (w w1 : world) d e :
  stage2_target_bitrate max_size_bytes d w = (Raise e, w1) ->
  _compress_aggressively T input_path max_size_bytes d w = (Ok None, w1).
Proof.
  intros Hb. unfold _compress_aggressively.
  erewrite try_except_raise; [reflexivity|].
  now rewrite (bind_raise _ _ _ _ _ Hb).
Qed.

Lemma _compress_aggressively_below_floor (w w1 : world) d b :
  stage2_target_bitrate max_size_bytes d w = (Ok b, w1) ->
  (b < 50)%Z ->
  _compress_aggressively T input_path max_size_bytes d w = (Ok None, w1).
Proof.
  intros Hb Hlt. unfold _compress_aggressively.
  apply try_except_ok.
  rewrite (bind_ok _ _ _ _ _ Hb).
  apply Z.ltb_lt in Hlt. now rewrite Hlt.
Qed.

Lemma _compress_aggressively_reaches_stage2 (w w1 : world) d b :
  stage2_target_bitrate max_size_bytes d w = (Ok b, w1) ->
  (50 <= b)%Z ->
  _compress_aggressively T input_path max_size_bytes d w =
  try_except (stage2_encode_and_check T input_path max_size_bytes b)
             (fun _ => ret None) w1.
Proof.
  intros Hb Hge. unfold _compress_aggressively, try_except.
  rewrite (bind_ok _ _ _ _ _ Hb).
  apply Z.ltb_ge in Hge. now rewrite Hge.
Qed.

(** *** The outcomes of an encode *)

Local Abbreviation out1 := (stage1_output_path input_path).
Local Abbreviation out2 := (stage2_output_path input_path).

Lemma stage1_spawn_fails (w w' : world) d b e :
  run_process T (stage1_cmd input_path b) w = (Raise e, w') ->
  stage1_encode_and_check T input_path max_size_bytes d b w = (Raise e, w').
Proof.
  intros H. unfold stage1_encode_and_check.
  now rewrite (bind_raise _ _ _ _ _ H).
Qed.

Lemma stage1_exit_nonzero (w w' : world) d b p :
  run_process T (stage1_cmd input_path b) w = (Ok p, w') ->
  returncode p <> 0%Z ->
  stage1_encode_and_check T input_path max_size_bytes d b w = (Ok None, w').
Proof.
  intros H Hrc. unfold stage1_encode_and_check, encode_succeeded.
  rewrite (bind_ok _ _ _ _ _ H).
  apply Z.eqb_neq in Hrc. now rewrite Hrc.
Qed.

Lemma stage1_output_missing (w w' : world) d b p :
  run_process T (stage1_cmd input_path b) w = (Ok p, w') ->
  returncode p = 0%Z ->
  fs w' out1 = None ->
  stage1_encode_and_check T input_path max_size_bytes d b w = (Ok None, w').
Proof.
  intros H Hrc Hout. unfold stage1_encode_and_check, encode_succeeded.
  rewrite (bind_ok _ _ _ _ _ H), Hrc. simpl.
  now rewrite (bind_ok _ _ _ _ _ (os_path_exists_absent _ _ Hout)).
Qed.

Lemma stage1_output_fits (w w' : world) d b p size :
  run_process T (stage1_cmd input_path b) w = (Ok p, w') ->
  returncode p = 0%Z ->
  fs w' out1 = Some size ->
  (size <= max_size_bytes)%N ->
  stage1_encode_and_check T input_path max_size_bytes d b w = (Ok (Some out1), w').
Proof.
  intros H Hrc Hout Hle. unfold stage1_encode_and_check, encode_succeeded.
  rewrite (bind_ok _ _ _ _ _ H), Hrc. simpl.
  rewrite (bind_ok _ _ _ _ _ (os_path_exists_present _ _ _ Hout)).
  unfold bind at 1, os_path_getsize at 1. rewrite Hout.
  apply N.leb_le in Hle. now rewrite Hle.
Qed.

Lemma stage1_output_too_large (w w' : world) d b p size :
  run_process T (stage1_cmd input_path b) w = (Ok p, w') ->
  returncode p = 0%Z ->
  fs w' out1 = Some size ->
  (max_size_bytes < size)%N ->
  stage1_encode_and_check T input_path max_size_bytes d b w =
  _compress_aggressively T input_path max_size_bytes d
    (set_fs (fs_remove out1 (fs w')) w').
Proof.
  intros H Hrc Hout Hgt. unfold stage1_encode_and_check, encode_succeeded.
  rewrite (bind_ok _ _ _ _ _ H), Hrc. simpl.
  rewrite (bind_ok _ _ _ _ _ (os_path_exists_present _ _ _ Hout)).
  unfold bind at 1, os_path_getsize at 1. rewrite Hout.
  apply N.leb_gt in Hgt. rewrite Hgt.
  unfold bind, os_remove. now rewrite Hout.
Qed.

Lemma stage2_spawn_fails (w w' : world) b e :
  run_process T (stage2_cmd input_path b) w = (Raise e, w') ->
  stage2_encode_and_check T input_path max_size_bytes b w = (Raise e, w').
Proof.
  intros H. unfold stage2_encode_and_check.
  now rewrite (bind_raise _ _ _ _ _ H).
Qed.

Lemma stage2_exit_nonzero (w w' : world) b p :
  run_process T (stage2_cmd input_path b) w = (Ok p, w') ->
  returncode p <> 0%Z ->
  stage2_encode_and_check T input_path max_size_bytes b w = (Ok None, w').
Proof.
  intros H Hrc. unfold stage2_encode_and_check, encode_succeeded.
  rewrite (bind_ok _ _ _ _ _ H).
  apply Z.eqb_neq in Hrc. now rewrite Hrc.
Qed.

Lemma stage2_output_missing (w w' : world) b p :
  run_process T (stage2_cmd input_path b) w = (Ok p, w') ->
  returncode p = 0%Z ->
  fs w' out2 = None ->
  stage2_encode_and_check T input_path max_size_bytes b w = (Ok None, w').
Proof.
  intros H Hrc Hout. unfold stage2_encode_and_check, encode_succeeded.
  rewrite (bind_ok _ _ _ _ _ H), Hrc. simpl.
  now rewrite (bind_ok _ _ _ _ _ (os_path_exists_absent _ _ Hout)).
Qed.

Lemma stage2_output_fits (w w' : world) b p size :
  run_process T (stage2_cmd input_path b) w = (Ok p, w') ->
  returncode p = 0%Z ->
  fs w' out2 = Some size ->
  (size <= max_size_bytes)%N ->
  stage2_encode_and_check T input_path max_size_bytes b w = (Ok (Some out2), w').
Proof.
  intros H Hrc Hout Hle. unfold stage2_encode_and_check, encode_succeeded.
  rewrite (bind_ok _ _ _ _ _ H), Hrc. simpl.
  rewrite (bind_ok _ _ _ _ _ (os_path_exists_present _ _ _ Hout)).
  unfold bind at 1, os_path_getsize at 1. rewrite Hout.
  apply N.leb_le in Hle. now rewrite Hle.
Qed.

Lemma stage2_output_too_large (w w' : world) b p size :
  run_process T (stage2_cmd input_path b) w = (Ok p, w') ->
  returncode p = 0%Z ->
  fs w' out2 = Some size ->
  (max_size_bytes < size)%N ->
  stage2_encode_and_check T input_path max_size_bytes b w =
  (Ok None, set_fs (fs_remove out2 (fs w')) w').
Proof.
  intros H Hrc Hout Hgt. unfold stage2_encode_and_check, encode_succeeded.
  rewrite (bind_ok _ _ _ _ _ H), Hrc. simpl.
  rewrite (bind_ok _ _ _ _ _ (os_path_exists_present _ _ _ Hout)).
  unfold bind at 1, os_path_getsize at 1. rewrite Hout.
  apply N.leb_gt in Hgt. rewrite Hgt.
  unfold bind, os_remove. now rewrite Hout.
Qed.

End Planner.

(** ** The bitrate floors *)

(** C4.  When the stage-1 target bitrate is below 100 kbps the planner
    rejects and no encode has been run; a clip of 4000 s under a ceiling
    of 50,000,000 bytes has a target of 80 kbps and is rejected so; when
    the stage-2 target bitrate is below 50 kbps the aggressive stage
    rejects and no encode has been run. *)
Theorem bitrate_floor_rejects_without_encode (T : tools) :
  (forall input_path max_size_bytes w size d w1 b w2,
      fs w input_path = Some size ->
      _get_video_duration T input_path w = (Ok (Some d), w1) ->
      is_zero d = false ->
      stage1_target_bitrate max_size_bytes d w1 = (Ok b, w2) ->
      (b < 100)%Z ->
      compress_video T input_path max_size_bytes w = (Ok None, w2) /\
      encodes w2 = encodes w /\ fs w2 = fs w1) /\
  (forall w, fst (stage1_target_bitrate 50000000 (of_Z 4000) w) = Ok 80%Z) /\
  (forall input_path max_size_bytes d w b w1,
      stage2_target_bitrate max_size_bytes d w = (Ok b, w1) ->
      (b < 50)%Z ->
      _compress_aggressively T input_path max_size_bytes d w = (Ok None, w1) /\
      encodes w1 = encodes w /\ fs w1 = fs w).
Proof.
  split; [|split].
  - intros input_path m w size d w1 b w2 Hin Hp Hz Hb Hlt.
    split; [eapply compress_video_below_floor; eauto|].
    apply stage1_target_bitrate_world in Hb as (Hfs & _ & evs & Hev & Hdiv).
    split; [|exact Hfs].
    rewrite (encodes_app_divisions _ _ _ Hev Hdiv).
    unfold encodes. now rewrite (_get_video_duration_events _ _ _ _ _ Hp).
  - intros w. reflexivity.
  - intros input_path m d w b w1 Hb Hlt.
    split; [eapply _compress_aggressively_below_floor; eauto|].
    apply stage2_target_bitrate_world in Hb as (Hfs & _ & evs & Hev & Hdiv).
    split; [|exact Hfs].
    apply (encodes_app_divisions _ _ _ Hev Hdiv).
Qed.

Lemma bitrate_floor_rejects_without_encode_witness :
  fst (compress_video long_clip_tools clip 50000000 clip_world) = Ok None /\
  encodes (snd (compress_video long_clip_tools clip 50000000 clip_world)) = [] /\
  fst (_compress_aggressively long_clip_tools clip 50000000 (of_Z 10000)
         clip_world) = Ok None.
Proof.
  destruct (bitrate_floor_rejects_without_encode long_clip_tools)
    as (H1 & _ & H2).
  pose (w1 := snd (_get_video_duration long_clip_tools clip clip_world)).
  pose (w2 := snd (stage1_target_bitrate 50000000 (of_Z 4000) w1)).
  destruct (H1 clip 50000000%N clip_world 60000000%N (of_Z 4000) w1 80%Z w2)
    as (E1 & E2 & _);
    [reflexivity | reflexivity | reflexivity | reflexivity | reflexivity |].
  pose (w3 := snd (stage2_target_bitrate 50000000 (of_Z 10000) clip_world)).
  destruct (H2 clip 50000000%N (of_Z 10000) clip_world 24%Z w3)
    as (E3 & _); [reflexivity | reflexivity |].
  rewrite E1, E3. simpl. rewrite E2. repeat split.
Defined.

(** ** No division by zero *)

(** C10.  When the probe yields no duration, or a duration of zero, the
    planner returns its failure right after the probe: no division and
    no encode has been evaluated; and on every input the planner leaves
    the divisions by zero of the world as they were, so it never divides
    by a zero duration. *)
Theorem planner_never_divides_by_zero (T : tools) :
  (forall input_path max_size_bytes w size probed w1,
      fs w input_path = Some size ->
      _get_video_duration T input_path w = (Ok probed, w1) ->
      probed = None \/ (exists d, probed = Some d /\ is_zero d = true) ->
      compress_video T input_path max_size_bytes w = (Ok None, w1) /\
      divisions w1 = divisions w /\ encodes w1 = encodes w) /\
  (forall input_path max_size_bytes w,
      zero_divisions (snd (compress_video T input_path max_size_bytes w)) =
      zero_divisions w).
Proof.
  split.
  - intros input_path m w size probed w1 Hin Hp Hd.
    split; [eapply compress_video_no_duration; eauto|].
    unfold divisions, encodes.
    now rewrite (_get_video_duration_events _ _ _ _ _ Hp).
  - intros input_path m w. apply keeps_compress_video.
Qed.

Lemma planner_never_divides_by_zero_witness :
  fst (compress_video zero_duration_tools clip MAX_SIZE clip_world) = Ok None /\
  fst (compress_video failing_probe_tools clip MAX_SIZE clip_world) = Ok None.
Proof.
  split.
  - pose (w1 := snd (_get_video_duration zero_duration_tools clip clip_world)).
    destruct (proj1 (planner_never_divides_by_zero zero_duration_tools)
                clip MAX_SIZE clip_world 60000000%N (Some (S754_zero false)) w1)
      as (E & _); [reflexivity | reflexivity | | now rewrite E].
    right. exists (S754_zero false). split; reflexivity.
  - pose (w1 := snd (_get_video_duration failing_probe_tools clip clip_world)).
    destruct (proj1 (planner_never_divides_by_zero failing_probe_tools)
                clip MAX_SIZE clip_world 60000000%N None w1)
      as (E & _); [reflexivity | reflexivity | now left | now rewrite E].
Defined.

(** ** The size checks *)

Section SizeChecks.

Variable T : tools.

Lemma append_inj_l (a b c : string) : a ++ b = a ++ c -> b = c.
Proof.
  induction a as [|x a IH]; simpl; [auto|].
  intros [= H]. auto.
Qed.

Lemma output_paths_differ (input_path : string) :
  stage1_output_path input_path <> stage2_output_path input_path.
Proof.
  unfold stage1_output_path, stage2_output_path.
  intros H. apply append_inj_l in H. discriminate H.
Qed.

(** The aggressive stage returns its own output path or nothing. *)
Lemma _compress_aggressively_result (input_path : string) (m : N) (d : float)
    (w : world) :
  exists r w',
    _compress_aggressively T input_path m d w = (Ok r, w') /\
    (r = None \/ r = Some (stage2_output_path input_path)).
Proof.
  destruct (stage2_target_bitrate m d w) as [[b|e] w1] eqn:Hb.
  2:{ erewrite _compress_aggressively_bitrate_raises by eauto. eauto. }
  destruct (Z.lt_ge_cases b 50) as [Hlt|Hge].
  { erewrite _compress_aggressively_below_floor by eauto. eauto. }
  rewrite (_compress_aggressively_reaches_stage2 _ _ _ _ _ _ _ Hb Hge).
  destruct (run_process T (stage2_cmd input_path b) w1) as [[p|e] w2] eqn:Hrun.
  2:{ erewrite try_except_raise by (eapply stage2_spawn_fails; eauto).
      unfold ret. eauto. }
  destruct (Z.eq_dec (returncode p) 0) as [Hrc|Hrc].
  2:{ erewrite try_except_ok by (eapply stage2_exit_nonzero; eauto). eauto. }
  destruct (fs w2 (stage2_output_path input_path)) as [n|] eqn:Hout.
  2:{ erewrite try_except_ok by (eapply stage2_output_missing; eauto). eauto. }
  destruct (N.le_gt_cases n m) as [Hle|Hgt].
  - erewrite try_except_ok by (eapply stage2_output_fits; eauto). eauto.
  - erewrite try_except_ok by (eapply stage2_output_too_large; eauto). eauto.
Qed.

(** C7.  A download whose size is exactly the ceiling of 50 MB is
    uploaded as it is, with no probe and no encode in between; the
    output of the first encode is what [compress_video] returns
    exactly when its size is at most [max_size_bytes], and so is the
    output of the second encode for [_compress_aggressively]. *)
Theorem size_boundaries :
  (forall temp_dir url format_id w c r w1,
      download_video T url temp_dir format_id
        (log (EvEdit MsgDownloading None) w) = (Ok (Some (String c r)), w1) ->
      fs w1 (String c r) = Some MAX_SIZE ->
      download_and_send_video T temp_dir url format_id w =
      (Ok tt, delivered (String c r) w1)) /\
  (forall input_path max_size_bytes w size d w1 b w2 p w3 out_size,
      fs w input_path = Some size ->
      _get_video_duration T input_path w = (Ok (Some d), w1) ->
      is_zero d = false ->
      stage1_target_bitrate max_size_bytes d w1 = (Ok b, w2) ->
      (100 <= b)%Z ->
      run_process T (stage1_cmd input_path b) w2 = (Ok p, w3) ->
      returncode p = 0%Z ->
      fs w3 (stage1_output_path input_path) = Some out_size ->
      (fst (compress_video T input_path max_size_bytes w) =
       Ok (Some (stage1_output_path input_path))
       <-> (out_size <= max_size_bytes)%N)) /\
  (forall input_path max_size_bytes d w b w1 p w2 out_size,
      stage2_target_bitrate max_size_bytes d w = (Ok b, w1) ->
      (50 <= b)%Z ->
      run_process T (stage2_cmd input_path b) w1 = (Ok p, w2) ->
      returncode p = 0%Z ->
      fs w2 (stage2_output_path input_path) = Some out_size ->
      (fst (_compress_aggressively T input_path max_size_bytes d w) =
       Ok (Some (stage2_output_path input_path))
       <-> (out_size <= max_size_bytes)%N)).
Proof.
  split; [|split].
  - intros temp_dir url format_id w c r w1 Hd Hfs.
    unfold download_and_send_video.
    apply try_except_ok.
    unfold bind at 1, emit at 1.
    rewrite (bind_ok _ _ _ _ _ Hd).
    rewrite (bind_ok _ _ _ _ _ (os_path_exists_present _ _ _ Hfs)).
    change (negb true) with false. cbv iota.
    unfold bind at 1, os_path_getsize at 1. rewrite Hfs.
    rewrite N.ltb_irrefl.
    unfold bind, emit, send_video, bind, os_path_exists, try_except, os_remove,
      delivered.
    simpl. rewrite Hfs. unfold emit. simpl. now rewrite Hfs.
  - intros input_path m w size d w1 b w2 p w3 out_size
      Hin Hp Hz Hb Hge Hrun Hrc Hout.
    rewrite (compress_video_reaches_stage1 _ _ _ _ _ _ _ _ _ Hin Hp Hz Hb Hge).
    destruct (N.le_gt_cases out_size m) as [Hle|Hgt].
    + erewrite try_except_ok by (eapply stage1_output_fits; eauto).
      tauto.
    + unfold try_except.
      rewrite (stage1_output_too_large _ _ _ _ _ _ _ _ _ Hrun Hrc Hout Hgt).
      destruct (_compress_aggressively_result input_path m d
                  (set_fs (fs_remove (stage1_output_path input_path) (fs w3)) w3))
        as (res & w4 & -> & Hres).
      simpl. split; [|lia].
      intros [= E]. destruct Hres as [->| ->]; [discriminate|].
      injection E as E. symmetry in E. now apply output_paths_differ in E.
  - intros input_path m d w b w1 p w2 out_size Hb Hge Hrun Hrc Hout.
    rewrite (_compress_aggressively_reaches_stage2 _ _ _ _ _ _ _ Hb Hge).
    destruct (N.le_gt_cases out_size m) as [Hle|Hgt].
    + erewrite try_except_ok by (eapply stage2_output_fits; eauto).
      tauto.
    + erewrite try_except_ok by (eapply stage2_output_too_large; eauto).
      simpl. split; [discriminate | lia].
Qed.

End SizeChecks.

Lemma size_boundaries_witness :
  download_and_send_video ceiling_tools "/tmp/v" "https://x/v" "best" empty_world =
  (Ok tt,
   delivered clip
     (snd (download_video ceiling_tools "https://x/v" "/tmp/v" "best"
             (log (EvEdit MsgDownloading None) empty_world)))) /\
  (fst (compress_video one_stage_tools clip MAX_SIZE clip_world) =
   Ok (Some (stage1_output_path clip)) <-> (40000000 <= MAX_SIZE)%N) /\
  (fst (_compress_aggressively two_stage_tools clip MAX_SIZE (of_Z 120) clip_world) =
   Ok (Some (stage2_output_path clip)) <-> (40000000 <= MAX_SIZE)%N).
Proof.
  split; [|split].
  - apply (proj1 (size_boundaries ceiling_tools)); vm_compute; reflexivity.
  - pose (w1 := snd (_get_video_duration one_stage_tools clip clip_world)).
    pose (w2 := snd (stage1_target_bitrate MAX_SIZE (of_Z 120) w1)).
    pose (w3 := snd (run_process one_stage_tools (stage1_cmd clip 2796) w2)).
    apply (proj1 (proj2 (size_boundaries one_stage_tools))
             clip MAX_SIZE clip_world 60000000%N (of_Z 120) w1 2796%Z w2
             (completed 0) w3 40000000%N);
      try (vm_compute; reflexivity).
    vm_compute. discriminate.
  - pose (w1 := snd (stage2_target_bitrate MAX_SIZE (of_Z 120) clip_world)).
    pose (w2 := snd (run_process two_stage_tools (stage2_cmd clip 2097) w1)).
    apply (proj2 (proj2 (size_boundaries two_stage_tools))
             clip MAX_SIZE (of_Z 120) clip_world 2097%Z w1
             (completed 0) w2 40000000%N);
      try (vm_compute; reflexivity).
    vm_compute. discriminate.
Defined.

(** ** Files left behind *)

(** C1.  The clip of 60 MB, whose first encode exits with status 1 after
    writing 4096 bytes: the planner returns its failure and the partial
    output is still on disk; when instead the first encode succeeds with
    an output over the ceiling, that output is removed before the second
    encode. *)
Theorem failed_encode_output_stays :
  fst (compress_video failing_encode_tools clip MAX_SIZE clip_world) = Ok None /\
  fs (snd (compress_video failing_encode_tools clip MAX_SIZE clip_world))
     (stage1_output_path clip) = Some 4096%N /\
  fst (compress_video two_stage_tools clip MAX_SIZE clip_world) =
    Ok (Some (stage2_output_path clip)) /\
  fs (snd (compress_video two_stage_tools clip MAX_SIZE clip_world))
     (stage1_output_path clip) = None.
Proof. repeat split; vm_compute; reflexivity. Qed.

(** ** Failures *)

Section Failures.

Variable T : tools.

Lemma get_video_info_returns (url : string) (w : world) :
  exists r w', get_video_info T url w = (Ok r, w').
Proof. apply try_except_returns. Qed.

Lemma download_video_returns (url dir fid : string) (w : world) :
  exists r w', download_video T url dir fid w = (Ok r, w').
Proof. apply try_except_returns. Qed.

Lemma compress_video_returns (input_path : string) (m : N) (w : world) :
  exists r w', compress_video T input_path m w = (Ok r, w').
Proof. apply try_except_returns. Qed.

Lemma _compress_aggressively_returns (input_path : string) (m : N) (d : float)
    (w : world) :
  exists r w', _compress_aggressively T input_path m d w = (Ok r, w').
Proof. apply try_except_returns. Qed.

Lemma get_video_info_extraction_fails (url : string) (w : world) (e : exn) :
  ydl_extract_info T url = Raise e ->
  get_video_info T url w = (Ok None, w).
Proof.
  intros H. unfold get_video_info, try_except, bind, lift. now rewrite H.
Qed.

Lemma download_video_transfer_fails (url dir fid : string) (w : world) e f :
  ydl_download T url fid (os_path_join dir "%(title)s.%(ext)s") (fs w)
  = (Raise e, f) ->
  download_video T url dir fid w
  = (Ok None, set_fs f (log (EvDownload url fid) w)).
Proof.
  intros H. unfold download_video, try_except, bind. now rewrite H.
Qed.

Lemma _get_video_duration_probe_fails (path : string) (w : world) r f :
  subprocess_run T (probe_cmd path) (fs w) = (r, f) ->
  (forall p, r = Ok p ->
             returncode p <> 0%Z \/
             exists e, json_format_duration T (stdout p) = Raise e) ->
  _get_video_duration T path w
  = (Ok None, set_fs f (log (EvRun (probe_cmd path)) w)).
Proof.
  intros H Hr.
  unfold _get_video_duration, try_except, bind, run_process, lift, ret.
  fold (probe_cmd path). rewrite H.
  destruct r as [p|e]; [|reflexivity].
  destruct (Hr p eq_refl) as [Hrc|[e He]].
  - apply Z.eqb_neq in Hrc. now rewrite Hrc.
  - destruct (returncode p =? 0)%Z; [|reflexivity]. now rewrite He.
Qed.

Lemma compress_video_encode_fails (input_path : string) (m : N)
    (w w1 w2 w3 : world) size d b r :
  fs w input_path = Some size ->
  _get_video_duration T input_path w = (Ok (Some d), w1) ->
  is_zero d = false ->
  stage1_target_bitrate m d w1 = (Ok b, w2) ->
  (100 <= b)%Z ->
  run_process T (stage1_cmd input_path b) w2 = (r, w3) ->
  (forall p, r = Ok p -> returncode p <> 0%Z) ->
  compress_video T input_path m w = (Ok None, w3).
Proof.
  intros Hin Hp Hz Hb Hge Hrun Hr.
  rewrite (compress_video_reaches_stage1 _ _ _ _ _ _ _ _ _ Hin Hp Hz Hb Hge).
  destruct r as [p|e].
  - apply try_except_ok. eapply stage1_exit_nonzero; eauto.
  - erewrite try_except_raise by (eapply stage1_spawn_fails; eauto).
    reflexivity.
Qed.

Lemma _compress_aggressively_encode_fails (input_path : string) (m : N)
    (w w1 w2 : world) d b r :
  stage2_target_bitrate m d w = (Ok b, w1) ->
  (50 <= b)%Z ->
  run_process T (stage2_cmd input_path b) w1 = (r, w2) ->
  (forall p, r = Ok p -> returncode p <> 0%Z) ->
  _compress_aggressively T input_path m d w = (Ok None, w2).
Proof.
  intros Hb Hge Hrun Hr.
  rewrite (_compress_aggressively_reaches_stage2 _ _ _ _ _ _ _ Hb Hge).
  destruct r as [p|e].
  - apply try_except_ok. eapply stage2_exit_nonzero; eauto.
  - erewrite try_except_raise by (eapply stage2_spawn_fails; eauto).
    reflexivity.
Qed.

End Failures.

(** C8, as the code has it.  Every method of the downloader returns: no
    exception of the extractor, the download, the probe or an encode
    leaves it.  A failure of the extraction, of the transfer, of the
    probe (not started, non-zero exit, unusable report) or of an encode
    (not started, non-zero exit) gives the one value [None]. *)
Theorem failures_are_caught_as_none (T : tools) :
  (forall url w, exists r w', get_video_info T url w = (Ok r, w')) /\
  (forall url dir fid w, exists r w', download_video T url dir fid w = (Ok r, w')) /\
  (forall path w, exists r w', _get_video_duration T path w = (Ok r, w')) /\
  (forall input_path m w, exists r w', compress_video T input_path m w = (Ok r, w')) /\
  (forall input_path m d w,
      exists r w', _compress_aggressively T input_path m d w = (Ok r, w')) /\
  (forall url w e,
      ydl_extract_info T url = Raise e ->
      get_video_info T url w = (Ok None, w)) /\
  (forall url dir fid w e f,
      ydl_download T url fid (os_path_join dir "%(title)s.%(ext)s") (fs w)
      = (Raise e, f) ->
      fst (download_video T url dir fid w) = Ok None) /\
  (forall path w r f,
      subprocess_run T (probe_cmd path) (fs w) = (r, f) ->
      (forall p, r = Ok p ->
                 returncode p <> 0%Z \/
                 exists e, json_format_duration T (stdout p) = Raise e) ->
      fst (_get_video_duration T path w) = Ok None) /\
  (forall input_path m w size probed w1,
      fs w input_path = Some size ->
      _get_video_duration T input_path w = (Ok probed, w1) ->
      probed = None ->
      compress_video T input_path m w = (Ok None, w1)) /\
  (forall input_path m w w1 w2 w3 size d b r,
      fs w input_path = Some size ->
      _get_video_duration T input_path w = (Ok (Some d), w1) ->
      is_zero d = false ->
      stage1_target_bitrate m d w1 = (Ok b, w2) ->
      (100 <= b)%Z ->
      run_process T (stage1_cmd input_path b) w2 = (r, w3) ->
      (forall p, r = Ok p -> returncode p <> 0%Z) ->
      compress_video T input_path m w = (Ok None, w3)) /\
  (forall input_path m w w1 w2 d b r,
      stage2_target_bitrate m d w = (Ok b, w1) ->
      (50 <= b)%Z ->
      run_process T (stage2_cmd input_path b) w1 = (r, w2) ->
      (forall p, r = Ok p -> returncode p <> 0%Z) ->
      _compress_aggressively T input_path m d w = (Ok None, w2)).
Proof.
  repeat apply conj.
  - apply get_video_info_returns.
  - apply download_video_returns.
  - intros path w.
    destruct (_get_video_duration_returns T path w) as (r & w' & H & _). eauto.
  - apply compress_video_returns.
  - apply _compress_aggressively_returns.
  - apply get_video_info_extraction_fails.
  - intros url dir fid w e f H.
    now rewrite (download_video_transfer_fails _ _ _ _ _ _ _ H).
  - intros path w r f H Hr.
    now rewrite (_get_video_duration_probe_fails _ _ _ _ _ H Hr).
  - intros input_path m w size probed w1 Hin Hp ->.
    eapply compress_video_no_duration; eauto.
  - intros. eapply compress_video_encode_fails; eauto.
  - intros. eapply _compress_aggressively_encode_fails; eauto.
Qed.

Lemma failures_are_caught_as_none_witness :
  get_video_info failing_extraction_tools "https://x/v" empty_world
  = (Ok None, empty_world) /\
  fst (download_video failing_extraction_tools "https://x/v" "/tmp/v" "best"
         empty_world) = Ok None /\
  fst (_get_video_duration failing_probe_tools clip clip_world) = Ok None /\
  fst (compress_video failing_probe_tools clip MAX_SIZE clip_world) = Ok None /\
  fst (compress_video failing_encode_tools clip MAX_SIZE clip_world) = Ok None /\
  fst (_compress_aggressively failing_second_encode_tools clip MAX_SIZE (of_Z 120)
         clip_world) = Ok None.
Proof.
  destruct (failures_are_caught_as_none failing_extraction_tools)
    as (_ & _ & _ & _ & _ & Hx & Hd & _).
  destruct (failures_are_caught_as_none failing_probe_tools)
    as (_ & _ & _ & _ & _ & _ & _ & Hp & Hn & _).
  destruct (failures_are_caught_as_none failing_encode_tools)
    as (_ & _ & _ & _ & _ & _ & _ & _ & _ & H1 & _).
  destruct (failures_are_caught_as_none failing_second_encode_tools)
    as (_ & _ & _ & _ & _ & _ & _ & _ & _ & _ & H2).
  repeat apply conj.
  - apply (Hx "https://x/v" empty_world DownloadError). reflexivity.
  - apply (Hd "https://x/v" "/tmp/v" "best" empty_world DownloadError
             (fs empty_world)).
    reflexivity.
  - apply (Hp clip clip_world (Ok (completed 1)) (fs clip_world)); [reflexivity|].
    intros p [= <-]. left. discriminate.
  - pose (w1 := snd (_get_video_duration failing_probe_tools clip clip_world)).
    rewrite (Hn clip MAX_SIZE clip_world 60000000%N None w1); reflexivity.
  - pose (w1 := snd (_get_video_duration failing_encode_tools clip clip_world)).
    pose (w2 := snd (stage1_target_bitrate MAX_SIZE (of_Z 120) w1)).
    pose (w3 := snd (run_process failing_encode_tools (stage1_cmd clip 2796) w2)).
    rewrite (H1 clip MAX_SIZE clip_world w1 w2 w3 60000000%N (of_Z 120) 2796%Z
               (Ok (completed 1)));
      try reflexivity; try (vm_compute; reflexivity).
    + vm_compute. discriminate.
    + intros p [= <-]. discriminate.
  - pose (w1 := snd (stage2_target_bitrate MAX_SIZE (of_Z 120) clip_world)).
    pose (w2 := snd (run_process failing_second_encode_tools
                       (stage2_cmd clip 2097) w1)).
    rewrite (H2 clip MAX_SIZE clip_world w1 w2 (of_Z 120) 2097%Z
               (Ok (completed 1)));
      try reflexivity; try (vm_compute; reflexivity).
    + vm_compute. discriminate.
    + intros p [= <-]. discriminate.
Defined.

(** C8, as the specification states it, fails: a failed probe and a
    failed encode
    give the same value, so nothing computed from the value of
    [compress_video] tells a probe error from an encode failure. *)
Lemma failures_are_not_told_apart :
  ~ exists classify : res (option string) -> failure_kind,
      classify (fst (compress_video failing_probe_tools clip MAX_SIZE clip_world))
      = ProbeError /\
      classify (fst (compress_video failing_encode_tools clip MAX_SIZE clip_world))
      = EncodeFailure.
Proof.
  intros (classify & Hp & He).
  change (classify (Ok None) = ProbeError) in Hp.
  change (classify (Ok None) = EncodeFailure) in He.
  congruence.
Qed.

(** ** The choice between selection and direct download *)

Section Selection.

Variable T : tools.

(** A format that passed the filter is a video format with a url. *)
Lemma video_formats_of_valid (fmts : list MediaFormat) :
  video_formats_of (valid_formats fmts) = valid_formats fmts.
Proof.
  unfold video_formats_of, valid_formats.
  induction fmts as [|f fmts IH]; [reflexivity|].
  cbn [filter]. destruct (_is_format_downloadable f) eqn:E; [|exact IH].
  cbn [filter]. rewrite IH.
  unfold _is_format_downloadable in E.
  destruct (match vcodec f with Some v => String.eqb v "none" | None => false end);
    [discriminate|].
  destruct (truthy_str (url f)); [reflexivity | discriminate].
Qed.

Lemma get_video_info_reports (url : string) (w : world) info fmts :
  ydl_extract_info T url = Ok (Some info) ->
  formats info = Some fmts ->
  get_video_info T url w = (Ok (Some (with_formats info (valid_formats fmts))), w).
Proof.
  intros Hx Hf. unfold get_video_info, try_except, bind, lift, ret.
  now rewrite Hx, Hf.
Qed.

Lemma build_keyboard_shape (message_id : Z) (good : list MediaFormat) :
  map callback_data (build_keyboard T message_id good) =
  (map (fun f => ("download_" ++ format_id f ++ "_" ++ py_str_int message_id)%string)
       (firstn 5 good)
   ++ [("download_best_" ++ py_str_int message_id)%string])%list /\
  (List.length (build_keyboard T message_id good) <= 6)%nat.
Proof.
  unfold build_keyboard. split.
  - now rewrite map_app, map_map.
  - rewrite length_app, length_map.
    pose proof (firstn_le_length 5 good).
    change (List.length [best_button message_id]) with 1%nat. lia.
Qed.

(** With a report whose filtered list is not empty, [handle_url]
    comes to the choice between selection and direct download. *)
Lemma handle_url_reaches_choice (temp_dir : string) (message_id : Z)
    (url : string) (w : world) (info : VideoInfo) (fmts : list MediaFormat) :
  is_valid_url T url = true ->
  ydl_extract_info T url = Ok (Some info) ->
  formats info = Some fmts ->
  valid_formats fmts <> [] ->
  handle_url T temp_dir message_id url w =
  try_except
    (if (1 <? Z.of_nat (List.length
                          (good_formats_of (sort_by_height (valid_formats fmts)))))%Z
     then
       info_text <- lift (selection_text info) ;;
       emit (EvEdit (MsgSelectQuality info_text)
               (Some (build_keyboard T message_id
                        (good_formats_of (sort_by_height (valid_formats fmts)))))) ;;;
       set_user_data ("url_" ++ py_str_int message_id) url
     else download_and_send_video T temp_dir url "best")
    (fun e => emit (EvEdit (MsgProcessFailed e) None))
    (log (EvReply MsgProcessing) w).
Proof.
  intros Hv Hx Hf Hne.
  unfold handle_url. rewrite Hv. cbn [negb].
  unfold bind at 1, emit at 1.
  unfold try_except.
  rewrite (bind_ok _ _ _ _ _ (get_video_info_reports _ _ _ _ Hx Hf)).
  cbn [formats with_formats option_default].
  rewrite video_formats_of_valid.
  destruct (valid_formats fmts) as [|f0 rest]; [congruence|].
  reflexivity.
Qed.

(** C9, as the code has it.  With [good] the ranked formats of height
    360 or more of the filtered list: when [good] has more than one
    format and the selection text can be built, [handle_url] shows the
    selection, whose keyboard holds the first five formats of [good] in
    rank order and then the best option, and stores the url; when the
    filtered list is not empty and [good] has at most one format it goes
    on to [download_and_send_video] with the format ["best"]; when the
    filtered list is empty it tells the user that no download is
    available and stops: the disk is as it was and no download has been
    asked for. *)
Theorem handle_url_branches (temp_dir : string) (message_id : Z)
    (url : string) (w : world) (info : VideoInfo) (fmts : list MediaFormat) :
  is_valid_url T url = true ->
  ydl_extract_info T url = Ok (Some info) ->
  formats info = Some fmts ->
  let good := good_formats_of (sort_by_height (valid_formats fmts)) in
  let keyboard := build_keyboard T message_id good in
  ((1 < List.length good)%nat ->
   forall text, selection_text info = Ok text ->
   handle_url T temp_dir message_id url w =
   (Ok tt, selection_shown message_id url text keyboard w) /\
   map callback_data keyboard =
   (map (fun f => ("download_" ++ format_id f ++ "_" ++ py_str_int message_id)%string)
        (firstn 5 good)
    ++ [("download_best_" ++ py_str_int message_id)%string])%list /\
   (List.length keyboard <= 6)%nat) /\
  (valid_formats fmts <> [] -> (List.length good <= 1)%nat ->
   handle_url T temp_dir message_id url w =
   download_and_send_video T temp_dir url "best" (log (EvReply MsgProcessing) w)) /\
  (valid_formats fmts = [] ->
   handle_url T temp_dir message_id url w =
   (Ok tt, log (EvEdit MsgNotAvailable None) (log (EvReply MsgProcessing) w)) /\
   fs (snd (handle_url T temp_dir message_id url w)) = fs w /\
   forall u f,
     In (EvDownload u f) (events (snd (handle_url T temp_dir message_id url w))) ->
     In (EvDownload u f) (events w)).
Proof.
  intros Hv Hx Hf good keyboard.
  split; [|split].
  - intros Hlen text Htext.
    assert (Hne : valid_formats fmts <> []).
    { intros E. unfold good in Hlen. rewrite E in Hlen. cbn in Hlen. lia. }
    rewrite (handle_url_reaches_choice _ _ _ _ _ _ Hv Hx Hf Hne).
    fold good. fold keyboard. unfold try_except.
    assert (Hb : (1 <? Z.of_nat (List.length good))%Z = true)
      by (apply Z.ltb_lt; lia).
    rewrite Hb. unfold bind at 1, lift at 1. rewrite Htext.
    split; [reflexivity | apply build_keyboard_shape].
  - intros Hne Hlen.
    rewrite (handle_url_reaches_choice _ _ _ _ _ _ Hv Hx Hf Hne).
    fold good. unfold try_except.
    assert (Hb : (1 <? Z.of_nat (List.length good))%Z = false)
      by (apply Z.ltb_ge; lia).
    rewrite Hb.
    unfold download_and_send_video, try_except.
    destruct (bind _ _ _) as [[[]|e] w']; reflexivity.
  - intros Hempty.
    assert (E : handle_url T temp_dir message_id url w =
                (Ok tt, log (EvEdit MsgNotAvailable None)
                          (log (EvReply MsgProcessing) w))).
    { unfold handle_url. rewrite Hv. cbn [negb].
      unfold bind at 1, emit at 1. unfold try_except.
      rewrite (bind_ok _ _ _ _ _ (get_video_info_reports _ _ _ _ Hx Hf)).
      cbn [formats with_formats option_default].
      rewrite video_formats_of_valid, Hempty. reflexivity. }
    rewrite E. split; [reflexivity|]. split; [reflexivity|].
    intros u f [H|[H|H]]; [discriminate H | discriminate H | exact H].
Qed.

End Selection.

Lemma handle_url_branches_witness :
  (handle_url (catalog_tools two_good_formats) "/tmp/v" 7 "https://x/v" empty_world
   = (Ok tt,
      selection_shown 7 "https://x/v"
        sample_selection_text
        (build_keyboard (catalog_tools two_good_formats) 7
           (good_formats_of (sort_by_height (valid_formats two_good_formats))))
        empty_world) /\
   map callback_data
     (build_keyboard (catalog_tools two_good_formats) 7
        (good_formats_of (sort_by_height (valid_formats two_good_formats))))
   = ["download_22_7"; "download_18_7"; "download_best_7"]) /\
  handle_url (catalog_tools one_good_format) "/tmp/v" 7 "https://x/v" empty_world
  = download_and_send_video (catalog_tools one_good_format) "/tmp/v" "https://x/v"
      "best" (log (EvReply MsgProcessing) empty_world) /\
  handle_url (catalog_tools [audio_only]) "/tmp/v" 7 "https://x/v" empty_world
  = (Ok tt, log (EvEdit MsgNotAvailable None)
              (log (EvReply MsgProcessing) empty_world)).
Proof.
  split; [|split].
  - destruct (handle_url_branches (catalog_tools two_good_formats) "/tmp/v" 7
                "https://x/v" empty_world (sample_info two_good_formats)
                two_good_formats) as [H _];
      [reflexivity | reflexivity | reflexivity |].
    destruct (H ltac:(vm_compute; lia)
                sample_selection_text eq_refl) as (E & K & _).
    split; [exact E | exact K].
  - destruct (handle_url_branches (catalog_tools one_good_format) "/tmp/v" 7
                "https://x/v" empty_world (sample_info one_good_format)
                one_good_format) as (_ & H & _);
      [reflexivity | reflexivity | reflexivity |].
    apply H; [discriminate | vm_compute; lia].
  - destruct (handle_url_branches (catalog_tools [audio_only]) "/tmp/v" 7
                "https://x/v" empty_world (sample_info [audio_only])
                [audio_only]) as (_ & _ & H);
      [reflexivity | reflexivity | reflexivity |].
    exact (proj1 (H eq_refl)).
Defined.

(** With a duration that is a float, building the selection text raises
    and [handle_url] reports a failure instead of showing the selection,
    though the report has two good formats. *)
Lemma float_duration_breaks_selection :
  events (snd (handle_url float_duration_tools "/tmp/v" 7 "https://x/v"
                 empty_world))
  = [EvEdit (MsgProcessFailed ValueError) None; EvReply MsgProcessing].
Proof. reflexivity. Qed.

(** C9, as the specification states it, fails on a report with no video
    format:
    none of its formats has a height of 360 or more, and [handle_url]
    tells the user that no download is available instead of going on to
    the download. *)
Lemma empty_catalog_is_not_downloaded :
  (List.length (good_formats_of (sort_by_height (valid_formats [audio_only])))
   <= 1)%nat /\
  events (snd (handle_url (catalog_tools [audio_only]) "/tmp/v" 7 "https://x/v"
                 empty_world))
  = [EvEdit MsgNotAvailable None; EvReply MsgProcessing] /\
  handle_url (catalog_tools [audio_only]) "/tmp/v" 7 "https://x/v" empty_world
  <> download_and_send_video (catalog_tools [audio_only]) "/tmp/v" "https://x/v"
       "best" (log (EvReply MsgProcessing) empty_world).
Proof.
  split; [vm_compute; lia|].
  split; [reflexivity|].
  intros H. apply (f_equal (fun r => List.length (events (snd r)))) in H.
  vm_compute in H. discriminate H.
Qed.

(** ** The target bitrates *)

Section Signs.

(** Rounding keeps the sign it is given. *)
Lemma binary_round_aux_sign (s : bool) (m e : Z) (l : location) :
  match binary_round_aux prec emax s m e l with
  | S754_zero s' | S754_infinity s' | S754_finite s' _ _ => s' = s
  | S754_nan => True
  end.
Proof.
  unfold binary_round_aux.
  destruct (shr_fexp prec emax m e l) as [mrs' e'].
  destruct (shr_fexp prec emax _ e' loc_Exact) as [mrs'' e''].
  destruct (shr_m mrs''); [reflexivity | | exact I].
  destruct (e'' <=? emax - prec)%Z; reflexivity.
Qed.

Lemma not_negative_round (m e : Z) (l : location) :
  not_negative (binary_round_aux prec emax false m e l) = true.
Proof.
  pose proof (binary_round_aux_sign false m e l) as H.
  destruct (binary_round_aux prec emax false m e l); simpl; subst; reflexivity.
Qed.

Lemma not_negative_fmul (x y : float) :
  not_negative x = true -> not_negative y = true ->
  not_negative (fmul x y) = true.
Proof.
  destruct x as [[]|[]| |[] mx ex], y as [[]|[]| |[] my ey]; simpl;
    try discriminate; try reflexivity; intros _ _.
  apply not_negative_round.
Qed.

Lemma not_negative_fdiv (x y : float) :
  not_negative x = true -> not_negative y = true ->
  not_negative (fdiv x y) = true.
Proof.
  destruct x as [[]|[]| |[] mx ex], y as [[]|[]| |[] my ey]; simpl;
    try discriminate; try reflexivity; intros _ _.
  unfold fdiv, SFdiv.
  destruct (SFdiv_core_binary prec emax (Z.pos mx) ex (Z.pos my) ey)
    as [[mz ez] lz].
  apply not_negative_round.
Qed.

Lemma not_negative_of_N (n : N) : not_negative (of_Z (Z.of_N n)) = true.
Proof.
  destruct n as [|p]; [reflexivity|].
  unfold of_Z, binary_normalize, binary_round. simpl Z.of_N. cbv iota.
  destruct (shl_align _ _ _) as [mz ez].
  apply not_negative_round.
Qed.

Lemma is_positive_not_negative (d : float) :
  is_positive d = true -> not_negative d = true.
Proof. destruct d as [[]|[]| |[] m e]; simpl; try discriminate; reflexivity. Qed.

Lemma is_positive_not_zero (d : float) :
  is_positive d = true -> is_zero d = false.
Proof. destruct d as [[]|[]| |[] m e]; simpl; try discriminate; reflexivity. Qed.

(** On a float that is not below zero, [int] is the floor. *)
Lemma py_int_floor (x : float) :
  not_negative x = true -> res_to_option (py_int x) = floor x.
Proof.
  destruct x as [s|s| |[] m e]; simpl; try discriminate; reflexivity.
Qed.

Lemma floor_not_finite (x : float) : is_finite x = false -> floor x = None.
Proof. destruct x; simpl; try discriminate; reflexivity. Qed.

(** A quotient that starts from an infinity or a NaN is not finite. *)
Lemma bitrate_quotient_overflow (fraction : float) (n : N) (d : float) :
  (fraction = lit_0_8 \/ fraction = lit_0_6) ->
  is_finite (of_Z (Z.of_N n)) = false ->
  is_finite (bitrate_quotient fraction n d) = false.
Proof.
  intros Hf H. unfold bitrate_quotient.
  destruct (of_Z (Z.of_N n)) as [s|s| |s m e]; try discriminate H;
    destruct Hf as [-> | ->];
    destruct d as [sd|sd| |sd md ed]; reflexivity.
Qed.

End Signs.

Section Bitrates.

(** What the two computations return, whatever the world. *)
Lemma stage1_target_bitrate_value (n : N) (d : float) (w : world) :
  is_zero d = false ->
  fst (stage1_target_bitrate n d w) =
  if is_finite (of_Z (Z.of_N n))
  then py_int (bitrate_quotient lit_0_8 n d)
  else Raise OverflowError.
Proof.
  intros Hz.
  unfold stage1_target_bitrate, bind, lift, py_truediv, py_float_of_int,
    bitrate_quotient.
  destruct (is_finite (of_Z (Z.of_N n))); [|reflexivity].
  rewrite Hz. reflexivity.
Qed.

Lemma stage2_target_bitrate_value (n : N) (d : float) (w : world) :
  is_zero d = false ->
  fst (stage2_target_bitrate n d w) =
  if is_finite (of_Z (Z.of_N n))
  then py_int (bitrate_quotient lit_0_6 n d)
  else Raise OverflowError.
Proof.
  intros Hz.
  unfold stage2_target_bitrate, bind, lift, py_truediv, py_float_of_int,
    bitrate_quotient.
  destruct (is_finite (of_Z (Z.of_N n))); [|reflexivity].
  rewrite Hz. reflexivity.
Qed.

Lemma not_negative_bitrate_quotient (fraction : float) (n : N) (d : float) :
  not_negative fraction = true -> not_negative d = true ->
  not_negative (bitrate_quotient fraction n d) = true.
Proof.
  intros Hf Hd. unfold bitrate_quotient.
  repeat first [apply not_negative_fdiv | apply not_negative_fmul];
    try assumption; try reflexivity.
  apply not_negative_of_N.
Qed.

(** C2.  For every ceiling and every positive duration the stage-1
    target bitrate is the floor of
    [max_size_bytes * 0.8 * 8 / duration / 1000], both taken in
    binary64 arithmetic (there is a bitrate exactly when that quotient
    is finite); for 120 s and 50,000,000 bytes it is 2666 kbps. *)
Theorem stage1_target_bitrate_is_floor (max_size_bytes : N) (duration : float)
    (w : world) :
  is_positive duration = true ->
  res_to_option (fst (stage1_target_bitrate max_size_bytes duration w)) =
  stage1_bitrate_spec max_size_bytes duration /\
  fst (stage1_target_bitrate 50000000 (of_Z 120) w) = Ok 2666%Z.
Proof.
  intros Hpos. split; [|reflexivity].
  rewrite stage1_target_bitrate_value by now apply is_positive_not_zero.
  unfold stage1_bitrate_spec.
  destruct (is_finite (of_Z (Z.of_N max_size_bytes))) eqn:Hfin.
  - apply py_int_floor, not_negative_bitrate_quotient; [reflexivity|].
    now apply is_positive_not_negative.
  - symmetry. apply floor_not_finite, bitrate_quotient_overflow; auto.
Qed.

End Bitrates.

Lemma stage1_target_bitrate_is_floor_witness :
  res_to_option (fst (stage1_target_bitrate MAX_SIZE (of_Z 120) empty_world)) =
  stage1_bitrate_spec MAX_SIZE (of_Z 120) /\
  stage1_bitrate_spec MAX_SIZE (of_Z 120) = Some 2796%Z.
Proof.
  split; [|reflexivity].
  apply (stage1_target_bitrate_is_floor MAX_SIZE (of_Z 120) empty_world).
  reflexivity.
Defined.

(** ** Rounding in binary64 *)

Section Digits.

Lemma digits2_pos_bounds (p : positive) :
  (2 ^ (Zpos (digits2_pos p) - 1) <= Zpos p < 2 ^ Zpos (digits2_pos p))%Z.
Proof.
  induction p as [p IH|p IH|]; cbn [digits2_pos].
  - rewrite Pos2Z.inj_succ.
    replace (Z.succ (Zpos (digits2_pos p)) - 1)%Z
      with (Z.succ (Zpos (digits2_pos p) - 1)) by lia.
    rewrite !Z.pow_succ_r by lia. lia.
  - rewrite Pos2Z.inj_succ.
    replace (Z.succ (Zpos (digits2_pos p)) - 1)%Z
      with (Z.succ (Zpos (digits2_pos p) - 1)) by lia.
    rewrite !Z.pow_succ_r by lia. lia.
  - simpl. lia.
Qed.

Lemma Zdigits2_bounds (m : Z) :
  (0 <= m)%Z ->
  (0 <= Zdigits2 m)%Z /\ (m < 2 ^ Zdigits2 m)%Z /\
  ((0 < m)%Z -> (2 ^ (Zdigits2 m - 1) <= m)%Z).
Proof.
  destruct m as [|p|p]; intros H; [simpl; lia | | lia].
  pose proof (digits2_pos_bounds p). cbn [Zdigits2]. lia.
Qed.

(** A number below [2^n] has at most [n] digits. *)
Lemma Zdigits2_le (m n : Z) :
  (0 <= m < 2 ^ n)%Z -> (0 <= n)%Z -> (Zdigits2 m <= n)%Z.
Proof.
  intros [H0 H] Hn.
  destruct (Z.eq_dec m 0) as [->|Hm]; [simpl; lia|].
  destruct (Zdigits2_bounds m H0) as (Hd & _ & Hlow).
  specialize (Hlow ltac:(lia)).
  destruct (Z.le_gt_cases (Zdigits2 m) n) as [|Hgt]; [assumption|].
  assert (2 ^ n <= 2 ^ (Zdigits2 m - 1))%Z by (apply Z.pow_le_mono_r; lia).
  lia.
Qed.

End Digits.

Section Shifts.

Lemma shr_1_m (mrs : shr_record) :
  (0 <= shr_m mrs)%Z -> shr_m (shr_1 mrs) = (shr_m mrs / 2)%Z.
Proof.
  destruct mrs as [m r s]. cbn [shr_m]. intros H.
  destruct m as [|[p|p|]|p]; cbn [shr_1 shr_m];
    try reflexivity; try lia.
  - change (Z.pos p~1) with (2 * Z.pos p + 1)%Z.
    apply (Z.div_unique _ _ _ 1); lia.
  - change (Z.pos p~0) with (2 * Z.pos p)%Z.
    apply (Z.div_unique _ _ _ 0); lia.
Qed.

Lemma pow2_xO (n : positive) : (2 ^ Zpos n~0 = 2 ^ Zpos n * 2 ^ Zpos n)%Z.
Proof.
  change (Zpos n~0) with (2 * Zpos n)%Z.
  replace (2 * Zpos n)%Z with (Zpos n + Zpos n)%Z by lia.
  now rewrite Z.pow_add_r by lia.
Qed.

Lemma pow2_xI (n : positive) : (2 ^ Zpos n~1 = 2 * (2 ^ Zpos n * 2 ^ Zpos n))%Z.
Proof.
  change (Zpos n~1) with (2 * Zpos n + 1)%Z.
  replace (2 * Zpos n + 1)%Z with (1 + (Zpos n + Zpos n))%Z by lia.
  now rewrite !Z.pow_add_r by lia.
Qed.

Lemma iter_pos_shr_1_m (n : positive) (mrs : shr_record) :
  (0 <= shr_m mrs)%Z ->
  shr_m (SpecFloat.iter_pos shr_1 n mrs) = (shr_m mrs / 2 ^ Zpos n)%Z.
Proof.
  revert mrs. induction n as [n IH|n IH|]; intros mrs H; cbn [SpecFloat.iter_pos].
  - assert (H1 : (0 <= shr_m (shr_1 mrs))%Z)
      by (rewrite shr_1_m by assumption; apply Z.div_pos; lia).
    assert (H2 : (0 <= shr_m (SpecFloat.iter_pos shr_1 n (shr_1 mrs)))%Z)
      by (rewrite IH by assumption; apply Z.div_pos; lia).
    rewrite IH, IH, shr_1_m by assumption.
    rewrite !Z.div_div by lia. now rewrite pow2_xI.
  - assert (H2 : (0 <= shr_m (SpecFloat.iter_pos shr_1 n mrs))%Z)
      by (rewrite IH by assumption; apply Z.div_pos; lia).
    rewrite IH, IH by assumption.
    rewrite !Z.div_div by lia. now rewrite pow2_xO.
  - rewrite shr_1_m by assumption. reflexivity.
Qed.

Lemma shr_record_of_loc_m (m : Z) (l : location) :
  shr_m (shr_record_of_loc m l) = m.
Proof. destruct l as [|[]]; reflexivity. Qed.

Lemma loc_of_shr_record_of_loc (m : Z) (l : location) :
  loc_of_shr_record (shr_record_of_loc m l) = l.
Proof. destruct l as [|[]]; reflexivity. Qed.

(** [fexp] at precision 53. *)
Lemma fexp_eq (e : Z) : fexp prec emax e = Z.max (e - 53) (-1074).
Proof. reflexivity. Qed.

(** The shift to the exponent the format asks for. *)
Lemma shr_fexp_spec (m e : Z) (l : location) :
  (0 <= m)%Z ->
  let e' := Z.max e (fexp prec emax (Zdigits2 m + e)) in
  snd (shr_fexp prec emax m e l) = e' /\
  shr_m (fst (shr_fexp prec emax m e l)) = (m / 2 ^ (e' - e))%Z /\
  (e' = e -> fst (shr_fexp prec emax m e l) = shr_record_of_loc m l).
Proof.
  intros Hm e'. unfold shr_fexp, shr. subst e'.
  set (f := fexp prec emax (Zdigits2 m + e)).
  destruct (f - e)%Z as [|p|p] eqn:E; cbn [fst snd].
  - replace (Z.max e f) with e by lia.
    rewrite Z.sub_diag, shr_record_of_loc_m. simpl. rewrite Z.div_1_r. auto.
  - replace (Z.max e f) with (e + Zpos p)%Z by lia.
    rewrite iter_pos_shr_1_m by (now rewrite shr_record_of_loc_m).
    rewrite shr_record_of_loc_m.
    replace (e + Zpos p - e)%Z with (Zpos p) by lia.
    repeat split. lia.
  - replace (Z.max e f) with e by lia.
    rewrite Z.sub_diag, shr_record_of_loc_m. simpl. rewrite Z.div_1_r. auto.
Qed.

Lemma round_nearest_even_cases (m : Z) (l : location) :
  round_nearest_even m l = m \/ round_nearest_even m l = (m + 1)%Z.
Proof.
  destruct l as [|[]]; cbn [round_nearest_even]; auto.
  destruct (Z.even m); auto.
Qed.

End Shifts.

Section RoundStructure.

Lemma shifted_mantissa_bound (mx ex e' : Z) :
  (0 <= mx)%Z ->
  (ex <= e')%Z ->
  (Zdigits2 mx + ex - 53 <= e')%Z ->
  (0 <= mx / 2 ^ (e' - ex) < 2 ^ 53)%Z.
Proof.
  intros Hm He Hd.
  destruct (Zdigits2_bounds mx Hm) as (Hdg & Hup & _).
  assert (Hpow : (0 < 2 ^ (e' - ex))%Z) by (apply Z.pow_pos_nonneg; lia).
  split; [apply Z.div_pos; lia|].
  apply Z.div_lt_upper_bound; [assumption|].
  rewrite <- Z.pow_add_r by lia.
  eapply Z.lt_le_trans; [exact Hup|].
  apply Z.pow_le_mono_r; lia.
Qed.

(** The mantissa and the exponent that [binary_round_aux] settles on. *)
Lemma binary_round_aux_struct (s : bool) (mx ex : Z) (lx : location) :
  (0 <= mx)%Z ->
  let e' := Z.max ex (fexp prec emax (Zdigits2 mx + ex)) in
  let m' := (mx / 2 ^ (e' - ex))%Z in
  exists m1,
    (m1 = m' \/ m1 = (m' + 1)%Z) /\
    (e' = ex -> lx = loc_Exact -> m1 = mx) /\
    (0 <= m1 <= 2 ^ 53)%Z /\
    binary_round_aux prec emax s mx ex lx = round_result s m1 e'.
Proof.
  intros Hm e' m'.
  assert (He' : (ex <= e' /\ Zdigits2 mx + ex - 53 <= e' /\ -1074 <= e')%Z)
    by (subst e'; rewrite fexp_eq; lia).
  destruct (shifted_mantissa_bound mx ex e' Hm) as [Hm0 Hm53]; try lia.
  fold m' in Hm0, Hm53.
  unfold binary_round_aux.
  destruct (shr_fexp_spec mx ex lx Hm) as (Hsnd & Hfst & Hsame).
  fold e' in Hsnd, Hfst, Hsame. fold m' in Hfst.
  destruct (shr_fexp prec emax mx ex lx) as [mrs1 e1]. cbn [fst snd] in *.
  subst e1.
  set (m1 := round_nearest_even (shr_m mrs1) (loc_of_shr_record mrs1)).
  assert (Hm1 : m1 = m' \/ m1 = (m' + 1)%Z).
  { subst m1. rewrite <- Hfst. apply round_nearest_even_cases. }
  assert (Hrange : (0 <= m1 <= 2 ^ 53)%Z) by lia.
  exists m1. split; [exact Hm1|]. split; [|split; [exact Hrange|]].
  { intros Hex Hlx. subst m1. rewrite (Hsame Hex), Hlx. reflexivity. }
  destruct (shr_fexp_spec m1 e' loc_Exact (proj1 Hrange)) as (Hsnd2 & Hfst2 & _).
  destruct (shr_fexp prec emax m1 e' loc_Exact) as [mrs2 e2]. cbn [fst snd] in *.
  unfold round_result.
  destruct (Z.ltb_spec m1 (2 ^ 53)) as [Hlt|Hge].
  - assert (Hdg : (Zdigits2 m1 <= 53)%Z) by (apply Zdigits2_le; lia).
    rewrite fexp_eq in Hsnd2, Hfst2.
    replace (Z.max e' (Z.max (Zdigits2 m1 + e' - 53) (-1074))) with e' in * by lia.
    rewrite Z.sub_diag in Hfst2. simpl in Hfst2. rewrite Z.div_1_r in Hfst2.
    rewrite Hfst2, Hsnd2.
    destruct m1 as [|p|p]; [reflexivity | reflexivity | lia].
  - assert (E : m1 = (2 ^ 53)%Z) by lia.
    rewrite E in Hsnd2, Hfst2. rewrite E.
    change (Zdigits2 (2 ^ 53)) with 54%Z in *.
    rewrite fexp_eq in Hsnd2, Hfst2.
    replace (Z.max e' (Z.max (54 + e' - 53) (-1074))) with (e' + 1)%Z in * by lia.
    replace (e' + 1 - e')%Z with 1%Z in Hfst2 by lia.
    change (2 ^ 53 / 2 ^ 1)%Z with (2 ^ 52)%Z in Hfst2.
    rewrite Hfst2, Hsnd2. reflexivity.
Qed.

End RoundStructure.

Section Powers.

Local Open Scope R_scope.

Lemma bpow_pos (e : Z) : 0 < bpow e.
Proof. apply powerRZ_lt. lra. Qed.

Lemma bpow_add (a b : Z) : bpow (a + b) = bpow a * bpow b.
Proof. apply powerRZ_add. lra. Qed.

Lemma IZR_pow2 (k : Z) : (0 <= k)%Z -> IZR (2 ^ k) = bpow k.
Proof.
  destruct k as [|p|p]; intros H; [reflexivity | | lia].
  apply Zpower_pos_powerRZ.
Qed.

Lemma bpow_ge_1 (k : Z) : (0 <= k)%Z -> 1 <= bpow k.
Proof.
  intros H. rewrite <- IZR_pow2 by assumption.
  apply IZR_le. pose proof (Z.pow_pos_nonneg 2 k). lia.
Qed.

Lemma bpow_le (a b : Z) : (a <= b)%Z -> bpow a <= bpow b.
Proof.
  intros H. replace b with (a + (b - a))%Z by lia. rewrite bpow_add.
  pose proof (bpow_pos a). pose proof (bpow_ge_1 (b - a) ltac:(lia)). nra.
Qed.

(** The shifted mantissa brackets the value. *)
Lemma shifted_sandwich (mx ex e' : Z) :
  (0 <= mx)%Z -> (ex <= e')%Z ->
  IZR (mx / 2 ^ (e' - ex)) * bpow e' <= IZR mx * bpow ex /\
  IZR (mx + 1) * bpow ex <= IZR (mx / 2 ^ (e' - ex) + 1) * bpow e'.
Proof.
  intros Hm He.
  set (k := (e' - ex)%Z). set (m' := (mx / 2 ^ k)%Z).
  assert (Hp : (0 < 2 ^ k)%Z) by (apply Z.pow_pos_nonneg; lia).
  assert (H1 : (m' * 2 ^ k <= mx)%Z)
    by (subst m'; rewrite Z.mul_comm; apply Z.mul_div_le; lia).
  assert (H2 : (mx + 1 <= (m' + 1) * 2 ^ k)%Z).
  { pose proof (Z.mul_succ_div_gt mx (2 ^ k) Hp). fold m' in H. lia. }
  apply IZR_le in H1, H2. rewrite mult_IZR, IZR_pow2 in H1, H2 by lia.
  replace e' with (ex + k)%Z by lia. rewrite bpow_add.
  pose proof (bpow_pos ex). pose proof (bpow_pos k).
  split; nra.
Qed.

End Powers.

Section RoundBounds.

Local Open Scope R_scope.

Lemma bpow_m52_small : bpow (-52) <= / 1000.
Proof.
  apply Rle_trans with (bpow (-10)); [apply bpow_le; lia|].
  unfold bpow. simpl. lra.
Qed.

Lemma bpow_emin_small : bpow (-1074) <= / 1000000.
Proof.
  apply Rle_trans with (bpow (-20)); [apply bpow_le; lia|].
  unfold bpow. simpl. lra.
Qed.

Lemma bpow_1 : bpow 1 = 2.
Proof. unfold bpow. simpl. lra. Qed.

Lemma bpow_1024_split : bpow 1024 = IZR (2 ^ 53) * bpow 971.
Proof. rewrite IZR_pow2 by lia. rewrite <- bpow_add. reflexivity. Qed.

(** The value [binary_round_aux] settles on is within one unit of the
    last place of the exact value. *)
Lemma round_bounds (mx ex : Z) (lx : location) (X : R) :
  (0 <= mx)%Z ->
  IZR mx * bpow ex <= X <= IZR (mx + 1) * bpow ex ->
  (lx = loc_Exact /\ X = IZR mx * bpow ex) \/
  bpow ex <= X * bpow (-52) + bpow (-1074) ->
  (ex <= 971)%Z \/ bpow 1024 <= X ->
  rounds_to X (binary_round_aux prec emax false mx ex lx).
Proof.
  intros Hm HX Hloc Hexp.
  destruct (binary_round_aux_struct false mx ex lx Hm)
    as (m1 & Hm1 & Hexact & Hrange & ->).
  set (dg := Zdigits2 mx) in *.
  set (e' := Z.max ex (fexp prec emax (dg + ex))) in *.
  set (m' := (mx / 2 ^ (e' - ex))%Z) in *.
  assert (He' : (ex <= e' /\ -1074 <= e' /\
                 (e' = ex \/ e' = -1074 \/ (e' = dg + ex - 53 /\ ex < e'))%Z)%Z)
    by (subst e'; rewrite fexp_eq; lia).
  destruct He' as (Hle & Hmin & Hcases).
  destruct (shifted_sandwich mx ex e' Hm Hle) as [S1 S2]. fold m' in S1, S2.
  pose proof (bpow_pos ex) as Pex. pose proof (bpow_pos e') as Pe'.
  pose proof bpow_m52_small as P52. pose proof bpow_emin_small as Pmin.
  pose proof (bpow_pos (-52)) as P52'. pose proof (bpow_pos (-1074)) as Pmin'.
  assert (X0 : 0 <= X).
  { apply Rle_trans with (IZR mx * bpow ex); [|lra].
    apply Rmult_le_pos; [apply IZR_le; lia | lra]. }
  set (V := IZR m1 * bpow e').
  assert (HV : V - bpow e' <= X <= V + bpow e').
  { subst V. rewrite !plus_IZR in S2. rewrite plus_IZR in HX.
    destruct Hm1 as [-> | ->]; [|rewrite plus_IZR]; lra. }
  assert (Herr : X - (X * bpow (-52) + bpow (-1074)) <= V <=
                 X + (X * bpow (-52) + bpow (-1074))).
  { destruct Hcases as [E | [E | [E Hlt]]].
    - destruct Hloc as [[Hl HXe] | Hb].
      + assert (m1 = mx) by auto. subst V. rewrite H, E, <- HXe.
        assert (0 <= X * bpow (-52)) by (apply Rmult_le_pos; lra). lra.
      + rewrite E in HV.
        assert (0 <= X * bpow (-52)) by (apply Rmult_le_pos; lra). lra.
    - rewrite E in HV.
      assert (0 <= X * bpow (-52)) by (apply Rmult_le_pos; lra). lra.
    - assert (Hdg : (53 < dg)%Z) by lia.
      assert (Hmx : (0 < mx)%Z).
      { destruct (Z.eq_dec mx 0) as [Z0|]; [|lia].
        subst dg. rewrite Z0 in Hdg. simpl in Hdg. lia. }
      destruct (Zdigits2_bounds mx Hm) as (_ & _ & Hlow).
      specialize (Hlow Hmx). fold dg in Hlow.
      apply IZR_le in Hlow. rewrite IZR_pow2 in Hlow by lia.
      assert (Eb : bpow e' = bpow (dg - 1) * bpow ex * bpow (-52)).
      { rewrite <- !bpow_add. f_equal. lia. }
      pose proof (bpow_pos (dg - 1)).
      assert (bpow e' <= X * bpow (-52)).
      { rewrite Eb. apply Rmult_le_compat_r; [lra|].
        apply Rle_trans with (IZR mx * bpow ex); [|lra].
        apply Rmult_le_compat_r; lra. }
      lra. }
  assert (Hm1R : 0 <= IZR m1 <= IZR (2 ^ 53))
    by (split; apply IZR_le; lia).
  unfold rounds_to, round_result.
  change (3 - emax - prec)%Z with (-1074)%Z. change emax with 1024%Z.
  destruct (Z.eqb_spec m1 0) as [Ez|Hnz].
  { left. subst V. rewrite Ez in *. simpl B2R.
    pose proof (bpow_pos 1024).
    assert (0 <= X * / 1000) by lra.
    assert (X * bpow (-52) <= X * / 1000) by (apply Rmult_le_compat_l; lra).
    repeat split; try exact I; lra. }
  assert (Hbig : (ex < e')%Z -> (972 <= e')%Z -> bpow 1024 <= X).
  { intros Hlt H972.
    destruct Hcases as [E | [E | [E _]]]; [lia | lia |].
    assert (Hmx : (0 < mx)%Z).
    { destruct (Z.eq_dec mx 0) as [Z0|]; [|lia].
      subst dg. rewrite Z0 in E. simpl in E. lia. }
    destruct (Zdigits2_bounds mx Hm) as (_ & _ & Hlow).
    specialize (Hlow Hmx). fold dg in Hlow.
    apply IZR_le in Hlow. rewrite IZR_pow2 in Hlow by lia.
    apply Rle_trans with (bpow (dg - 1) * bpow ex).
    - rewrite <- bpow_add. apply bpow_le. lia.
    - apply Rle_trans with (IZR mx * bpow ex); [|lra].
      apply Rmult_le_compat_r; lra. }
  assert (X * bpow (-52) <= X * / 1000) by (apply Rmult_le_compat_l; lra).
  destruct (Z.ltb_spec m1 (2 ^ 53)) as [Hlt53|Hge53].
  - destruct (Z.leb_spec e' 971) as [He|He].
    + left. cbn [nonneg_finite B2R cond_Zopp].
      rewrite Z2Pos.id by lia. fold V.
      split; [change (emax - prec)%Z with 971%Z; lia|].
      split; [|lra].
      rewrite bpow_1024_split.
      apply Rlt_le_trans with (IZR (2 ^ 53) * bpow e').
      * subst V. apply Rmult_lt_compat_r; [lra|]. apply IZR_lt. lia.
      * apply Rmult_le_compat_l; [lra|]. apply bpow_le. lia.
    + right. split; [reflexivity|].
      pose proof (bpow_pos 1024).
      destruct (Z.eq_dec e' ex) as [E|Hne].
      * destruct Hexp as [Hs|Hb]; [lia | lra].
      * assert (bpow 1024 <= X) by (apply Hbig; lia). lra.
  - assert (E53 : m1 = (2 ^ 53)%Z) by lia.
    destruct (Z.leb_spec (e' + 1) 971) as [He|He].
    + left. cbn [nonneg_finite B2R cond_Zopp].
      rewrite Z2Pos.id by lia.
      assert (EV : IZR (2 ^ 52) * bpow (e' + 1) = V).
      { subst V. rewrite E53, bpow_add, bpow_1.
        change (IZR (2 ^ 52)) with 4503599627370496.
        change (IZR (2 ^ 53)) with 9007199254740992. ring. }
      rewrite EV.
      split; [change (emax - prec)%Z with 971%Z; lia|].
      split; [|lra].
      rewrite <- EV, bpow_1024_split.
      apply Rlt_le_trans with (IZR (2 ^ 53) * bpow (e' + 1)).
      * apply Rmult_lt_compat_r; [apply bpow_pos|]. apply IZR_lt. lia.
      * apply Rmult_le_compat_l; [lra|]. apply bpow_le. lia.
    + right. split; [reflexivity|].
      assert (H971 : bpow 971 <= bpow e') by (apply bpow_le; lia).
      pose proof (bpow_pos 971). pose proof (bpow_pos 1024).
      rewrite bpow_1024_split.
      subst V. rewrite E53 in HV.
      change (IZR (2 ^ 53)) with 9007199254740992 in *.
      nra.
Qed.

End RoundBounds.

Section Operations.

Local Open Scope R_scope.

Lemma rounds_to_zero : rounds_to 0 (S754_zero false).
Proof.
  left. pose proof (bpow_pos emax). pose proof (bpow_pos (3 - emax - prec)).
  simpl B2R. repeat split; try exact I; lra.
Qed.

Lemma B2R_finite_pos (m : positive) (e : Z) :
  0 < B2R (S754_finite false m e).
Proof.
  simpl. apply Rmult_lt_0_compat; [apply IZR_lt; lia | apply bpow_pos].
Qed.

(** A product of floats is the rounded product of their values. *)
Lemma fmul_rounds (x : float) (my : positive) (ey : Z) :
  nonneg_finite x -> (ey <= 0)%Z ->
  rounds_to (B2R x * B2R (S754_finite false my ey))
            (fmul x (S754_finite false my ey)).
Proof.
  intros Hx Hey.
  destruct x as [[]|[]| |[] mx ex]; try contradiction.
  - simpl B2R. rewrite Rmult_0_l. apply rounds_to_zero.
  - cbn [nonneg_finite] in Hx. change (emax - prec)%Z with 971%Z in Hx.
    unfold fmul, SFmul. cbn [xorb].
    assert (E : B2R (S754_finite false mx ex) * B2R (S754_finite false my ey)
                = IZR (Zpos (mx * my)) * bpow (ex + ey)).
    { simpl. rewrite Pos2Z.inj_mul, mult_IZR, bpow_add. ring. }
    rewrite E. apply round_bounds.
    + lia.
    + rewrite plus_IZR. pose proof (bpow_pos (ex + ey)). nra.
    + left. auto.
    + left. lia.
Qed.

Lemma SFdiv_core_binary_spec (mx my : positive) (ex ey : Z) :
  let '(q, e', l) := SFdiv_core_binary prec emax (Zpos mx) ex (Zpos my) ey in
  let d := (Zpos (digits2_pos mx) + ex - (Zpos (digits2_pos my) + ey))%Z in
  (e' <= ex - ey)%Z /\ (e' <= Z.max (d - 53) (-1074))%Z /\
  (0 <= q)%Z /\
  exists r, (0 <= r < Zpos my)%Z /\
            (Zpos mx * 2 ^ (ex - ey - e') = q * Zpos my + r)%Z.
Proof.
  unfold SFdiv_core_binary. cbn [Zdigits2].
  set (d := (Zpos (digits2_pos mx) + ex - (Zpos (digits2_pos my) + ey))%Z).
  rewrite fexp_eq. fold d.
  set (e' := Z.min (Z.max (d - 53) (-1074)) (ex - ey)).
  set (s := (ex - ey - e')%Z).
  assert (Hs : (0 <= s)%Z) by (subst s e'; lia).
  set (m' := match s with
             | Z0 => Zpos mx
             | Zpos _ => Z.shiftl (Zpos mx) s
             | Zneg _ => 0%Z
             end).
  assert (Hm' : m' = (Zpos mx * 2 ^ s)%Z).
  { subst m'. destruct s as [|p|p]; [simpl; lia | | lia].
    apply Z.shiftl_mul_pow2. lia. }
  pose proof (Z_div_mod m' (Zpos my) ltac:(lia)) as Hdm.
  destruct (Z.div_eucl m' (Zpos my)) as [q r].
  destruct Hdm as [Heq Hr].
  assert (Hp : (0 < 2 ^ s)%Z) by (apply Z.pow_pos_nonneg; lia).
  split; [subst e'; lia|]. split; [subst e'; lia|].
  split; [nia|].
  exists r. split; [lia|]. fold s. rewrite <- Hm'. lia.
Qed.

(** The value of a positive finite float lies between the powers of two
    given by its number of digits. *)
Lemma B2R_digits (m : positive) (e : Z) :
  bpow (Zpos (digits2_pos m) - 1 + e) <= B2R (S754_finite false m e) /\
  B2R (S754_finite false m e) <= bpow (Zpos (digits2_pos m) + e).
Proof.
  pose proof (digits2_pos_bounds m) as [Hlo Hhi].
  apply IZR_le in Hlo. apply Z.lt_le_incl, IZR_le in Hhi.
  rewrite IZR_pow2 in Hlo, Hhi by lia.
  simpl B2R. rewrite !bpow_add. pose proof (bpow_pos e).
  split; apply Rmult_le_compat_r; lra.
Qed.

(** A quotient of floats is the rounded quotient of their values. *)
Lemma fdiv_rounds (x : float) (my : positive) (ey : Z) :
  nonneg_finite x ->
  rounds_to (B2R x / B2R (S754_finite false my ey))
            (fdiv x (S754_finite false my ey)).
Proof.
  intros Hx.
  destruct x as [[]|[]| |[] mx ex]; try contradiction.
  - simpl B2R. unfold Rdiv. rewrite Rmult_0_l. apply rounds_to_zero.
  - clear Hx. unfold fdiv, SFdiv. cbn [xorb].
    pose proof (SFdiv_core_binary_spec mx my ex ey) as Hcore.
    destruct (SFdiv_core_binary prec emax (Zpos mx) ex (Zpos my) ey)
      as [[q e'] l].
    set (d := (Zpos (digits2_pos mx) + ex - (Zpos (digits2_pos my) + ey))%Z) in *.
    destruct Hcore as (He1 & He2 & Hq & r & Hr & Heq).
    set (X := B2R (S754_finite false mx ex) / B2R (S754_finite false my ey)).
    set (s := (ex - ey - e')%Z) in *.
    pose proof (B2R_finite_pos my ey) as Ypos.
    pose proof (bpow_pos e') as Pe'. pose proof (bpow_pos ey) as Pey.
    assert (A0 : 0 < IZR (Zpos my)) by (apply IZR_lt; lia).
    (* the exact quotient as (q + r/my) * 2^e' *)
    assert (EX : X = (IZR q + IZR r / IZR (Zpos my)) * bpow e').
    { subst X. cbn [B2R cond_Zopp].
      assert (Eex : bpow ex = bpow e' * bpow s * bpow ey).
      { rewrite <- !bpow_add. f_equal. subst s. lia. }
      apply (f_equal IZR) in Heq.
      rewrite mult_IZR, plus_IZR, mult_IZR, IZR_pow2 in Heq by (subst s; lia).
      rewrite Eex.
      transitivity (IZR (Zpos mx) * bpow s / IZR (Zpos my) * bpow e').
      - field. split; lra.
      - rewrite Heq. field. lra. }
    assert (Hrho : 0 <= IZR r / IZR (Zpos my) <= 1).
    { destruct Hr as [Hr0 Hr1]. apply IZR_le in Hr0.
      apply Z.lt_le_incl, IZR_le in Hr1.
      split.
      - apply Rmult_le_pos; [lra|]. apply Rlt_le, Rinv_0_lt_compat. lra.
      - apply Rmult_le_reg_r with (IZR (Zpos my)); [lra|].
        unfold Rdiv. rewrite Rmult_assoc, Rinv_l by lra. lra. }
    (* the quotient is at least 2^(d-1) *)
    assert (Hlow : bpow (d - 1) <= X).
    { destruct (B2R_digits mx ex) as [Lx _].
      destruct (B2R_digits my ey) as [_ Uy].
      subst X.
      apply Rmult_le_reg_r with (B2R (S754_finite false my ey)); [lra|].
      unfold Rdiv. rewrite Rmult_assoc, Rinv_l, Rmult_1_r by lra.
      apply Rle_trans with (bpow (d - 1) * bpow (Zpos (digits2_pos my) + ey)).
      - apply Rmult_le_compat_l; [apply Rlt_le, bpow_pos | lra].
      - rewrite <- bpow_add.
        replace (d - 1 + (Zpos (digits2_pos my) + ey))%Z
          with (Zpos (digits2_pos mx) - 1 + ex)%Z by (subst d; lia).
        lra. }
    apply round_bounds.
    + exact Hq.
    + rewrite EX, plus_IZR. nra.
    + right.
      pose proof (bpow_pos (-52)). pose proof (bpow_pos (-1074)).
      assert (0 <= X * bpow (-52)).
      { apply Rmult_le_pos; [|lra].
        pose proof (bpow_pos (d - 1)). lra. }
      destruct (Z.le_gt_cases e' (-1074)) as [Hsmall|Hbig].
      * pose proof (bpow_le e' (-1074) Hsmall). lra.
      * assert (Hle : (e' <= d - 53)%Z) by lia.
        pose proof (bpow_le e' (d - 53) Hle).
        assert (bpow (d - 53) = bpow (d - 1) * bpow (-52)).
        { rewrite <- bpow_add. f_equal. lia. }
        assert (bpow (d - 1) * bpow (-52) <= X * bpow (-52))
          by (apply Rmult_le_compat_r; lra).
        lra.
    + destruct (Z.le_gt_cases e' 971) as [Hs|Hb]; [now left|right].
      apply Rle_trans with (bpow (d - 1)); [|exact Hlow].
      apply bpow_le. lia.
Qed.

Lemma Zpos_iter_xO (m d : positive) :
  Zpos (Pos.iter xO m d) = (Zpos m * 2 ^ Zpos d)%Z.
Proof.
  rewrite <- Z.shiftl_mul_pow2 by lia.
  cbn [Z.shiftl].
  apply Pos.iter_swap_gen. reflexivity.
Qed.

(** The float of a byte count is the rounded count. *)
Lemma of_N_rounds (n : N) : rounds_to (IZR (Z.of_N n)) (of_Z (Z.of_N n)).
Proof.
  destruct n as [|p]; [apply rounds_to_zero|].
  unfold of_Z, binary_normalize, binary_round. cbn [Z.of_N].
  set (e0 := fexp prec emax (Zpos (digits2_pos p) + 0)).
  assert (Hshl : let '(mz, ez) := shl_align p 0 e0 in
                 IZR (Zpos p) = IZR (Zpos mz) * bpow ez /\ (ez <= 0)%Z).
  { unfold shl_align. destruct (e0 - 0)%Z as [|d|d] eqn:E.
    - split; [simpl; lra | lia].
    - split; [simpl; lra | lia].
    - split; [|lia].
      rewrite Zpos_iter_xO, mult_IZR, IZR_pow2 by lia.
      replace e0 with (- Zpos d)%Z by lia.
      rewrite Rmult_assoc, <- bpow_add.
      replace (Zpos d + - Zpos d)%Z with 0%Z by lia.
      simpl. lra. }
  destruct (shl_align p 0 e0) as [mz ez]. destruct Hshl as [EX Hez].
  rewrite EX. apply round_bounds.
  - lia.
  - rewrite plus_IZR. pose proof (bpow_pos ez). nra.
  - left. auto.
  - left. lia.
Qed.

End Operations.

Section StageComparison.

Local Open Scope R_scope.

Lemma bpow_neg_inv (k : Z) : (0 <= k)%Z -> bpow (- k) = / IZR (2 ^ k).
Proof.
  intros H. unfold bpow. rewrite powerRZ_neg'. f_equal.
  destruct k as [|p|p]; [reflexivity | | lia].
  symmetry. apply Zpower_pos_powerRZ.
Qed.

Lemma B2R_eight : B2R (S754_finite false 4503599627370496 (-49)) = 8.
Proof.
  cbn [B2R cond_Zopp]. change (-49)%Z with (- (49))%Z.
  rewrite bpow_neg_inv by lia.
  change (IZR (2 ^ 49)) with 562949953421312. lra.
Qed.

Lemma B2R_thousand : B2R (S754_finite false 8796093022208000 (-43)) = 1000.
Proof.
  cbn [B2R cond_Zopp]. change (-43)%Z with (- (43))%Z.
  rewrite bpow_neg_inv by lia.
  change (IZR (2 ^ 43)) with 8796093022208. lra.
Qed.

Lemma B2R_lit_0_8 : 79 / 100 <= B2R lit_0_8.
Proof.
  unfold lit_0_8. cbn [B2R cond_Zopp]. change (-53)%Z with (- (53))%Z.
  rewrite bpow_neg_inv by lia.
  change (IZR (2 ^ 53)) with 9007199254740992. lra.
Qed.

Lemma B2R_lit_ratio :
  0 <= B2R lit_0_6 /\ B2R lit_0_6 <= 7501 / 10000 * B2R lit_0_8.
Proof.
  unfold lit_0_6, lit_0_8. cbn [B2R cond_Zopp]. change (-53)%Z with (- (53))%Z.
  rewrite bpow_neg_inv by lia.
  change (IZR (2 ^ 53)) with 9007199254740992. lra.
Qed.

Lemma bpow_emax_ge_1 : 1 <= bpow emax.
Proof. apply bpow_ge_1. unfold emax. lia. Qed.

Lemma rounds_to_finite (X : R) (r : float) :
  rounds_to X r -> r <> S754_infinity false ->
  nonneg_finite r /\ B2R r < bpow emax /\
  X * (1 - / 1000) - bpow (-1074) <= B2R r <= X * (1 + / 1000) + bpow (-1074).
Proof.
  intros [H | [E _]] Hr; [|contradiction].
  change (3 - emax - prec)%Z with (-1074)%Z in H. tauto.
Qed.

Lemma nonneg_finite_B2R (r : float) : nonneg_finite r -> 0 <= B2R r.
Proof.
  destruct r as [[]|[]| |[] m e]; simpl; try contradiction; intros _; try lra.
  apply Rmult_le_pos; [apply IZR_le; lia | apply Rlt_le, bpow_pos].
Qed.

(** One step of the two chains side by side: when the exact value on
    the 0.6 side is at most [rho] times the one on the 0.8 side, the
    rounded values are in the ratio [rho + 1/100] at most, and the 0.6
    side does not overflow. *)
Lemma compare_stage (Xa Xb rho : R) (ra rb : float) :
  rounds_to Xa ra -> ra <> S754_infinity false ->
  rounds_to Xb rb ->
  0 <= rho <= 4 / 5 -> 0 <= Xb <= rho * Xa -> 1 / 2 <= Xa ->
  nonneg_finite rb /\ B2R rb <= (rho + / 100) * B2R ra.
Proof.
  intros Ha Hfa Hb Hrho HXb HXa.
  destruct (rounds_to_finite Xa ra Ha Hfa) as (_ & HE & Hlo & _).
  pose proof bpow_emin_small as Pmin. pose proof (bpow_pos (-1074)) as Pmin'.
  pose proof bpow_emax_ge_1 as PE.
  set (eta := bpow (-1074)) in *. set (Va := B2R ra) in *.
  assert (HP : rho * Xa <= 4 / 5 * Xa) by (apply Rmult_le_compat_r; lra).
  destruct Hb as [(Hnf & _ & _ & Hup) | [_ Hinf]].
  - split; [exact Hnf|].
    change (3 - emax - prec)%Z with (-1074)%Z in Hup. fold eta in Hup.
    assert (HRV : rho * (Xa * (1 - / 1000) - eta) <= rho * Va)
      by (apply Rmult_le_compat_l; lra).
    assert (HRe : rho * eta <= 4 / 5 * eta)
      by (apply Rmult_le_compat_r; lra).
    lra.
  - exfalso. lra.
Qed.

End StageComparison.

Section Truncation.

Local Open Scope R_scope.

(** [int] of a float that is not below zero: the integer just below its
    value. *)
Lemma py_int_value (q : float) :
  nonneg_finite q ->
  exists b, py_int q = Ok b /\ floor q = Some b /\
            IZR b <= B2R q < IZR b + 1.
Proof.
  destruct q as [[]|[]| |[] m e]; try contradiction; intros _.
  - exists 0%Z. simpl. repeat split; lra.
  - exists (Z.shiftl (Zpos m) e). split; [reflexivity|]. split; [reflexivity|].
    cbn [B2R cond_Zopp]. pose proof (bpow_pos e) as Pe.
    destruct (Z.le_gt_cases 0 e) as [He|He].
    + rewrite Z.shiftl_mul_pow2, mult_IZR, IZR_pow2 by lia. lra.
    + rewrite Z.shiftl_div_pow2 by lia.
      destruct (shifted_sandwich (Zpos m) e 0 ltac:(lia) ltac:(lia)) as [S1 S2].
      replace (0 - e)%Z with (- e)%Z in S1, S2 by lia.
      change (bpow 0) with 1 in S1, S2.
      rewrite !plus_IZR in S2. lra.
Qed.

End Truncation.

Section DurationSign.

Lemma not_positive_round (m e : Z) (l : location) :
  not_positive (binary_round_aux prec emax true m e l) = true.
Proof.
  pose proof (binary_round_aux_sign true m e l) as H.
  destruct (binary_round_aux prec emax true m e l); simpl; subst; reflexivity.
Qed.

Lemma not_positive_fdiv_negative (x : float) (md : positive) (ed : Z) :
  not_negative x = true ->
  not_positive (fdiv x (S754_finite true md ed)) = true.
Proof.
  destruct x as [[]|[]| |[] mx ex]; simpl; try discriminate; try reflexivity.
  intros _. unfold fdiv, SFdiv.
  destruct (SFdiv_core_binary prec emax (Zpos mx) ex (Zpos md) ed)
    as [[mz ez] lz].
  apply not_positive_round.
Qed.

Lemma not_positive_fdiv_positive (y : float) (m : positive) (e : Z) :
  not_positive y = true ->
  not_positive (fdiv y (S754_finite false m e)) = true.
Proof.
  destruct y as [[]|[]| |[] my ey]; simpl; try discriminate; try reflexivity.
  intros _. unfold fdiv, SFdiv.
  destruct (SFdiv_core_binary prec emax (Zpos my) ey (Zpos m) e)
    as [[mz ez] lz].
  apply not_positive_round.
Qed.

Lemma py_int_not_positive (q : float) (b : Z) :
  not_positive q = true -> py_int q = Ok b -> (b <= 0)%Z.
Proof.
  destruct q as [s|s| |[] m e]; simpl; try discriminate.
  - intros _ [= <-]. lia.
  - intros _ H. injection H as <-.
    pose proof (Z.shiftl_nonneg (Zpos m) e). lia.
Qed.

(** A bitrate of 1 kbps or more needs a finite duration above zero. *)
Lemma positive_bitrate_duration (x d : float) (b : Z) :
  not_negative x = true -> is_zero d = false ->
  py_int (fdiv (fdiv x d) (S754_finite false 8796093022208000 (-43))) = Ok b ->
  (1 <= b)%Z ->
  exists md ed, d = S754_finite false md ed.
Proof.
  intros Hx Hz H Hb.
  destruct d as [sd|sd| |[] md ed]; try discriminate Hz.
  - exfalso.
    destruct x as [[]|[]| |[] mx ex]; try discriminate Hx;
      simpl in H; try discriminate H; injection H as <-; lia.
  - exfalso. destruct x as [sx|sx| |sx mx ex]; discriminate H.
  - exfalso.
    pose proof (not_positive_fdiv_negative x md ed Hx) as H1.
    pose proof (not_positive_fdiv_positive _ 8796093022208000 (-43) H1) as H2.
    pose proof (py_int_not_positive _ _ H2 H). lia.
  - eauto.
Qed.

End DurationSign.

(** ** The second stage asks for less *)

Section SecondStage.

Local Open Scope R_scope.

Local Abbreviation f8 := (S754_finite false 4503599627370496 (-49)).
Local Abbreviation f1000 := (S754_finite false 8796093022208000 (-43)).

(** The two chains of roundings, for a count [p] and a duration with
    mantissa [md] and exponent [ed]. *)
Lemma quotients_compared (p md : positive) (ed : Z) (b1 : Z) :
  is_finite (of_Z (Zpos p)) = true ->
  py_int (bitrate_quotient lit_0_8 (Npos p) (S754_finite false md ed)) = Ok b1 ->
  (100 <= b1)%Z ->
  exists b2,
    py_int (bitrate_quotient lit_0_6 (Npos p) (S754_finite false md ed)) = Ok b2 /\
    floor (bitrate_quotient lit_0_6 (Npos p) (S754_finite false md ed)) = Some b2 /\
    (b2 < b1)%Z.
Proof.
  intros HfinM H1 Hb1.
  unfold bitrate_quotient in *. cbn [Z.of_N] in *.
  change (of_Z 8) with f8 in *. change (of_Z 1000) with f1000 in *.
  set (d := S754_finite false md ed) in *.
  set (M := of_Z (Zpos p)) in *.
  set (a1 := fmul M lit_0_8) in *. set (a2 := fmul a1 f8) in *.
  set (a3 := fdiv a2 d) in *. set (a4 := fdiv a3 f1000) in *.
  set (c1 := fmul M lit_0_6). set (c2 := fmul c1 f8).
  set (c3 := fdiv c2 d). set (c4 := fdiv c3 f1000).
  pose proof bpow_emin_small as Pmin. pose proof (bpow_pos (-1074)) as Pmin'.
  set (eta := bpow (-1074)) in *.
  pose proof (B2R_finite_pos md ed) as Dpos. fold d in Dpos.
  assert (Dinv : 0 < / B2R d) by (apply Rinv_0_lt_compat; exact Dpos).
  (* the count *)
  assert (HM : rounds_to (IZR (Zpos p)) M) by apply (of_N_rounds (Npos p)).
  assert (HMfin : M <> S754_infinity false)
    by (intros E; rewrite E in HfinM; discriminate).
  destruct (rounds_to_finite _ _ HM HMfin) as (NM & _ & LM & _). fold eta in LM.
  assert (Hp1 : 1 <= IZR (Zpos p)) by (apply IZR_le; lia).
  assert (HB : 99 / 100 <= B2R M) by lra.
  (* the 0.8 chain does not overflow *)
  assert (Fa1 : a1 <> S754_infinity false).
  { intros E. unfold a4, a3, a2 in H1. rewrite E in H1. discriminate H1. }
  assert (Fa2 : a2 <> S754_infinity false).
  { intros E. unfold a4, a3 in H1. rewrite E in H1. discriminate H1. }
  assert (Fa3 : a3 <> S754_infinity false).
  { intros E. unfold a4 in H1. rewrite E in H1. discriminate H1. }
  assert (Fa4 : a4 <> S754_infinity false).
  { intros E. rewrite E in H1. discriminate H1. }
  (* its four roundings *)
  assert (Ra1 : rounds_to (B2R M * B2R lit_0_8) a1)
    by (apply fmul_rounds; [exact NM | lia]).
  destruct (rounds_to_finite _ _ Ra1 Fa1) as (Na1 & _ & La1 & _). fold eta in La1.
  assert (Ra2 : rounds_to (B2R a1 * B2R f8) a2)
    by (apply fmul_rounds; [exact Na1 | lia]).
  destruct (rounds_to_finite _ _ Ra2 Fa2) as (Na2 & _ & La2 & _). fold eta in La2.
  assert (Ra3 : rounds_to (B2R a2 / B2R d) a3)
    by (apply fdiv_rounds; exact Na2).
  destruct (rounds_to_finite _ _ Ra3 Fa3) as (Na3 & _ & La3 & Ua3).
  fold eta in La3, Ua3.
  assert (Ra4 : rounds_to (B2R a3 / B2R f1000) a4)
    by (apply fdiv_rounds; exact Na3).
  destruct (rounds_to_finite _ _ Ra4 Fa4) as (Na4 & _ & La4 & Ua4).
  fold eta in La4, Ua4.
  rewrite B2R_eight in *. rewrite B2R_thousand in *.
  (* the bitrate is the integer below the last value *)
  destruct (py_int_value a4 Na4) as (b & Eb & _ & Hb_lo & Hb_hi).
  rewrite H1 in Eb. injection Eb as <-.
  assert (Hb1R : 100 <= IZR b1) by (apply IZR_le; exact Hb1).
  (* sizes along the 0.8 chain *)
  pose proof B2R_lit_0_8 as L08.
  assert (X1 : 1 / 2 <= B2R M * B2R lit_0_8) by nra.
  assert (X2 : 1 / 2 <= B2R a1 * 8) by lra.
  assert (X4 : 1 / 2 <= B2R a3 / 1000) by lra.
  assert (X3 : 1 / 2 <= B2R a2 / B2R d) by lra.
  (* the 0.6 chain, step by step *)
  destruct B2R_lit_ratio as [L06 Lratio].
  assert (Rc1 : rounds_to (B2R M * B2R lit_0_6) c1)
    by (apply fmul_rounds; [exact NM | lia]).
  destruct (compare_stage _ _ (7501 / 10000) _ _ Ra1 Fa1 Rc1) as [Nc1 C1];
    [lra | split; [apply Rmult_le_pos; lra | nra] | exact X1 |].
  assert (Rc2 : rounds_to (B2R c1 * B2R f8) c2)
    by (apply fmul_rounds; [exact Nc1 | lia]).
  rewrite B2R_eight in Rc2.
  pose proof (nonneg_finite_B2R c1 Nc1) as P1.
  destruct (compare_stage _ _ (7601 / 10000) _ _ Ra2 Fa2 Rc2) as [Nc2 C2];
    [lra | lra | exact X2 |].
  assert (Rc3 : rounds_to (B2R c2 / B2R d) c3)
    by (apply fdiv_rounds; exact Nc2).
  pose proof (nonneg_finite_B2R c2 Nc2) as P2.
  destruct (compare_stage _ _ (7701 / 10000) _ _ Ra3 Fa3 Rc3) as [Nc3 C3];
    [lra | unfold Rdiv; split; [apply Rmult_le_pos; lra | nra] | exact X3 |].
  assert (Rc4 : rounds_to (B2R c3 / B2R f1000) c4)
    by (apply fdiv_rounds; exact Nc3).
  rewrite B2R_thousand in Rc4.
  pose proof (nonneg_finite_B2R c3 Nc3) as P3.
  destruct (compare_stage _ _ (7801 / 10000) _ _ Ra4 Fa4 Rc4) as [Nc4 C4];
    [lra | lra | exact X4 |].
  (* the second bitrate *)
  destruct (py_int_value c4 Nc4) as (b2 & Eb2 & Ef2 & Hb2_lo & _).
  exists b2. split; [exact Eb2|]. split; [exact Ef2|].
  apply lt_IZR. lra.
Qed.

(** C3.  Whenever the planner has a stage-1 target bitrate of at least
    100 kbps (so it can come to stage 2), the stage-2 target bitrate
    exists, is [floor(max_size_bytes * 0.6 * 8 / duration / 1000)] and is
    strictly less than the stage-1 target bitrate. *)
Theorem stage2_bitrate_below_stage1 (max_size_bytes : N) (duration : float)
    (w w' : world) (b1 : Z) :
  fst (stage1_target_bitrate max_size_bytes duration w) = Ok b1 ->
  (100 <= b1)%Z ->
  exists b2,
    fst (stage2_target_bitrate max_size_bytes duration w') = Ok b2 /\
    stage2_bitrate_spec max_size_bytes duration = Some b2 /\
    (b2 < b1)%Z.
Proof.
  intros H1 Hb1.
  assert (Hz : is_zero duration = false).
  { destruct (is_zero duration) eqn:E; [|reflexivity].
    unfold stage1_target_bitrate, bind, lift, py_truediv in H1.
    destruct (py_float_of_int (Z.of_N max_size_bytes)); simpl in H1;
      rewrite ?E in H1; discriminate H1. }
  rewrite stage1_target_bitrate_value in H1 by exact Hz.
  rewrite stage2_target_bitrate_value by exact Hz.
  unfold stage2_bitrate_spec.
  destruct (is_finite (of_Z (Z.of_N max_size_bytes))) eqn:HfinM;
    [|discriminate H1].
  destruct max_size_bytes as [|p].
  - exfalso. unfold bitrate_quotient in H1.
    destruct duration as [sd|sd| |sd md ed]; simpl in H1;
      try discriminate H1; injection H1 as <-; lia.
  - assert (Hd : exists md ed, duration = S754_finite false md ed).
    { unfold bitrate_quotient in H1.
      eapply (positive_bitrate_duration _ duration b1); [| exact Hz | exact H1 | lia].
      apply not_negative_fmul; [|reflexivity].
      apply not_negative_fmul; [|reflexivity].
      apply (not_negative_of_N (Npos p)). }
    destruct Hd as (md & ed & ->).
    apply quotients_compared; assumption.
Qed.

End SecondStage.

Lemma stage2_bitrate_below_stage1_witness :
  exists b2,
    fst (stage2_target_bitrate MAX_SIZE (of_Z 120) empty_world) = Ok b2 /\
    stage2_bitrate_spec MAX_SIZE (of_Z 120) = Some b2 /\
    (b2 < 2796)%Z.
Proof.
  apply (stage2_bitrate_below_stage1 MAX_SIZE (of_Z 120) empty_world empty_world
           2796%Z).
  - reflexivity.
  - lia.
Defined.

(** * Further properties *)

(** ** Filtering twice *)

(** Filtering a filtered list again, with the filter of the downloader
    or with the one of [handle_url], changes nothing. *)
Theorem refiltering_changes_nothing (fmts : list MediaFormat) :
  valid_formats (valid_formats fmts) = valid_formats fmts /\
  video_formats_of (valid_formats fmts) = valid_formats fmts /\
  video_formats_of (video_formats_of fmts) = video_formats_of fmts.
Proof.
  split; [|split].
  - unfold valid_formats.
    induction fmts as [|f fmts IH]; [reflexivity|].
    cbn [filter]. destruct (_is_format_downloadable f) eqn:E; [|exact IH].
    cbn [filter]. now rewrite E, IH.
  - apply video_formats_of_valid.
  - unfold video_formats_of.
    induction fmts as [|f fmts IH]; [reflexivity|].
    cbn [filter].
    destruct (negb _ && truthy_str (url f))%bool eqn:E; [|exact IH].
    cbn [filter]. now rewrite E, IH.
Qed.

(** ** The good formats head the ranking *)

Lemma filter_none {A : Type} (p : A -> bool) (l : list A) :
  Forall (fun x => p x = false) l -> filter p l = [].
Proof.
  induction 1 as [|x l Hx _ IH]; [reflexivity|].
  cbn [filter]. now rewrite Hx.
Qed.

Lemma ranked_good_prefix (l : list MediaFormat) :
  StronglySorted ranked_before l ->
  exists rest,
    l = (good_formats_of l ++ rest)%list /\
    Forall (fun f => (height_or_0 f < 360)%Z) rest.
Proof.
  induction 1 as [|x l Hl IH Hx].
  - exists []. split; [reflexivity | constructor].
  - unfold good_formats_of. cbn [filter].
    destruct (height_or_0 x >=? 360)%Z eqn:E.
    + destruct IH as (rest & Hrest & Hlow). exists rest.
      split; [|exact Hlow]. cbn [app]. f_equal. exact Hrest.
    + assert (Hx360 : (height_or_0 x < 360)%Z).
      { rewrite Z.geb_leb in E. apply Z.leb_gt in E. exact E. }
      assert (Hall : Forall (fun f => (height_or_0 f < 360)%Z) l).
      { eapply Forall_impl; [|exact Hx]. unfold ranked_before.
        intros a Ha. lia. }
      exists (x :: l). split.
      * rewrite filter_none; [reflexivity|].
        eapply Forall_impl; [|exact Hall].
        intros a Ha. cbn beta. rewrite Z.geb_leb. apply Z.leb_gt. exact Ha.
      * now constructor.
Qed.

(** The formats that [handle_url] offers for selection are the head of
    the ranking: the ranked list is the good formats followed by formats
    below 360 only, so the buttons are for the first formats of the
    ranking, and every format left out by the limit of five is ranked
    after the five shown. *)
Theorem good_formats_head_ranking (fmts : list MediaFormat) :
  let ranked := sort_by_height fmts in
  let good := good_formats_of ranked in
  exists rest,
    ranked = (good ++ rest)%list /\
    Forall (fun f => (height_or_0 f < 360)%Z) rest /\
    firstn 5 good = firstn (Nat.min 5 (List.length good)) ranked /\
    Forall (fun f => (360 <= height_or_0 f)%Z) good.
Proof.
  intros ranked good.
  destruct (ranked_good_prefix ranked (sort_by_height_sorted fmts))
    as (rest & Hrest & Hlow).
  fold good in Hrest.
  exists rest. split; [exact Hrest|]. split; [exact Hlow|]. split.
  - assert (E : firstn 5 good
                = firstn (Nat.min 5 (List.length good)) (good ++ rest)%list).
    { rewrite firstn_app.
      replace (Nat.min 5 (List.length good) - List.length good)%nat
        with 0%nat by lia.
      rewrite firstn_O, app_nil_r.
      destruct (Nat.le_gt_cases 5 (List.length good)) as [H|H].
      - now rewrite Nat.min_l by exact H.
      - rewrite Nat.min_r by lia.
        rewrite firstn_all. apply firstn_all2. lia. }
    rewrite E. f_equal. symmetry. exact Hrest.
  - subst good. unfold good_formats_of. apply Forall_forall.
    intros f Hf. apply filter_In in Hf as [_ Hf].
    rewrite Z.geb_leb in Hf. now apply Z.leb_le.
Qed.

(** ** What the planner hands back *)

Section PlannerResult.

Variable T : tools.

Lemma _compress_aggressively_fits (input_path : string) (m : N) (d : float)
    (w w' : world) (p : string) :
  _compress_aggressively T input_path m d w = (Ok (Some p), w') ->
  p = stage2_output_path input_path /\
  exists size, fs w' p = Some size /\ (size <= m)%N.
Proof.
  intros H.
  destruct (stage2_target_bitrate m d w) as [[b|e] w1] eqn:Hb.
  2:{ erewrite _compress_aggressively_bitrate_raises in H by eauto.
      discriminate H. }
  destruct (Z.lt_ge_cases b 50) as [Hlt|Hge].
  { erewrite _compress_aggressively_below_floor in H by eauto. discriminate H. }
  rewrite (_compress_aggressively_reaches_stage2 _ _ _ _ _ _ _ Hb Hge) in H.
  destruct (run_process T (stage2_cmd input_path b) w1) as [[pr|e] w2] eqn:Hrun.
  2:{ erewrite try_except_raise in H by (eapply stage2_spawn_fails; eauto).
      discriminate H. }
  destruct (Z.eq_dec (returncode pr) 0) as [Hrc|Hrc].
  2:{ erewrite try_except_ok in H by (eapply stage2_exit_nonzero; eauto).
      discriminate H. }
  destruct (fs w2 (stage2_output_path input_path)) as [n|] eqn:Hout.
  2:{ erewrite try_except_ok in H by (eapply stage2_output_missing; eauto).
      discriminate H. }
  destruct (N.le_gt_cases n m) as [Hle|Hgt].
  - erewrite try_except_ok in H by (eapply stage2_output_fits; eauto).
    injection H as <- <-. split; [reflexivity|]. eauto.
  - erewrite try_except_ok in H by (eapply stage2_output_too_large; eauto).
    discriminate H.
Qed.

Lemma compress_video_fits (input_path : string)
    (max_size_bytes : N) (w w' : world) (p : string) :
  compress_video T input_path max_size_bytes w = (Ok (Some p), w') ->
  (p = stage1_output_path input_path \/ p = stage2_output_path input_path) /\
  exists size, fs w' p = Some size /\ (size <= max_size_bytes)%N.
Proof.
  intros H.
  destruct (fs w input_path) as [insize|] eqn:Hin.
  2:{ rewrite compress_video_missing_input in H by exact Hin. discriminate H. }
  destruct (_get_video_duration_returns T input_path w) as (probed & w1 & Hp & _).
  destruct probed as [d|].
  2:{ erewrite compress_video_no_duration in H by eauto. discriminate H. }
  destruct (is_zero d) eqn:Hz.
  { erewrite compress_video_no_duration in H by eauto. discriminate H. }
  destruct (stage1_target_bitrate max_size_bytes d w1) as [[b|e] w2] eqn:Hb.
  2:{ erewrite compress_video_bitrate_raises in H by eauto. discriminate H. }
  destruct (Z.lt_ge_cases b 100) as [Hlt|Hge].
  { erewrite compress_video_below_floor in H by eauto. discriminate H. }
  rewrite (compress_video_reaches_stage1 _ _ _ _ _ _ _ _ _ Hin Hp Hz Hb Hge) in H.
  destruct (run_process T (stage1_cmd input_path b) w2) as [[pr|e] w3] eqn:Hrun.
  2:{ erewrite try_except_raise in H by (eapply stage1_spawn_fails; eauto).
      discriminate H. }
  destruct (Z.eq_dec (returncode pr) 0) as [Hrc|Hrc].
  2:{ erewrite try_except_ok in H by (eapply stage1_exit_nonzero; eauto).
      discriminate H. }
  destruct (fs w3 (stage1_output_path input_path)) as [n|] eqn:Hout.
  2:{ erewrite try_except_ok in H by (eapply stage1_output_missing; eauto).
      discriminate H. }
  destruct (N.le_gt_cases n max_size_bytes) as [Hle|Hgt].
  - erewrite try_except_ok in H by (eapply stage1_output_fits; eauto).
    injection H as <- <-. split; [now left|]. eauto.
  - unfold try_except in H.
    rewrite (stage1_output_too_large _ _ _ _ _ _ _ _ _ Hrun Hrc Hout Hgt) in H.
    destruct (_compress_aggressively T input_path max_size_bytes d _)
      as [[r|e] w4] eqn:Hagg.
    + injection H as -> <-.
      apply _compress_aggressively_fits in Hagg as [-> Hsize].
      split; [now right | exact Hsize].
    + destruct (_compress_aggressively_returns T input_path max_size_bytes d
                  (set_fs (fs_remove (stage1_output_path input_path) (fs w3)) w3))
        as (r' & w5 & Hr).
      rewrite Hr in Hagg. discriminate Hagg.
Qed.


(** A path that [compress_video] returns is one of its two output
    paths, and at the moment it returns the file is on disk and its size
    is at most [max_size_bytes]. *)
Theorem compress_video_returns_fitting_file (input_path : string)
    (max_size_bytes : N) (w w' : world) (p : string) :
  compress_video T input_path max_size_bytes w = (Ok (Some p), w') ->
  (p = stage1_output_path input_path \/ p = stage2_output_path input_path) /\
  exists size, fs w' p = Some size /\ (size <= max_size_bytes)%N.
Proof. apply compress_video_fits. Qed.

End PlannerResult.

Lemma compress_video_returns_fitting_file_witness :
  exists size,
    fs (snd (compress_video two_stage_tools clip MAX_SIZE clip_world))
       (stage2_output_path clip) = Some size /\ (size <= MAX_SIZE)%N.
Proof.
  destruct (compress_video_returns_fitting_file two_stage_tools clip MAX_SIZE
              clip_world
              (snd (compress_video two_stage_tools clip MAX_SIZE clip_world))
              (stage2_output_path clip)) as [_ H].
  - vm_compute. reflexivity.
  - exact H.
Defined.

(** ** How many encodes *)

Section EncodeCount.

Variable T : tools.

Lemma adds_encodes_weaken {A : Type} (n n' : nat) (c : M A) :
  (n <= n')%nat -> adds_encodes n c -> adds_encodes n' c.
Proof. intros Hn H w. specialize (H w). lia. Qed.

Lemma adds_encodes_ret {A : Type} (a : A) : adds_encodes 0 (ret a).
Proof. intros w. simpl. lia. Qed.

Lemma adds_encodes_lift {A : Type} (r : res A) : adds_encodes 0 (lift r).
Proof. intros w. simpl. lia. Qed.

Lemma adds_encodes_bind {A B : Type} (n m : nat) (c : M A) (k : A -> M B) :
  adds_encodes n c -> (forall a, adds_encodes m (k a)) ->
  adds_encodes (n + m) (bind c k).
Proof.
  intros Hc Hk w. unfold bind. specialize (Hc w).
  destruct (c w) as [[a|e] w1]; cbn [snd] in *; [|lia].
  specialize (Hk a w1). lia.
Qed.

Lemma adds_encodes_try_except {A : Type} (n m : nat) (c : M A)
    (h : exn -> M A) :
  adds_encodes n c -> (forall e, adds_encodes m (h e)) ->
  adds_encodes (n + m) (try_except c h).
Proof.
  intros Hc Hh w. unfold try_except. specialize (Hc w).
  destruct (c w) as [[a|e] w1]; cbn [snd] in *; [lia|].
  specialize (Hh e w1). lia.
Qed.

Lemma adds_encodes_os_path_exists (p : string) : adds_encodes 0 (os_path_exists p).
Proof. intros w. simpl. lia. Qed.

Lemma adds_encodes_os_path_getsize (p : string) :
  adds_encodes 0 (os_path_getsize p).
Proof. intros w. simpl. lia. Qed.

Lemma adds_encodes_os_remove (p : string) : adds_encodes 0 (os_remove p).
Proof.
  intros w. unfold os_remove. destruct (fs w p); simpl; unfold encodes; simpl; lia.
Qed.

Lemma adds_encodes_py_truediv (a b : float) : adds_encodes 0 (py_truediv a b).
Proof. intros w. unfold encodes. simpl. lia. Qed.

Lemma adds_encodes_run_process (cmd : list string) :
  adds_encodes 1 (run_process T cmd).
Proof.
  intros w. unfold run_process.
  destruct (subprocess_run T cmd (fs w)) as [r f].
  unfold encodes, set_fs, log. cbn [snd events filter].
  destruct (is_encode (EvRun cmd)); cbn [List.length]; lia.
Qed.

Lemma adds_encodes_probe (path : string) :
  adds_encodes 0 (_get_video_duration T path).
Proof.
  intros w.
  destruct (_get_video_duration T path w) as [r w1] eqn:H.
  apply _get_video_duration_events in H. cbn [snd].
  unfold encodes. rewrite H. simpl. lia.
Qed.

Lemma adds_encodes_stage1_target_bitrate (m : N) (d : float) :
  adds_encodes 0 (stage1_target_bitrate m d).
Proof.
  intros w. destruct (stage1_target_bitrate m d w) as [r w1] eqn:H.
  apply stage1_target_bitrate_world in H as (_ & _ & evs & Hev & Hdiv).
  cbn [snd]. rewrite (encodes_app_divisions _ _ _ Hev Hdiv). lia.
Qed.

Lemma adds_encodes_stage2_target_bitrate (m : N) (d : float) :
  adds_encodes 0 (stage2_target_bitrate m d).
Proof.
  intros w. destruct (stage2_target_bitrate m d w) as [r w1] eqn:H.
  apply stage2_target_bitrate_world in H as (_ & _ & evs & Hev & Hdiv).
  cbn [snd]. rewrite (encodes_app_divisions _ _ _ Hev Hdiv). lia.
Qed.

Lemma adds_encodes_encode_succeeded (p : CompletedProcess) (out : string) :
  adds_encodes 0 (encode_succeeded p out).
Proof.
  unfold encode_succeeded. destruct (returncode p =? 0)%Z.
  - apply adds_encodes_os_path_exists.
  - apply adds_encodes_ret.
Qed.

Lemma adds_encodes_stage2_check (input_path : string) (m : N) (b : Z) :
  adds_encodes 1 (stage2_encode_and_check T input_path m b).
Proof.
  unfold stage2_encode_and_check.
  apply (adds_encodes_bind 1 0); [apply adds_encodes_run_process|]. intros pr.
  apply (adds_encodes_bind 0 0); [apply adds_encodes_encode_succeeded|].
  intros [|]; [|apply adds_encodes_ret].
  apply (adds_encodes_bind 0 0); [apply adds_encodes_os_path_getsize|].
  intros n. destruct (n <=? m)%N; [apply adds_encodes_ret|].
  apply (adds_encodes_bind 0 0); [apply adds_encodes_os_remove|].
  intros _. apply adds_encodes_ret.
Qed.

Lemma adds_encodes__compress_aggressively (input_path : string) (m : N)
    (d : float) :
  adds_encodes 1 (_compress_aggressively T input_path m d).
Proof.
  unfold _compress_aggressively.
  apply (adds_encodes_try_except 1 0); [|intros e; apply adds_encodes_ret].
  apply (adds_encodes_bind 0 1); [apply adds_encodes_stage2_target_bitrate|].
  intros b. destruct (b <? 50)%Z.
  - apply (adds_encodes_weaken 0); [lia | apply adds_encodes_ret].
  - apply adds_encodes_stage2_check.
Qed.

Lemma adds_encodes_stage1_check (input_path : string) (m : N) (d : float)
    (b : Z) :
  adds_encodes 2 (stage1_encode_and_check T input_path m d b).
Proof.
  unfold stage1_encode_and_check.
  apply (adds_encodes_bind 1 1); [apply adds_encodes_run_process|]. intros pr.
  apply (adds_encodes_bind 0 1); [apply adds_encodes_encode_succeeded|].
  intros [|]; [|apply (adds_encodes_weaken 0); [lia | apply adds_encodes_ret]].
  apply (adds_encodes_bind 0 1); [apply adds_encodes_os_path_getsize|].
  intros n. destruct (n <=? m)%N.
  - apply (adds_encodes_weaken 0); [lia | apply adds_encodes_ret].
  - apply (adds_encodes_bind 0 1); [apply adds_encodes_os_remove|].
    intros _. apply adds_encodes__compress_aggressively.
Qed.

(** One call of [compress_video] runs [ffmpeg] at most twice, and one
    call of [_compress_aggressively] at most once, whatever the tools
    answer: there is no third stage. *)
Theorem planner_runs_at_most_two_encodes (input_path : string)
    (max_size_bytes : N) :
  adds_encodes 2 (compress_video T input_path max_size_bytes) /\
  forall d, adds_encodes 1 (_compress_aggressively T input_path max_size_bytes d).
Proof.
  split; [|intros d; apply adds_encodes__compress_aggressively].
  unfold compress_video.
  apply (adds_encodes_try_except 2 0); [|intros e; apply adds_encodes_ret].
  apply (adds_encodes_bind 0 2); [apply adds_encodes_os_path_exists|].
  intros present. destruct (negb present).
  { apply (adds_encodes_weaken 0); [lia | apply adds_encodes_ret]. }
  apply (adds_encodes_bind 0 2); [apply adds_encodes_probe|].
  intros [d|]; [|apply (adds_encodes_weaken 0); [lia | apply adds_encodes_ret]].
  destruct (is_zero d).
  { apply (adds_encodes_weaken 0); [lia | apply adds_encodes_ret]. }
  apply (adds_encodes_bind 0 2); [apply adds_encodes_stage1_target_bitrate|].
  intros b. destruct (b <? 100)%Z.
  { apply (adds_encodes_weaken 0); [lia | apply adds_encodes_ret]. }
  apply adds_encodes_stage1_check.
Qed.

End EncodeCount.

(** ** The outputs never overwrite the input *)

Section OutputPaths.

Lemma length_append (a b : string) :
  String.length (a ++ b) = (String.length a + String.length b)%nat.
Proof. induction a as [|c a IH]; simpl; [reflexivity | now rewrite IH]. Qed.

(** [before_last_dot] splits at a dot. *)
Lemma before_last_dot_spec (s h : string) :
  before_last_dot s = Some h -> exists e, s = h ++ "." ++ e.
Proof.
  revert h. induction s as [|c s IH]; intros h H; [discriminate|].
  cbn [before_last_dot] in H.
  destruct (before_last_dot s) as [h'|].
  - injection H as <-. destruct (IH h' eq_refl) as [e ->].
    exists e. reflexivity.
  - destruct (Ascii.eqb_spec c "."%char) as [->|]; [|discriminate].
    injection H as <-. exists s. reflexivity.
Qed.

Lemma suffixed_path_differs (input_path suffix : string) (c : ascii) :
  c <> "."%char ->
  rsplit_dot_head input_path ++ String c suffix <> input_path.
Proof.
  intros Hc H. unfold rsplit_dot_head in H.
  destruct (before_last_dot input_path) as [h|] eqn:E.
  - apply before_last_dot_spec in E as [e E]. rewrite E in H.
    apply append_inj_l in H. cbn [append] in H. injection H as H _.
    contradiction.
  - apply (f_equal String.length) in H. rewrite length_append in H.
    cbn [String.length] in H. lia.
Qed.

(** Neither output path of the planner is its input path, whatever the
    name of the input (with or without an extension), and the two output
    paths differ: an encode never writes over the file it reads or over
    the output of the other stage. *)
Theorem output_paths_are_fresh (input_path : string) :
  stage1_output_path input_path <> input_path /\
  stage2_output_path input_path <> input_path /\
  stage1_output_path input_path <> stage2_output_path input_path.
Proof.
  split; [|split].
  - apply suffixed_path_differs. discriminate.
  - apply suffixed_path_differs. discriminate.
  - apply output_paths_differ.
Qed.

End OutputPaths.

(** ** The two bitrates and the budget *)

Section BitrateBudget.

Local Open Scope R_scope.

Local Abbreviation f8 := (S754_finite false 4503599627370496 (-49)).
Local Abbreviation f1000 := (S754_finite false 8796093022208000 (-43)).

Lemma B2R_lit_0_8_upper : B2R lit_0_8 <= 80001 / 100000.
Proof.
  unfold lit_0_8. cbn [B2R cond_Zopp]. change (-53)%Z with (- (53))%Z.
  rewrite bpow_neg_inv by lia.
  change (IZR (2 ^ 53)) with 9007199254740992. lra.
Qed.

Lemma B2R_lit_0_8_lower : 79999 / 100000 <= B2R lit_0_8.
Proof.
  unfold lit_0_8. cbn [B2R cond_Zopp]. change (-53)%Z with (- (53))%Z.
  rewrite bpow_neg_inv by lia.
  change (IZR (2 ^ 53)) with 9007199254740992. lra.
Qed.

Lemma B2R_lit_ratio_lower : 7499 / 10000 * B2R lit_0_8 <= B2R lit_0_6.
Proof.
  unfold lit_0_6, lit_0_8. cbn [B2R cond_Zopp]. change (-53)%Z with (- (53))%Z.
  rewrite bpow_neg_inv by lia.
  change (IZR (2 ^ 53)) with 9007199254740992. lra.
Qed.

(** One step of the two chains side by side, from below. *)
Lemma compare_stage_low (Xa Xb rho : R) (ra rb : float) :
  rounds_to Xa ra -> ra <> S754_infinity false ->
  rounds_to Xb rb -> rb <> S754_infinity false ->
  0 <= rho <= 4 / 5 -> rho * Xa <= Xb -> 1 / 2 <= Xa ->
  (rho - / 100) * B2R ra <= B2R rb.
Proof.
  intros Ha Hfa Hb Hfb Hrho HXb HXa.
  destruct (rounds_to_finite Xa ra Ha Hfa) as (_ & _ & Hlo' & Hup).
  destruct (rounds_to_finite Xb rb Hb Hfb) as (_ & _ & Hlo & _).
  pose proof bpow_emin_small as Pmin. pose proof (bpow_pos (-1074)) as Pmin'.
  set (eta := bpow (-1074)) in *. set (Va := B2R ra) in *.
  assert (HP : rho * Xa <= 4 / 5 * Xa) by (apply Rmult_le_compat_r; lra).
  assert (HRV : rho * Va <= rho * (Xa * (1 + / 1000) + eta))
    by (apply Rmult_le_compat_l; lra).
  assert (HRe : rho * eta <= 4 / 5 * eta) by (apply Rmult_le_compat_r; lra).
  assert (0 <= rho * Xa) by (apply Rmult_le_pos; lra).
  lra.
Qed.

Lemma nonneg_finite_not_inf (r : float) :
  nonneg_finite r -> r <> S754_infinity false.
Proof. intros H E. rewrite E in H. exact H. Qed.

(** Both bitrates against each other and against the ceiling. *)
Lemma quotients_bracketed (p md : positive) (ed : Z) (b1 : Z) :
  is_finite (of_Z (Zpos p)) = true ->
  py_int (bitrate_quotient lit_0_8 (Npos p) (S754_finite false md ed)) = Ok b1 ->
  (100 <= b1)%Z ->
  exists b2,
    py_int (bitrate_quotient lit_0_6 (Npos p) (S754_finite false md ed)) = Ok b2 /\
    7 / 10 * IZR b1 < IZR b2 + 1 /\
    IZR b1 * 1000 * B2R (S754_finite false md ed)
      <= 81 / 100 * (8 * IZR (Zpos p)) /\
    79 / 100 * (8 * IZR (Zpos p))
      < (IZR b1 + 1) * 1000 * B2R (S754_finite false md ed).
Proof.
  intros HfinM H1 Hb1.
  unfold bitrate_quotient in *. cbn [Z.of_N] in *.
  change (of_Z 8) with f8 in *. change (of_Z 1000) with f1000 in *.
  set (d := S754_finite false md ed) in *.
  set (M := of_Z (Zpos p)) in *.
  set (a1 := fmul M lit_0_8) in *. set (a2 := fmul a1 f8) in *.
  set (a3 := fdiv a2 d) in *. set (a4 := fdiv a3 f1000) in *.
  set (c1 := fmul M lit_0_6). set (c2 := fmul c1 f8).
  set (c3 := fdiv c2 d). set (c4 := fdiv c3 f1000).
  pose proof bpow_emin_small as Pmin. pose proof (bpow_pos (-1074)) as Pmin'.
  set (eta := bpow (-1074)) in *.
  pose proof (B2R_finite_pos md ed) as Dpos. fold d in Dpos.
  assert (Dinv : 0 < / B2R d) by (apply Rinv_0_lt_compat; exact Dpos).
  assert (DI : B2R d * / B2R d = 1) by (apply Rinv_r; lra).
  assert (HM : rounds_to (IZR (Zpos p)) M) by apply (of_N_rounds (Npos p)).
  assert (HMfin : M <> S754_infinity false)
    by (intros E; rewrite E in HfinM; discriminate).
  destruct (rounds_to_finite _ _ HM HMfin) as (NM & _ & LM & UM).
  fold eta in LM, UM.
  assert (Hp1 : 1 <= IZR (Zpos p)) by (apply IZR_le; lia).
  assert (Fa1 : a1 <> S754_infinity false).
  { intros E. unfold a4, a3, a2 in H1. rewrite E in H1. discriminate H1. }
  assert (Fa2 : a2 <> S754_infinity false).
  { intros E. unfold a4, a3 in H1. rewrite E in H1. discriminate H1. }
  assert (Fa3 : a3 <> S754_infinity false).
  { intros E. unfold a4 in H1. rewrite E in H1. discriminate H1. }
  assert (Fa4 : a4 <> S754_infinity false).
  { intros E. rewrite E in H1. discriminate H1. }
  assert (Ra1 : rounds_to (B2R M * B2R lit_0_8) a1)
    by (apply fmul_rounds; [exact NM | lia]).
  destruct (rounds_to_finite _ _ Ra1 Fa1) as (Na1 & _ & La1 & Ua1).
  fold eta in La1, Ua1.
  assert (Ra2 : rounds_to (B2R a1 * B2R f8) a2)
    by (apply fmul_rounds; [exact Na1 | lia]).
  destruct (rounds_to_finite _ _ Ra2 Fa2) as (Na2 & _ & La2 & Ua2).
  fold eta in La2, Ua2.
  assert (Ra3 : rounds_to (B2R a2 / B2R d) a3)
    by (apply fdiv_rounds; exact Na2).
  destruct (rounds_to_finite _ _ Ra3 Fa3) as (Na3 & _ & La3 & Ua3).
  fold eta in La3, Ua3.
  assert (Ra4 : rounds_to (B2R a3 / B2R f1000) a4)
    by (apply fdiv_rounds; exact Na3).
  destruct (rounds_to_finite _ _ Ra4 Fa4) as (Na4 & _ & La4 & Ua4).
  fold eta in La4, Ua4.
  rewrite B2R_eight in *. rewrite B2R_thousand in *.
  destruct (py_int_value a4 Na4) as (b & Eb & _ & Hb_lo & Hb_hi).
  rewrite H1 in Eb. injection Eb as <-.
  assert (Hb1R : 100 <= IZR b1) by (apply IZR_le; exact Hb1).
  pose proof B2R_lit_0_8_lower as L08. pose proof B2R_lit_0_8_upper as U08.
  assert (X1 : 1 / 2 <= B2R M * B2R lit_0_8) by nra.
  assert (X2 : 1 / 2 <= B2R a1 * 8) by lra.
  assert (X4 : 1 / 2 <= B2R a3 / 1000) by lra.
  assert (X3 : 1 / 2 <= B2R a2 / B2R d) by lra.
  (* the 0.6 chain stays finite *)
  destruct B2R_lit_ratio as [L06 Lratio]. pose proof B2R_lit_ratio_lower as Lrl.
  assert (Rc1 : rounds_to (B2R M * B2R lit_0_6) c1)
    by (apply fmul_rounds; [exact NM | lia]).
  destruct (compare_stage _ _ (7501 / 10000) _ _ Ra1 Fa1 Rc1) as [Nc1 C1];
    [lra | split; [apply Rmult_le_pos; lra | nra] | exact X1 |].
  assert (Rc2 : rounds_to (B2R c1 * B2R f8) c2)
    by (apply fmul_rounds; [exact Nc1 | lia]).
  rewrite B2R_eight in Rc2.
  pose proof (nonneg_finite_B2R c1 Nc1) as P1.
  destruct (compare_stage _ _ (7601 / 10000) _ _ Ra2 Fa2 Rc2) as [Nc2 C2];
    [lra | lra | exact X2 |].
  assert (Rc3 : rounds_to (B2R c2 / B2R d) c3)
    by (apply fdiv_rounds; exact Nc2).
  pose proof (nonneg_finite_B2R c2 Nc2) as P2.
  destruct (compare_stage _ _ (7701 / 10000) _ _ Ra3 Fa3 Rc3) as [Nc3 C3];
    [lra | unfold Rdiv; split; [apply Rmult_le_pos; lra | nra] | exact X3 |].
  assert (Rc4 : rounds_to (B2R c3 / B2R f1000) c4)
    by (apply fdiv_rounds; exact Nc3).
  rewrite B2R_thousand in Rc4.
  pose proof (nonneg_finite_B2R c3 Nc3) as P3.
  destruct (compare_stage _ _ (7801 / 10000) _ _ Ra4 Fa4 Rc4) as [Nc4 C4];
    [lra | lra | exact X4 |].
  (* the 0.6 chain from below *)
  pose proof (nonneg_finite_B2R M NM) as PM.
  assert (D1 : (7499 / 10000 - / 100) * B2R a1 <= B2R c1).
  { apply (compare_stage_low _ _ _ _ _ Ra1 Fa1 Rc1);
      [now apply nonneg_finite_not_inf | lra | nra | exact X1]. }
  assert (D2 : (7399 / 10000 - / 100) * B2R a2 <= B2R c2).
  { apply (compare_stage_low _ _ _ _ _ Ra2 Fa2 Rc2);
      [now apply nonneg_finite_not_inf | lra | lra | exact X2]. }
  assert (D3 : (7299 / 10000 - / 100) * B2R a3 <= B2R c3).
  { apply (compare_stage_low _ _ _ _ _ Ra3 Fa3 Rc3);
      [now apply nonneg_finite_not_inf | lra | unfold Rdiv; nra | exact X3]. }
  assert (D4 : (7199 / 10000 - / 100) * B2R a4 <= B2R c4).
  { apply (compare_stage_low _ _ _ _ _ Ra4 Fa4 Rc4);
      [now apply nonneg_finite_not_inf | lra | lra | exact X4]. }
  destruct (py_int_value c4 Nc4) as (b2 & Eb2 & _ & _ & Hb2_hi).
  exists b2. split; [exact Eb2|]. split; [lra|].
  (* the 0.8 chain against the ceiling *)
  set (P := IZR (Zpos p)) in *.
  set (B := B2R M) in *. set (v := B2R lit_0_8) in *.
  set (V1 := B2R a1) in *. set (V2 := B2R a2) in *.
  set (V3 := B2R a3) in *. set (V4 := B2R a4) in *.
  set (D := B2R d) in *. set (I := / D) in *.
  assert (HBv_up : B * v <= 80101 / 100000 * P).
  { apply Rle_trans with (B * (80001 / 100000)).
    - apply Rmult_le_compat_l; lra.
    - lra. }
  assert (HBv_lo : 799 / 1000 * P <= B * v).
  { apply Rle_trans with (B * (79999 / 100000)); [lra|].
    apply Rmult_le_compat_l; lra. }
  assert (HV2_up : V2 <= 8035 / 10000 * (8 * P)) by lra.
  assert (HV2_lo : 797 / 1000 * (8 * P) <= V2) by lra.
  unfold Rdiv in *. fold I in La3, Ua3, X3.
  assert (HV3_up : V3 * D <= 8045 / 10000 * (8 * P)).
  { assert (E : V3 * D <= (V2 * I * (1 + / 1000) + eta) * D)
      by (apply Rmult_le_compat_r; lra).
    assert (E2 : (V2 * I * (1 + / 1000) + eta) * D
                 = V2 * (1 + / 1000) * (D * I) + eta * D) by ring.
    assert (E3 : eta * D <= / 500000 * V2).
    { assert (eta <= / 500000 * (V2 * I)) by lra.
      assert (eta * D <= / 500000 * (V2 * I) * D)
        by (apply Rmult_le_compat_r; lra).
      replace (/ 500000 * (V2 * I) * D) with (/ 500000 * V2 * (D * I)) in H0
        by ring.
      rewrite DI in H0. lra. }
    rewrite E2, DI in E. lra. }
  assert (HV3_lo : 796 / 1000 * (8 * P) <= V3 * D).
  { assert (E : (V2 * I * (1 - / 1000) - eta) * D <= V3 * D)
      by (apply Rmult_le_compat_r; lra).
    assert (E2 : (V2 * I * (1 - / 1000) - eta) * D
                 = V2 * (1 - / 1000) * (D * I) - eta * D) by ring.
    assert (E3 : eta * D <= / 500000 * V2).
    { assert (eta <= / 500000 * (V2 * I)) by lra.
      assert (eta * D <= / 500000 * (V2 * I) * D)
        by (apply Rmult_le_compat_r; lra).
      replace (/ 500000 * (V2 * I) * D) with (/ 500000 * V2 * (D * I)) in H0
        by ring.
      rewrite DI in H0. lra. }
    rewrite E2, DI in E. lra. }
  assert (HV4_up : V4 * 1000 * D <= 807 / 1000 * (8 * P)).
  { assert (E : V4 * 1000 <= V3 * (1 + / 500)) by lra.
    assert (E' : V4 * 1000 * D <= V3 * (1 + / 500) * D)
      by (apply Rmult_le_compat_r; lra).
    replace (V3 * (1 + / 500) * D) with (V3 * D * (1 + / 500)) in E' by ring.
    lra. }
  assert (HV4_lo : 794 / 1000 * (8 * P) <= V4 * 1000 * D).
  { assert (E : V3 * (1 - / 500) <= V4 * 1000) by lra.
    assert (E' : V3 * (1 - / 500) * D <= V4 * 1000 * D)
      by (apply Rmult_le_compat_r; lra).
    replace (V3 * (1 - / 500) * D) with (V3 * D * (1 - / 500)) in E' by ring.
    lra. }
  split.
  - apply Rle_trans with (V4 * 1000 * D); [|lra].
    apply Rmult_le_compat_r; [lra|]. lra.
  - apply Rle_lt_trans with (V4 * 1000 * D).
    + lra.
    + apply Rmult_lt_compat_r; [lra|]. lra.
Qed.

(** What a stage-1 bitrate of 100 kbps or more says about the inputs. *)
Lemma stage1_bitrate_inputs (max_size_bytes : N) (duration : float)
    (w : world) (b1 : Z) :
  fst (stage1_target_bitrate max_size_bytes duration w) = Ok b1 ->
  (100 <= b1)%Z ->
  exists p md ed,
    max_size_bytes = Npos p /\ duration = S754_finite false md ed /\
    is_finite (of_Z (Zpos p)) = true /\
    py_int (bitrate_quotient lit_0_8 (Npos p) (S754_finite false md ed)) = Ok b1.
Proof.
  intros H1 Hb1.
  assert (Hz : is_zero duration = false).
  { destruct (is_zero duration) eqn:E; [|reflexivity].
    unfold stage1_target_bitrate, bind, lift, py_truediv in H1.
    destruct (py_float_of_int (Z.of_N max_size_bytes)); simpl in H1;
      rewrite ?E in H1; discriminate H1. }
  rewrite stage1_target_bitrate_value in H1 by exact Hz.
  destruct (is_finite (of_Z (Z.of_N max_size_bytes))) eqn:HfinM;
    [|discriminate H1].
  destruct max_size_bytes as [|p].
  - exfalso. unfold bitrate_quotient in H1.
    destruct duration as [sd|sd| |sd md ed]; simpl in H1;
      try discriminate H1; injection H1 as <-; lia.
  - assert (Hd : exists md ed, duration = S754_finite false md ed).
    { unfold bitrate_quotient in H1.
      eapply (positive_bitrate_duration _ duration b1);
        [| exact Hz | exact H1 | lia].
      apply not_negative_fmul; [|reflexivity].
      apply not_negative_fmul; [|reflexivity].
      apply (not_negative_of_N (Npos p)). }
    destruct Hd as (md & ed & ->).
    exists p, md, ed. repeat split; assumption.
Qed.

(** Once stage 1 has a bitrate of 100 kbps or more, the stage-2 bitrate is
    computed without an exception, is 70 kbps or more, and is more than
    seven tenths of the stage-1 bitrate less one. *)
Theorem stage2_bitrate_clears_floor (max_size_bytes : N) (duration : float)
    (w w' : world) (b1 : Z) :
  fst (stage1_target_bitrate max_size_bytes duration w) = Ok b1 ->
  (100 <= b1)%Z ->
  exists b2,
    fst (stage2_target_bitrate max_size_bytes duration w') = Ok b2 /\
    (70 <= b2)%Z /\ (7 * b1 < 10 * (b2 + 1))%Z.
Proof.
  intros H1 Hb1.
  destruct (stage1_bitrate_inputs _ _ _ _ H1 Hb1)
    as (p & md & ed & -> & -> & Hfin & Hq).
  destruct (quotients_bracketed p md ed b1 Hfin Hq Hb1)
    as (b2 & E2 & Hlow & _).
  exists b2.
  rewrite stage2_target_bitrate_value by reflexivity.
  cbn [Z.of_N]. rewrite Hfin. split; [exact E2|].
  assert (H7 : (7 * b1 < 10 * (b2 + 1))%Z).
  { apply lt_IZR. rewrite !mult_IZR, plus_IZR. lra. }
  split; [lia | exact H7].
Qed.

(** The stage-1 bitrate against the ceiling: over the whole duration it
    spends at most 81% of the ceiling's bits, and one kbps more would spend
    over 79%. *)
Theorem stage1_bitrate_budget (max_size_bytes : N) (duration : float)
    (w : world) (b1 : Z) :
  fst (stage1_target_bitrate max_size_bytes duration w) = Ok b1 ->
  (100 <= b1)%Z ->
  IZR b1 * 1000 * B2R duration
    <= 81 / 100 * (8 * IZR (Z.of_N max_size_bytes)) /\
  79 / 100 * (8 * IZR (Z.of_N max_size_bytes))
    < (IZR b1 + 1) * 1000 * B2R duration.
Proof.
  intros H1 Hb1.
  destruct (stage1_bitrate_inputs _ _ _ _ H1 Hb1)
    as (p & md & ed & -> & -> & Hfin & Hq).
  destruct (quotients_bracketed p md ed b1 Hfin Hq Hb1)
    as (b2 & _ & _ & Hup & Hlo).
  cbn [Z.of_N]. split; assumption.
Qed.

End BitrateBudget.

Lemma stage2_bitrate_clears_floor_witness :
  exists b2,
    fst (stage2_target_bitrate MAX_SIZE (of_Z 120) empty_world) = Ok b2 /\
    (70 <= b2)%Z /\ (7 * 2796 < 10 * (b2 + 1))%Z.
Proof.
  apply (stage2_bitrate_clears_floor MAX_SIZE (of_Z 120) empty_world
           empty_world 2796).
  - vm_compute. reflexivity.
  - lia.
Defined.

Lemma stage1_bitrate_budget_witness :
  (IZR 2796 * 1000 * B2R (of_Z 120)
     <= 81 / 100 * (8 * IZR (Z.of_N MAX_SIZE)) /\
   79 / 100 * (8 * IZR (Z.of_N MAX_SIZE))
     < (IZR 2796 + 1) * 1000 * B2R (of_Z 120))%R.
Proof.
  apply (stage1_bitrate_budget MAX_SIZE (of_Z 120) empty_world 2796).
  - vm_compute. reflexivity.
  - lia.
Defined.

(** ** The second encode *)

Section SecondEncode.

Variable T : tools.

Lemma stage2_encode_is_logged (input_path : string) (m : N) (b : Z)
    (w : world) :
  In (EvRun (stage2_cmd input_path b))
     (events (snd (try_except (stage2_encode_and_check T input_path m b)
                              (fun _ => ret None) w))).
Proof.
  unfold try_except, stage2_encode_and_check, bind, run_process,
    encode_succeeded, os_path_exists, os_path_getsize, os_remove, ret.
  destruct (subprocess_run T (stage2_cmd input_path b) (fs w)) as [[p|e] f];
    [|simpl; auto].
  destruct (returncode p =? 0)%Z; [|simpl; auto].
  cbn [fs set_fs log].
  destruct (f (stage2_output_path input_path)) as [n|]; [|simpl; auto].
  cbn [fs set_fs log]. 
  destruct (f (stage2_output_path input_path)) as [n'|] eqn:E; [|simpl; auto].
  destruct (n' <=? m)%N; [simpl; auto|].
  cbn [fs set_fs log]. rewrite E. simpl. auto.
Qed.

(** For a ceiling and a duration that passed the stage-1 floor,
    [_compress_aggressively] never gives up before its encode: the second
    encode is spawned, at 70 kbps or more. *)
Theorem second_encode_always_runs (input_path : string) (max_size_bytes : N)
    (duration : float) (w0 w : world) (b1 : Z) :
  fst (stage1_target_bitrate max_size_bytes duration w0) = Ok b1 ->
  (100 <= b1)%Z ->
  exists b2,
    (70 <= b2)%Z /\
    In (EvRun (stage2_cmd input_path b2))
       (events (snd (_compress_aggressively T input_path max_size_bytes
                       duration w))).
Proof.
  intros H1 Hb1.
  destruct (stage1_bitrate_inputs _ _ _ _ H1 Hb1)
    as (p & md & ed & -> & -> & Hfin & Hq).
  destruct (quotients_bracketed p md ed b1 Hfin Hq Hb1)
    as (b2 & E2 & Hlow & _).
  assert (H70 : (70 <= b2)%Z).
  { assert (H7 : (7 * b1 < 10 * (b2 + 1))%Z)
      by (apply lt_IZR; rewrite !mult_IZR, plus_IZR; lra).
    lia. }
  exists b2. split; [exact H70|].
  destruct (stage2_target_bitrate (Npos p) (S754_finite false md ed) w)
    as [r w1] eqn:Hs.
  assert (Hr : r = Ok b2).
  { change r with (fst (r, w1)). rewrite <- Hs.
    rewrite stage2_target_bitrate_value by reflexivity.
    cbn [Z.of_N]. rewrite Hfin. exact E2. }
  subst r.
  rewrite (_compress_aggressively_reaches_stage2 T input_path (Npos p) w w1
             _ b2 Hs) by lia.
  apply stage2_encode_is_logged.
Qed.

End SecondEncode.

Lemma second_encode_always_runs_witness :
  exists b2,
    (70 <= b2)%Z /\
    In (EvRun (stage2_cmd clip b2))
       (events (snd (_compress_aggressively two_stage_tools clip MAX_SIZE
                       (of_Z 120) clip_world))).
Proof.
  apply (second_encode_always_runs two_stage_tools clip MAX_SIZE (of_Z 120)
           empty_world clip_world 2796).
  - vm_compute. reflexivity.
  - lia.
Defined.

(** ** What is uploaded *)

Section Uploads.

Variable T : tools.

Local Abbreviation quiet := (preserves same_uploads).

Lemma su_refl (w : world) : same_uploads w w.
Proof. reflexivity. Qed.

Lemma su_trans (a b c : world) :
  same_uploads a b -> same_uploads b c -> same_uploads a c.
Proof. unfold same_uploads. congruence. Qed.

Lemma quiet_emit (ev : event) : is_upload ev = false -> quiet (emit ev).
Proof.
  intros H w. unfold same_uploads, uploads. simpl. now rewrite H.
Qed.

Lemma quiet_os_remove (p : string) : quiet (os_remove p).
Proof.
  intros w. unfold os_remove. destruct (fs w p); reflexivity.
Qed.

Lemma quiet_run_process (cmd : list string) : quiet (run_process T cmd).
Proof.
  intros w. unfold run_process.
  destruct (subprocess_run T cmd (fs w)) as [r f]. reflexivity.
Qed.

Lemma quiet_py_truediv (a b : float) : quiet (py_truediv a b).
Proof. intros w. reflexivity. Qed.

Ltac quiet_step :=
  first
    [ apply (preserves_ret _ su_refl)
    | apply (preserves_raise _ su_refl)
    | apply (preserves_lift _ su_refl)
    | apply (preserves_os_path_exists _ su_refl)
    | apply (preserves_os_path_getsize _ su_refl)
    | apply quiet_os_remove
    | apply quiet_run_process
    | apply quiet_py_truediv
    | apply quiet_emit; reflexivity
    | apply (preserves_bind _ su_trans); [ | intros ? ]
    | apply (preserves_try_except _ su_trans); [ | intros ? ] ].

Ltac quiet_auto :=
  repeat first
    [ quiet_step
    | match goal with
      | |- preserves _ (if ?b then _ else _) => destruct b eqn:?
      | |- preserves _ (match ?x with _ => _ end) => destruct x eqn:?
      end ].

Lemma quiet__compress_aggressively (input : string) (m : N) (d : float) :
  quiet (_compress_aggressively T input m d).
Proof.
  unfold _compress_aggressively, stage2_target_bitrate, encode_succeeded.
  quiet_auto.
Qed.

Lemma quiet_compress_video (input : string) (m : N) :
  quiet (compress_video T input m).
Proof.
  unfold compress_video, _get_video_duration, stage1_target_bitrate,
    encode_succeeded.
  repeat first
    [ apply quiet__compress_aggressively
    | quiet_step
    | match goal with
      | |- preserves _ (if ?b then _ else _) => destruct b eqn:?
      | |- preserves _ (match ?x with _ => _ end) => destruct x eqn:?
      end ].
Qed.

Lemma quiet_first_existing (base_name : string) (exts : list string) :
  quiet (first_existing base_name exts).
Proof.
  induction exts as [|e rest IH]; cbn [first_existing]; [quiet_auto|].
  apply (preserves_bind _ su_trans); [quiet_step|].
  intros [|]; [quiet_step | exact IH].
Qed.

Lemma quiet_download_video (url dir fid : string) :
  quiet (download_video T url dir fid).
Proof.
  unfold download_video.
  apply (preserves_try_except _ su_trans); [|intros ?; quiet_step].
  apply (preserves_bind _ su_trans).
  - intros w. destruct (ydl_download T url fid _ (fs w)) as [r f]. reflexivity.
  - intros filename. apply (preserves_bind _ su_trans); [quiet_step|].
    intros [|]; [quiet_step | apply quiet_first_existing].
Qed.

(** [first_existing] only looks: the disk and the log stay as they are,
    and a path it returns is on disk. *)
Lemma first_existing_spec (base_name : string) (exts : list string) (w : world) :
  exists r,
    first_existing base_name exts w = (Ok r, w) /\
    match r with
    | Some p =>
        exists pre e post,
          exts = (pre ++ e :: post)%list /\ p = base_name ++ e /\
          fs w p <> None /\
          Forall (fun e' => fs w (base_name ++ e') = None) pre
    | None => Forall (fun e' => fs w (base_name ++ e') = None) exts
    end.
Proof.
  induction exts as [|e rest IH]; cbn [first_existing].
  - exists None. split; [reflexivity | constructor].
  - unfold bind at 1, os_path_exists at 1.
    destruct (fs w (base_name ++ e)) as [n|] eqn:E.
    + exists (Some (base_name ++ e)). split; [reflexivity|].
      exists [], e, rest. repeat split; [congruence | constructor].
    + destruct IH as (r & Hr & Hspec). exists r. split; [exact Hr|].
      destruct r as [p|].
      * destruct Hspec as (pre & e' & post & -> & -> & Hp & Hpre).
        exists (e :: pre), e', post. repeat split; [exact Hp|].
        constructor; assumption.
      * constructor; assumption.
Qed.

Lemma download_video_fits (url dir fid : string) (w w' : world) (p : string) :
  download_video T url dir fid w = (Ok (Some p), w') ->
  fs w' p <> None.
Proof.
  unfold download_video, try_except, bind at 1.
  destruct (ydl_download T url fid _ (fs w)) as [[filename|e] f]; cbn [ret].
  2:{ intros [= ]. }
  unfold bind at 1, os_path_exists at 1. cbn [fs set_fs log].
  destruct (f filename) as [n|] eqn:E.
  - cbn [ret]. intros [= <- <-]. cbn [fs set_fs log]. congruence.
  - set (w1 := set_fs f (log (EvDownload url fid) w)).
    destruct (first_existing_spec (os_path_splitext_root T filename)
                [".mp4"; ".mkv"; ".webm"; ".avi"; ".mov"] w1)
      as (r & Hr & Hspec).
    rewrite Hr. intros [= -> <-].
    destruct Hspec as (pre & e & post & _ & _ & Hp & _). exact Hp.
Qed.

(** When the transfer reports the file [filename], [download_video]
    returns [filename] if it is on disk; otherwise the first of the base
    name with [.mp4], [.mkv], [.webm], [.avi], [.mov] that is on disk;
    otherwise nothing.  A path it returns is always on disk. *)
Theorem download_video_finds_file (url dir fid filename : string)
    (w : world) (f : filesystem) :
  ydl_download T url fid (os_path_join dir "%(title)s.%(ext)s") (fs w)
    = (Ok filename, f) ->
  let base := os_path_splitext_root T filename in
  exists r,
    download_video T url dir fid w
      = (Ok r, set_fs f (log (EvDownload url fid) w)) /\
    match r with
    | Some p =>
        f p <> None /\
        (p = filename \/
         f filename = None /\
         exists pre e post,
           fallback_exts = (pre ++ e :: post)%list /\ p = base ++ e /\
           Forall (fun e' => f (base ++ e') = None) pre)
    | None =>
        f filename = None /\
        Forall (fun e' => f (base ++ e') = None) fallback_exts
    end.
Proof.
  intros Hdl base.
  unfold download_video, try_except, bind at 1. rewrite Hdl.
  set (w1 := set_fs f (log (EvDownload url fid) w)).
  unfold bind at 1, os_path_exists at 1.
  change (fs w1) with f.
  destruct (f filename) as [n|] eqn:E.
  - exists (Some filename). split; [reflexivity|].
    split; [congruence | now left].
  - destruct (first_existing_spec base fallback_exts w1) as (r & Hr & Hspec).
    exists r. fold base. change [".mp4"; ".mkv"; ".webm"; ".avi"; ".mov"]
      with fallback_exts. rewrite Hr. split; [reflexivity|].
    destruct r as [p|].
    + destruct Hspec as (pre & e & post & Hex & Hp & Hon & Hpre).
      split; [exact Hon|]. right. split; [reflexivity|].
      exists pre, e, post. auto.
    + split; [reflexivity | exact Hspec].
Qed.

Lemma quiet_call (C : chat) (ev : event) :
  is_upload ev = false -> quiet (call C ev).
Proof.
  intros H w. unfold call. destruct (C ev w); [reflexivity|].
  unfold same_uploads, uploads. simpl. now rewrite H.
Qed.

Lemma quiet_set_user_data (key value : string) : quiet (set_user_data key value).
Proof. intros w. reflexivity. Qed.

Lemma quiet_get_video_info (url : string) : quiet (get_video_info T url).
Proof. unfold get_video_info. quiet_auto. Qed.

Local Abbreviation single := (preserves at_most_one_upload).

Lemma single_quiet {A : Type} (c : M A) : quiet c -> single c.
Proof. intros H w. left. apply H. Qed.

Lemma single_bind_l {A B : Type} (c : M A) (k : A -> M B) :
  quiet c -> (forall a, single (k a)) -> single (bind c k).
Proof.
  intros Hc Hk w. unfold bind. specialize (Hc w).
  destruct (c w) as [[a|e] w1]; cbn [snd] in *; [|left; exact Hc].
  unfold same_uploads in Hc.
  destruct (Hk a w1) as [H|(p & H)]; [left | right; exists p]; congruence.
Qed.

Lemma single_bind_r {A B : Type} (c : M A) (k : A -> M B) :
  single c -> (forall a, quiet (k a)) -> single (bind c k).
Proof.
  intros Hc Hk w. unfold bind. specialize (Hc w).
  destruct (c w) as [[a|e] w1]; cbn [snd] in *; [|exact Hc].
  pose proof (Hk a w1) as H. unfold same_uploads in H.
  destruct Hc as [Hc|(p & Hc)]; [left | right; exists p]; congruence.
Qed.

Lemma single_try_except {A : Type} (c : M A) (h : exn -> M A) :
  single c -> (forall e, quiet (h e)) -> single (try_except c h).
Proof.
  intros Hc Hh w. unfold try_except. specialize (Hc w).
  destruct (c w) as [[a|e] w1]; cbn [snd] in *; [exact Hc|].
  pose proof (Hh e w1) as H. unfold same_uploads in H.
  destruct Hc as [Hc|(p & Hc)]; [left | right; exists p]; congruence.
Qed.

Lemma single_upload (C : chat) (p : string) : single (upload C p).
Proof.
  intros w. unfold upload, bind, os_path_exists, call, raise.
  destruct (fs w p); [|left; reflexivity].
  destruct (C (EvSendVideo p) w); [left; reflexivity|].
  right. exists p. reflexivity.
Qed.

Lemma single_deliver (C : chat) (p : string) : single (deliver C p).
Proof.
  unfold deliver.
  apply single_bind_l; [now apply quiet_call | intros _].
  apply single_bind_r; [apply single_upload | intros _].
  apply (preserves_bind _ su_trans); [now apply quiet_call | intros _].
  apply (preserves_try_except _ su_trans);
    [apply quiet_os_remove | intros _; apply (preserves_ret _ su_refl)].
Qed.

Lemma single_download_and_send_video_chat (C : chat)
    (temp_dir url format_id : string) :
  single (download_and_send_video_chat C T temp_dir url format_id).
Proof.
  unfold download_and_send_video_chat.
  apply single_try_except; [|intros e; now apply quiet_call].
  apply single_bind_l; [now apply quiet_call | intros _].
  apply single_bind_l; [apply quiet_download_video | intros dp].
  destruct dp as [[|c r]|];
    try (apply single_quiet; now apply quiet_call).
  apply single_bind_l; [apply (preserves_os_path_exists _ su_refl) | intros present].
  destruct present; cbn [negb]; [|apply single_quiet; now apply quiet_call].
  apply single_bind_l; [apply (preserves_os_path_getsize _ su_refl) | intros size].
  destruct (MAX_SIZE <? size)%N; [|apply single_deliver].
  apply single_bind_l; [now apply quiet_call | intros _].
  apply single_bind_l; [apply quiet_compress_video | intros cp].
  destruct cp as [[|c' r']|];
    try (apply single_quiet; now apply quiet_call).
  apply single_bind_l; [apply (preserves_os_path_exists _ su_refl) | intros cpresent].
  destruct cpresent; [apply single_deliver | apply single_quiet; now apply quiet_call].
Qed.

Lemma bind_cong {A B : Type} (c : M A) (k1 k2 : A -> M B) (w : world) :
  (forall a w', c w = (Ok a, w') -> k1 a w' = k2 a w') ->
  bind c k1 w = bind c k2 w.
Proof.
  intros H. unfold bind. destruct (c w) as [[a|e] w'] eqn:E; [|reflexivity].
  now apply H.
Qed.

Lemma try_except_cong {A : Type} (b1 b2 : M A) (h : exn -> M A) (w : world) :
  b1 w = b2 w -> try_except b1 h w = try_except b2 h w.
Proof. intros H. unfold try_except. now rewrite H. Qed.

(** A block whose handler is one Telegram call raises only when that
    call fails. *)
Lemma try_except_call_raises (C : chat) (body : M unit) (mk : exn -> event)
    (w : world) (e : exn) :
  fst (try_except body (fun e' => call C (mk e')) w) = Raise e ->
  exists e',
    C (mk e') (snd (try_except body (fun e' => call C (mk e')) w)) = Some e.
Proof.
  unfold try_except.
  destruct (body w) as [[[]|e'] w1]; [discriminate|].
  unfold call. destruct (C (mk e') w1) as [e2|] eqn:E; [|discriminate].
  cbn [fst snd]. intros [= <-]. exists e'. exact E.
Qed.

(** A refusal of what is missing or too large never meets a delivery of
    a file that is on disk with at most 50 MB. *)
Lemma deliver_size_limited (C : chat) (p : string) (w : world) (size : N) :
  fs w p = Some size -> (size <= MAX_SIZE)%N ->
  deliver (size_limited C) p w = deliver C p w.
Proof.
  intros Hp Hle. unfold deliver.
  change (call (size_limited C) (EvEdit MsgUploading None))
    with (call C (EvEdit MsgUploading None)).
  change (call (size_limited C) EvDeleteStatus) with (call C EvDeleteStatus).
  apply bind_cong. intros [] w1 H1.
  assert (Hw1 : fs w1 p = Some size).
  { unfold call in H1. destruct (C _ w); [discriminate H1|].
    injection H1 as <-. exact Hp. }
  assert (Hup : upload (size_limited C) p w1 = upload C p w1).
  { unfold upload, bind, os_path_exists, call, size_limited.
    cbv beta. rewrite !Hw1. cbv beta iota.
    apply N.leb_le in Hle. now rewrite Hle. }
  unfold bind at 1 3. now rewrite Hup.
Qed.

Lemma download_and_send_video_chat_size_limited (C : chat)
    (temp_dir url format_id : string) (w : world) :
  download_and_send_video_chat (size_limited C) T temp_dir url format_id w
  = download_and_send_video_chat C T temp_dir url format_id w.
Proof.
  unfold download_and_send_video_chat.
  change (fun e => call (size_limited C) (EvEdit (MsgDownloadError e) None))
    with (fun e => call C (EvEdit (MsgDownloadError e) None)).
  apply try_except_cong.
  change (call (size_limited C) (EvEdit MsgDownloading None))
    with (call C (EvEdit MsgDownloading None)).
  change (call (size_limited C) (EvEdit MsgDownloadFailed None))
    with (call C (EvEdit MsgDownloadFailed None)).
  change (call (size_limited C) (EvEdit MsgCompressing None))
    with (call C (EvEdit MsgCompressing None)).
  change (call (size_limited C) (EvEdit MsgCompressionFailed None))
    with (call C (EvEdit MsgCompressionFailed None)).
  apply bind_cong. intros [] w0 _.
  apply bind_cong. intros dp w1 _.
  destruct dp as [[|c r]|]; try reflexivity.
  apply bind_cong. intros present w1' Hex.
  unfold os_path_exists in Hex.
  destruct (fs w1 (String c r)) as [size|] eqn:Hfs;
    injection Hex as <- <-; cbn [negb]; [|reflexivity].
  apply bind_cong. intros size' w1' Hg.
  unfold os_path_getsize in Hg. rewrite Hfs in Hg. injection Hg as <- <-.
  destruct (MAX_SIZE <? size)%N eqn:Hbig.
  - apply bind_cong. intros [] w2 _.
    apply bind_cong. intros cp w3 Hc.
    destruct cp as [[|c' r']|]; try reflexivity.
    destruct (compress_video_fits T _ _ _ _ _ Hc) as [_ (csize & Hcs & Hle)].
    apply bind_cong. intros cpresent w3' Hex.
    unfold os_path_exists in Hex. rewrite Hcs in Hex. injection Hex as <- <-.
    now apply (deliver_size_limited C _ _ csize).
  - apply N.ltb_ge in Hbig. now apply (deliver_size_limited C _ _ size).
Qed.

(** [download_and_send_video] with Telegram calls that can fail.  With a
    Telegram that never fails it is the run of
    [download_and_send_video]; a Telegram that refuses what is not on
    disk or is over 50 MB never refuses its upload; it uploads at most one
    file; and an exception leaves it only when the [edit_text] of its own
    handler fails. *)
Theorem upload_within_limit (C : chat) (temp_dir url format_id : string)
    (w : world) :
  download_and_send_video_chat reliable T temp_dir url format_id w
  = download_and_send_video T temp_dir url format_id w /\
  download_and_send_video_chat (size_limited C) T temp_dir url format_id w
  = download_and_send_video_chat C T temp_dir url format_id w /\
  at_most_one_upload w
    (snd (download_and_send_video_chat C T temp_dir url format_id w)) /\
  (forall e,
     fst (download_and_send_video_chat C T temp_dir url format_id w) = Raise e ->
     exists e',
       C (EvEdit (MsgDownloadError e') None)
         (snd (download_and_send_video_chat C T temp_dir url format_id w))
       = Some e).
Proof.
  split; [reflexivity|].
  split; [apply download_and_send_video_chat_size_limited|].
  split; [apply single_download_and_send_video_chat|].
  intros e. unfold download_and_send_video_chat.
  apply (try_except_call_raises C _
           (fun e' => EvEdit (MsgDownloadError e') None)).
Qed.

(** [handle_url] with Telegram calls that can fail.  With a Telegram
    that never fails it is the run of [handle_url]; a Telegram that
    refuses what is not on disk or is over 50 MB never refuses its upload;
    it uploads at most one file; and an exception leaves it only when one
    of the two [reply_text] calls, which are outside the [try], or the
    [edit_text] of its handler fails. *)
Theorem handle_url_upload_within_limit (C : chat) (temp_dir : string)
    (message_id : Z) (url : string) (w : world) :
  handle_url_chat reliable T temp_dir message_id url w
  = handle_url T temp_dir message_id url w /\
  handle_url_chat (size_limited C) T temp_dir message_id url w
  = handle_url_chat C T temp_dir message_id url w /\
  at_most_one_upload w (snd (handle_url_chat C T temp_dir message_id url w)) /\
  (forall e,
     fst (handle_url_chat C T temp_dir message_id url w) = Raise e ->
     C (EvReply MsgInvalidUrl) w = Some e \/
     C (EvReply MsgProcessing) w = Some e \/
     exists e',
       C (EvEdit (MsgProcessFailed e') None)
         (snd (handle_url_chat C T temp_dir message_id url w))
       = Some e).
Proof.
  split; [reflexivity|]. split; [|split].
  - unfold handle_url_chat.
    destruct (is_valid_url T url); cbn [negb]; [|reflexivity].
    change (call (size_limited C) (EvReply MsgProcessing))
      with (call C (EvReply MsgProcessing)).
    change (fun e => call (size_limited C) (EvEdit (MsgProcessFailed e) None))
      with (fun e => call C (EvEdit (MsgProcessFailed e) None)).
    apply bind_cong. intros [] w0 _.
    apply try_except_cong.
    apply bind_cong. intros info w1 _.
    destruct info as [info|]; [|reflexivity].
    cbv zeta.
    destruct (video_formats_of (option_default [] (formats info)));
      [reflexivity|].
    destruct (1 <? _)%Z; [reflexivity|].
    apply download_and_send_video_chat_size_limited.
  - unfold handle_url_chat.
    destruct (is_valid_url T url); cbn [negb];
      [|apply single_quiet; now apply quiet_call].
    apply single_bind_l; [now apply quiet_call | intros _].
    apply single_try_except; [|intros e; now apply quiet_call].
    apply single_bind_l; [apply quiet_get_video_info | intros info].
    destruct info as [info|]; [|apply single_quiet; now apply quiet_call].
    cbv zeta.
    destruct (video_formats_of (option_default [] (formats info)));
      [apply single_quiet; now apply quiet_call|].
    destruct (1 <? _)%Z; [|apply single_download_and_send_video_chat].
    apply single_quiet.
    apply (preserves_bind _ su_trans);
      [apply (preserves_lift _ su_refl) | intros text].
    apply (preserves_bind _ su_trans);
      [now apply quiet_call | intros _; apply quiet_set_user_data].
  - intros e. unfold handle_url_chat.
    destruct (is_valid_url T url); cbn [negb].
    + destruct (C (EvReply MsgProcessing) w) as [e0|] eqn:E0.
      * assert (Hs : call C (EvReply MsgProcessing) w = (Raise e0, w))
          by (unfold call; now rewrite E0).
        rewrite (bind_raise _ _ _ _ _ Hs). cbn [fst].
        intros [= <-]. right. left. reflexivity.
      * assert (Hs : call C (EvReply MsgProcessing) w
                     = (Ok tt, log (EvReply MsgProcessing) w))
          by (unfold call; now rewrite E0).
        rewrite (bind_ok _ _ _ _ _ Hs).
        intros H. right. right.
        exact (try_except_call_raises C _
                 (fun e' => EvEdit (MsgProcessFailed e') None) _ e H).
    + unfold call. destruct (C (EvReply MsgInvalidUrl) w) as [e0|] eqn:E0;
        [|discriminate].
      cbn [fst]. intros [= <-]. left. reflexivity.
Qed.

End Uploads.

Lemma upload_within_limit_witness :
  exists e',
    unreachable (EvEdit (MsgDownloadError e') None)
      (snd (download_and_send_video_chat unreachable one_stage_tools "/tmp/v"
              "https://x/v" "best" empty_world))
    = Some OSError.
Proof.
  apply (proj2 (proj2 (proj2
           (upload_within_limit one_stage_tools unreachable "/tmp/v"
              "https://x/v" "best" empty_world)))).
  reflexivity.
Defined.

Lemma handle_url_upload_within_limit_witness :
  unreachable (EvReply MsgInvalidUrl) empty_world = Some OSError \/
  unreachable (EvReply MsgProcessing) empty_world = Some OSError \/
  exists e',
    unreachable (EvEdit (MsgProcessFailed e') None)
      (snd (handle_url_chat unreachable one_stage_tools "/tmp/v" 7
              "https://x/v" empty_world))
    = Some OSError.
Proof.
  apply (proj2 (proj2 (proj2
           (handle_url_upload_within_limit one_stage_tools unreachable
              "/tmp/v" 7 "https://x/v" empty_world)))).
  reflexivity.
Defined.

Lemma download_video_finds_file_witness :
  exists r,
    download_video (converting_tools 4096) "https://x/v" "/tmp/v" "best"
      empty_world
    = (Ok r, set_fs (fs_write "/tmp/v/clip.mkv" 4096 (fun _ => None))
               (log (EvDownload "https://x/v" "best") empty_world)) /\
    r = Some "/tmp/v/clip.mkv".
Proof.
  destruct (download_video_finds_file (converting_tools 4096) "https://x/v"
              "/tmp/v" "best" "/tmp/v/clip.webm" empty_world
              (fs_write "/tmp/v/clip.mkv" 4096 (fun _ => None)))
    as (r & Hr & _).
  - reflexivity.
  - exists r. split; [exact Hr|].
    vm_compute in Hr. injection Hr as <-. reflexivity.
Defined.

(** ** A quality button pressed *)

Section QualitySelection.

Variable T : tools.

Lemma str_split_nonempty (sep : ascii) (s : string) : str_split sep s <> [].
Proof.
  destruct s as [|c r]; cbn [str_split]; [discriminate|].
  destruct (Ascii.eqb c sep); [discriminate|].
  destruct (str_split sep r); discriminate.
Qed.

Lemma str_split_app (sep : ascii) (a b : string) :
  str_split sep (a ++ String sep b) = (str_split sep a ++ str_split sep b)%list.
Proof.
  induction a as [|c r IH]; cbn [append str_split].
  - now rewrite Ascii.eqb_refl.
  - destruct (Ascii.eqb c sep); [now rewrite IH|].
    rewrite IH.
    pose proof (str_split_nonempty sep r) as Hne.
    destruct (str_split sep r) as [|h t]; [congruence | reflexivity].
Qed.

Lemma str_split_none (sep : ascii) (s : string) :
  count_char sep s = 0%nat -> str_split sep s = [s].
Proof.
  induction s as [|c r IH]; cbn [count_char str_split]; [reflexivity|].
  destruct (Ascii.eqb c sep); [discriminate|].
  intros H. now rewrite IH.
Qed.

Lemma length_str_split (sep : ascii) (s : string) :
  List.length (str_split sep s) = S (count_char sep s).
Proof.
  induction s as [|c r IH]; cbn [count_char str_split]; [reflexivity|].
  destruct (Ascii.eqb c sep); cbn [List.length]; [now rewrite IH|].
  pose proof (str_split_nonempty sep r) as Hne.
  destruct (str_split sep r) as [|h t]; [congruence|].
  cbn [List.length] in *. exact IH.
Qed.

Lemma count_char_string_of_uint (d : Decimal.uint) :
  count_char "_" (NilEmpty.string_of_uint d) = 0%nat.
Proof. induction d; cbn; assumption || reflexivity. Qed.

Lemma count_char_py_str_int (n : Z) : count_char "_" (py_str_int n) = 0%nat.
Proof.
  unfold py_str_int, NilZero.string_of_int, NilZero.string_of_uint.
  destruct (Z.to_int n) as [d|d].
  - destruct d; try reflexivity; apply (count_char_string_of_uint (_ d)).
  - destruct d; try reflexivity;
      cbn [count_char]; apply (count_char_string_of_uint (_ d)).
Qed.

(** The data of a quality button, split at its underscores. *)
Lemma quality_button_parts (message_id : Z) (fmt : MediaFormat) :
  str_split "_" (callback_data (quality_button T message_id fmt)) =
  ("download" :: str_split "_" (format_id fmt) ++ [py_str_int message_id])%list.
Proof.
  unfold quality_button. cbn [callback_data].
  change ("download_" ++ format_id fmt ++ "_" ++ py_str_int message_id)
    with ("download" ++ String "_" (format_id fmt ++ String "_" (py_str_int message_id))).
  rewrite !str_split_app.
  rewrite (str_split_none "_" (py_str_int message_id))
    by apply count_char_py_str_int.
  reflexivity.
Qed.

Lemma best_button_parts (message_id : Z) :
  str_split "_" (callback_data (best_button message_id)) =
  ["download"; "best"; py_str_int message_id].
Proof.
  unfold best_button. cbn [callback_data].
  change ("download_best_" ++ py_str_int message_id)
    with ("download" ++ String "_" ("best" ++ String "_" (py_str_int message_id))).
  rewrite !str_split_app.
  rewrite (str_split_none "_" (py_str_int message_id))
    by apply count_char_py_str_int.
  reflexivity.
Qed.

Lemma handle_quality_selection_parts (temp_dir data p0 fid mid : string)
    (rest : list string) :
  str_split "_" data = p0 :: fid :: mid :: rest ->
  handle_quality_selection T temp_dir data =
  (url <- user_data_get ("url_" ++ mid) ;;
   match url with
   | Some (String c r as url) =>
       download_and_send_video T temp_dir url fid ;;; ret None
   | _ => ret (Some SessionExpired)
   end).
Proof.
  intros H. unfold handle_quality_selection. rewrite H.
  cbn [List.length nth].
  replace (Z.of_nat (S (S (S (List.length rest)))) <? 3)%Z with false
    by (symmetry; apply Z.ltb_ge; lia).
  reflexivity.
Qed.

(** After [handle_url] has shown the selection for the message
    [message_id], a pressed quality button whose format id has no
    underscore, and the best-quality button, start the download of the
    stored URL with the format of the button. *)
Theorem pressed_button_starts_download (temp_dir : string) (message_id : Z)
    (url text : string) (keyboard : list button) (w0 : world)
    (fmt : MediaFormat) :
  url <> "" ->
  count_char "_" (format_id fmt) = 0%nat ->
  let w := selection_shown message_id url text keyboard w0 in
  handle_quality_selection T temp_dir
    (callback_data (quality_button T message_id fmt)) w
  = (download_and_send_video T temp_dir url (format_id fmt) ;;; ret None) w /\
  handle_quality_selection T temp_dir (callback_data (best_button message_id)) w
  = (download_and_send_video T temp_dir url "best" ;;; ret None) w.
Proof.
  intros Hurl Hid w.
  assert (Hget : forall (B : Type) (k : option string -> M B),
             (u <- user_data_get ("url_" ++ py_str_int message_id) ;; k u) w
             = k (Some url) w).
  { intros k. unfold bind, user_data_get, w, selection_shown.
    cbn [user_data find fst]. rewrite String.eqb_refl. reflexivity. }
  split.
  - rewrite (handle_quality_selection_parts temp_dir _ "download"
               (format_id fmt) (py_str_int message_id) []).
    + rewrite Hget. destruct url; [congruence | reflexivity].
    + rewrite quality_button_parts, str_split_none by exact Hid. reflexivity.
  - rewrite (handle_quality_selection_parts temp_dir _ "download" "best"
               (py_str_int message_id) [] (best_button_parts message_id)).
    rewrite Hget. destruct url; [congruence | reflexivity].
Qed.

(** A format id with an underscore is cut at it: the button is read as
    the part before the first underscore, for the message named by the
    part after it; with no URL stored for that, the session counts as
    expired although the URL of the message is stored. *)
Theorem underscore_in_format_id_expires (temp_dir : string) (message_id : Z)
    (url text : string) (keyboard : list button) (w0 : world)
    (fmt : MediaFormat) (a c : string) (rest : list string) :
  str_split "_" (format_id fmt) = a :: c :: rest ->
  c <> py_str_int message_id ->
  user_data w0 = [] ->
  let w := selection_shown message_id url text keyboard w0 in
  handle_quality_selection T temp_dir
    (callback_data (quality_button T message_id fmt)) w
  = (Ok (Some SessionExpired), w).
Proof.
  intros Hsplit Hc Hempty w.
  rewrite (handle_quality_selection_parts temp_dir _ "download" a c
             (rest ++ [py_str_int message_id])%list).
  2:{ rewrite quality_button_parts, Hsplit. reflexivity. }
  unfold bind, user_data_get, w, selection_shown.
  cbn [user_data find fst]. rewrite Hempty.
  assert (Hkey : String.eqb ("url_" ++ py_str_int message_id) ("url_" ++ c)
                 = false).
  { apply String.eqb_neq. intros E. apply Hc.
    cbn [append] in E. now injection E. }
  rewrite Hkey. reflexivity.
Qed.

(** The handler answers "invalid selection" exactly for data with fewer
    than two underscores, and then changes nothing. *)
Theorem invalid_selection_iff (temp_dir data : string) (w : world) :
  ((count_char "_" data < 2)%nat ->
   handle_quality_selection T temp_dir data w = (Ok (Some InvalidSelection), w)) /\
  (fst (handle_quality_selection T temp_dir data w) = Ok (Some InvalidSelection) ->
   (count_char "_" data < 2)%nat).
Proof.
  unfold handle_quality_selection. rewrite length_str_split.
  destruct (Z.of_nat (S (count_char "_" data)) <? 3)%Z eqn:E.
  - apply Z.ltb_lt in E. split; [reflexivity | lia].
  - apply Z.ltb_ge in E. split; [lia|].
    unfold bind at 1, user_data_get at 1.
    destruct (option_map _ _) as [[|c r]|]; cbn [ret fst]; try discriminate.
    unfold bind. destruct (download_and_send_video _ _ _ _ _) as [[[]|e] w'];
      cbn [ret fst]; discriminate.
Qed.

End QualitySelection.

Lemma pressed_button_starts_download_witness :
  let w := selection_shown 7 "https://x/v" "text" [] empty_world in
  handle_quality_selection one_stage_tools "/tmp/v"
    (callback_data (quality_button one_stage_tools 7 (sample_format "22" (Some 720%Z)))) w
  = (download_and_send_video one_stage_tools "/tmp/v" "https://x/v" "22" ;;; ret None) w /\
  handle_quality_selection one_stage_tools "/tmp/v" (callback_data (best_button 7)) w
  = (download_and_send_video one_stage_tools "/tmp/v" "https://x/v" "best" ;;; ret None) w.
Proof.
  apply (pressed_button_starts_download one_stage_tools "/tmp/v" 7
           "https://x/v" "text" [] empty_world (sample_format "22" (Some 720%Z))).
  - discriminate.
  - reflexivity.
Defined.

Lemma underscore_in_format_id_expires_witness :
  let w := selection_shown 7 "https://x/v" "text" [] empty_world in
  handle_quality_selection one_stage_tools "/tmp/v"
    (callback_data (quality_button one_stage_tools 7 hls_format)) w
  = (Ok (Some SessionExpired), w).
Proof.
  apply (underscore_in_format_id_expires one_stage_tools "/tmp/v" 7
           "https://x/v" "text" [] empty_world hls_format "hls" "720" []).
  - reflexivity.
  - discriminate.
  - reflexivity.
Defined.

Lemma invalid_selection_iff_witness :
  handle_quality_selection one_stage_tools "/tmp/v" "download_best" empty_world
  = (Ok (Some InvalidSelection), empty_world).
Proof.
  apply (proj1 (invalid_selection_iff one_stage_tools "/tmp/v" "download_best"
                  empty_world)).
  vm_compute. lia.
Defined.

(** ** The bot token *)

(** [_get_bot_token] returns the value of the first of [BOT_TOKEN],
    [TELEGRAM_BOT_TOKEN], [TELE_TOKEN] that is set and not empty, never an
    empty token, and raises [ValueError] exactly when none is. *)
Theorem bot_token_precedence (getenv : string -> option string) :
  (forall t, _get_bot_token getenv = Ok t ->
     t <> "" /\
     exists pre name post,
       token_names = (pre ++ name :: post)%list /\ getenv name = Some t /\
       Forall (fun n => truthy_str (getenv n) = false) pre) /\
  (_get_bot_token getenv = Raise ValueError <->
   Forall (fun n => truthy_str (getenv n) = false) token_names) /\
  (forall e, _get_bot_token getenv = Raise e -> e = ValueError).
Proof.
  unfold _get_bot_token, token_names.
  split; [|split].
  - intros t.
    destruct (getenv "BOT_TOKEN") as [[|c1 r1]|] eqn:E1;
      destruct (getenv "TELEGRAM_BOT_TOKEN") as [[|c2 r2]|] eqn:E2;
      destruct (getenv "TELE_TOKEN") as [[|c3 r3]|] eqn:E3;
      cbn [truthy_str negb]; intros Ht; try discriminate Ht;
      injection Ht as <-; (split; [discriminate|]).
    all: first
      [ solve [ exists [], "BOT_TOKEN", ["TELEGRAM_BOT_TOKEN"; "TELE_TOKEN"];
                split; [reflexivity|]; split; [assumption|]; constructor ]
      | solve [ exists ["BOT_TOKEN"], "TELEGRAM_BOT_TOKEN", ["TELE_TOKEN"];
                split; [reflexivity|]; split; [assumption|];
                repeat (constructor; [rewrite E1; reflexivity|]); constructor ]
      | solve [ exists ["BOT_TOKEN"; "TELEGRAM_BOT_TOKEN"], "TELE_TOKEN", [];
                split; [reflexivity|]; split; [assumption|];
                repeat (constructor; [rewrite ?E1, ?E2; reflexivity|]);
                constructor ] ].
  - rewrite !Forall_cons_iff.
    destruct (getenv "BOT_TOKEN") as [[|c1 r1]|];
      destruct (getenv "TELEGRAM_BOT_TOKEN") as [[|c2 r2]|];
      destruct (getenv "TELE_TOKEN") as [[|c3 r3]|];
      cbn [truthy_str negb];
      (split; [intros H; try discriminate H; repeat split; constructor
              | intros (H1 & H2 & H3 & _); try discriminate; reflexivity]).
  - intros e.
    destruct (getenv "BOT_TOKEN") as [[|c1 r1]|];
      destruct (getenv "TELEGRAM_BOT_TOKEN") as [[|c2 r2]|];
      destruct (getenv "TELE_TOKEN") as [[|c3 r3]|];
      cbn [truthy_str negb]; intros He; try discriminate He;
      injection He as <-; reflexivity.
Qed.

Lemma bot_token_precedence_witness :
  "123:abc" <> "" /\
  exists pre name post,
    token_names = (pre ++ name :: post)%list /\
    sample_env name = Some "123:abc" /\
    Forall (fun n => truthy_str (sample_env n) = false) pre.
Proof.
  apply (proj1 (bot_token_precedence sample_env) "123:abc").
  reflexivity.
Defined.

(** ** A duration that cannot be used *)

Section UnusableDuration.

Variable T : tools.

(** When the probe reports a duration that is not a positive finite
    number (zero, negative, infinite, not a number), [compress_video]
    returns nothing and starts no encode. *)
Theorem unusable_duration_is_rejected (input_path : string)
    (max_size_bytes : N) (w w1 : world) (d : float) :
  _get_video_duration T input_path w = (Ok (Some d), w1) ->
  (forall md ed, d <> S754_finite false md ed) ->
  fst (compress_video T input_path max_size_bytes w) = Ok None /\
  encodes (snd (compress_video T input_path max_size_bytes w)) = encodes w.
Proof.
  intros Hp Hd.
  assert (Hw1 : encodes w1 = encodes w).
  { unfold encodes. now rewrite (_get_video_duration_events _ _ _ _ _ Hp). }
  destruct (fs w input_path) as [size|] eqn:Hin.
  2:{ rewrite compress_video_missing_input by exact Hin. split; reflexivity. }
  destruct (is_zero d) eqn:Hz.
  { erewrite compress_video_no_duration by eauto. split; [reflexivity | exact Hw1]. }
  destruct (stage1_target_bitrate max_size_bytes d w1) as [[b|e] w2] eqn:Hb.
  - assert (Hw2 : encodes w2 = encodes w).
    { apply stage1_target_bitrate_world in Hb as (_ & _ & evs & Hev & Hdiv).
      rewrite (encodes_app_divisions _ _ _ Hev Hdiv). exact Hw1. }
    destruct (Z.lt_ge_cases b 100) as [Hlt|Hge].
    + erewrite compress_video_below_floor by eauto.
      split; [reflexivity | exact Hw2].
    + exfalso.
      destruct (stage1_bitrate_inputs max_size_bytes d w1 b)
        as (p & md & ed & _ & Hfin & _); [now rewrite Hb | exact Hge |].
      exact (Hd md ed Hfin).
  - assert (Hw2 : encodes w2 = encodes w).
    { apply stage1_target_bitrate_world in Hb as (_ & _ & evs & Hev & Hdiv).
      rewrite (encodes_app_divisions _ _ _ Hev Hdiv). exact Hw1. }
    erewrite compress_video_bitrate_raises by eauto.
    split; [reflexivity | exact Hw2].
Qed.

End UnusableDuration.

Lemma unusable_duration_is_rejected_witness :
  fst (compress_video nan_duration_tools clip MAX_SIZE clip_world) = Ok None /\
  encodes (snd (compress_video nan_duration_tools clip MAX_SIZE clip_world))
  = encodes clip_world.
Proof.
  apply (unusable_duration_is_rejected nan_duration_tools clip MAX_SIZE
           clip_world
           (snd (_get_video_duration nan_duration_tools clip clip_world))
           S754_nan).
  - reflexivity.
  - discriminate.
Defined.

(** ** Texts *)

Section Texts.

Lemma length_str_take (n : nat) (s : string) :
  String.length (str_take n s) = Nat.min n (String.length s).
Proof.
  revert s. induction n as [|n IH]; intros [|c r]; cbn; try reflexivity.
  now rewrite IH.
Qed.

Lemma length_append' (a b : string) :
  String.length (a ++ b) = (String.length a + String.length b)%nat.
Proof. induction a as [|c r IH]; cbn; [reflexivity | now rewrite IH]. Qed.

(** [truncate_text] leaves a text that fits as it is; with a limit of 3
    or more a longer text is cut to exactly the limit, its last three
    characters being the dots; with a limit below 3 the result of cutting
    is longer than the limit. *)
Theorem truncate_text_length (text : string) (max_length : Z) :
  ((Z.of_nat (String.length text) <= max_length)%Z ->
   truncate_text text max_length = text) /\
  ((max_length < Z.of_nat (String.length text))%Z -> (3 <= max_length)%Z ->
   truncate_text text max_length
   = str_take (Z.to_nat (max_length - 3)) text ++ "..." /\
   Z.of_nat (String.length (truncate_text text max_length)) = max_length) /\
  ((max_length < Z.of_nat (String.length text))%Z -> (max_length < 3)%Z ->
   (max_length < Z.of_nat (String.length (truncate_text text max_length)))%Z).
Proof.
  unfold truncate_text, py_slice_to.
  destruct (Z.of_nat (String.length text) <=? max_length)%Z eqn:E.
  - apply Z.leb_le in E. repeat split; intros; try lia.
  - apply Z.leb_gt in E. split; [lia|]. split.
    + intros _ H3.
      replace (0 <=? max_length - 3)%Z with true by (symmetry; apply Z.leb_le; lia).
      split; [reflexivity|].
      rewrite length_append', length_str_take. cbn [String.length]. lia.
    + intros _ H3.
      replace (0 <=? max_length - 3)%Z with false by (symmetry; apply Z.leb_gt; lia).
      rewrite length_append'. cbn [String.length]. lia.
Qed.

(** One more [replace] on a text escaped for [chars]. *)
Lemma replace_after_escape (chars : list ascii) (c : ascii) (text : string) :
  is_one_of chars c = false -> c <> "\"%char ->
  str_replace_char c (escaped c) (escape_each chars text)
  = escape_each (chars ++ [c]) text.
Proof.
  intros Hc Hb.
  assert (Hmem : forall a, is_one_of (chars ++ [c]) a
                           = (is_one_of chars a || Ascii.eqb a c)%bool).
  { intros a. unfold is_one_of. rewrite existsb_app. cbn [existsb].
    now rewrite Bool.orb_false_r. }
  assert (Hbs : Ascii.eqb "\" c = false).
  { apply Ascii.eqb_neq. congruence. }
  induction text as [|a r IH]; [reflexivity|].
  cbn [escape_each]. rewrite Hmem.
  destruct (is_one_of chars a) eqn:Ha; cbn [orb str_replace_char].
  - rewrite Hbs.
    assert (Hac : Ascii.eqb a c = false).
    { apply Ascii.eqb_neq. intros ->. congruence. }
    rewrite Hac, IH. reflexivity.
  - destruct (Ascii.eqb a c) eqn:Hac.
    + apply Ascii.eqb_eq in Hac as ->. rewrite IH. reflexivity.
    + rewrite IH. reflexivity.
Qed.

Lemma escape_each_nil (text : string) : escape_each [] text = text.
Proof. induction text as [|a r IH]; cbn; [reflexivity | now rewrite IH]. Qed.

Lemma replaces_after_escape (done todo : list ascii) (text : string) :
  NoDup (done ++ todo) -> ~ In "\"%char todo ->
  fold_left (fun t c => str_replace_char c (escaped c) t) todo
    (escape_each done text)
  = escape_each (done ++ todo) text.
Proof.
  revert done. induction todo as [|c rest IH]; intros done Hnd Hb.
  - cbn [fold_left]. now rewrite app_nil_r.
  - cbn [fold_left]. rewrite replace_after_escape.
    + change (c :: rest) with ([c] ++ rest)%list. rewrite app_assoc.
      apply IH.
      * now rewrite <- app_assoc.
      * intros H. apply Hb. now right.
    + apply NoDup_remove_2 in Hnd.
      unfold is_one_of. destruct (existsb (Ascii.eqb c) done) eqn:E;
        [|reflexivity].
      exfalso. apply Hnd. apply in_or_app. left.
      apply existsb_exists in E as (x & Hx & Hcx).
      apply Ascii.eqb_eq in Hcx. now subst.
    + intros ->. apply Hb. now left.
Qed.

Lemma length_escape_each (chars : list ascii) (text : string) :
  String.length (escape_each chars text)
  = (String.length text + count_of chars text)%nat.
Proof.
  induction text as [|a r IH]; [reflexivity|].
  cbn [escape_each count_of]. destruct (is_one_of chars a);
    cbn [String.length]; rewrite IH; lia.
Qed.

(** The eighteen replacements of [escape_markdown] amount to one pass
    that puts a backslash in front of every special character and leaves
    the other characters alone; the text grows by the number of its
    special characters. *)
Theorem escape_markdown_one_pass (text : string) :
  escape_markdown text = escape_each special_chars text /\
  String.length (escape_markdown text)
  = (String.length text + count_of special_chars text)%nat.
Proof.
  assert (H : escape_markdown text = escape_each special_chars text).
  { unfold escape_markdown.
    rewrite <- (escape_each_nil text) at 1.
    apply (replaces_after_escape [] special_chars).
    - cbn [app]. unfold special_chars.
      repeat (constructor; [cbn [In]; intuition discriminate|]).
      constructor.
    - unfold special_chars. cbn [In]. intuition discriminate. }
  split; [exact H|]. rewrite H. apply length_escape_each.
Qed.

End Texts.

Lemma truncate_text_length_witness :
  (2 < Z.of_nat (String.length (truncate_text "abcdef" 2)))%Z.
Proof.
  apply (proj2 (proj2 (truncate_text_length "abcdef" 2))).
  - vm_compute. reflexivity.
  - lia.
Defined.

(** ** A duration that is a float *)

Section FloatDuration.

Variable T : tools.

(** When the report has two or more good formats and its duration is a
    float other than zero, building the selection text raises
    [ValueError]: [handle_url] shows no quality buttons, stores no URL and
    starts no download; the status message reports the failure. *)
Theorem float_duration_hides_selection (temp_dir : string) (message_id : Z)
    (url : string) (w : world) (info : VideoInfo) (fmts : list MediaFormat)
    (f : float) :
  is_valid_url T url = true ->
  ydl_extract_info T url = Ok (Some info) ->
  formats info = Some fmts ->
  (1 < List.length (good_formats_of (sort_by_height (valid_formats fmts))))%nat ->
  duration info = Some (PyFloat f) ->
  is_zero f = false ->
  handle_url T temp_dir message_id url w
  = (Ok tt, log (EvEdit (MsgProcessFailed ValueError) None)
              (log (EvReply MsgProcessing) w)).
Proof.
  intros Hv Hx Hf Hlen Hd Hz.
  assert (Hne : valid_formats fmts <> []).
  { intros E. rewrite E in Hlen. cbn in Hlen. lia. }
  rewrite (handle_url_reaches_choice T _ _ _ _ _ _ Hv Hx Hf Hne).
  assert (Hb : (1 <? Z.of_nat (List.length
                  (good_formats_of (sort_by_height (valid_formats fmts)))))%Z
               = true) by (apply Z.ltb_lt; lia).
  rewrite Hb.
  unfold try_except, bind at 1, lift at 1, selection_text, duration_line.
  rewrite Hd, Hz. reflexivity.
Qed.

End FloatDuration.

Lemma float_duration_hides_selection_witness :
  handle_url float_duration_tools "/tmp/v" 7 "https://x/v" empty_world
  = (Ok tt, log (EvEdit (MsgProcessFailed ValueError) None)
              (log (EvReply MsgProcessing) empty_world)).
Proof.
  apply (float_duration_hides_selection float_duration_tools "/tmp/v" 7
           "https://x/v" empty_world float_duration_info two_good_formats
           (S754_finite false 8831277394296832 (-46))).
  - reflexivity.
  - reflexivity.
  - reflexivity.
  - vm_compute. lia.
  - reflexivity.
  - reflexivity.
Defined.
